(** * DryEyeGuard camera core: blink detector, distance estimator, quality monitor

    A shallow embedding of the signal-processing classes under
    [src/modules/camera] and the properties their specification states
    (Part II), followed by further properties of the same code (Part III).

    Modelling conventions.
    - A JavaScript [number] is an exact rational ([Q]).  The model covers
      finite arithmetic: NaN and the infinities are not represented, so a
      statement that divides mentions that its divisor is not zero.
    - An object with mutable fields is a record; a method is a function from
      the record (and its arguments) to the updated record, paired with the
      returned value when there is one.
    - [Date.now()] is an explicit argument [now].
    - What a class calls outside itself ([calculateEAR],
      [extractEyeLandmarks] and [calculatePoseAngles] of [LandmarkProvider],
      [Math.hypot], [Math.sqrt], the canvas read-back) is a Section variable
      of that class; the arithmetic of [LandmarkProvider] is modelled in the
      module of that name and plugged in where a statement needs it.
    - The asynchronous burst check is an interaction tree over the events it
      performs (clock reads, timers, preview start and stop). *)

From Stdlib Require Import QArith Qround Qabs Lqa List Bool Lia ZArith Arith.
From Stdlib Require Import Permutation Sorted.
From Stdlib Require String.
From ITree Require Import ITree ITreeFacts Events.State Events.StateFacts.
Import ListNotations.
Local Open Scope Q_scope.

(* ===================================================================== *)
(** * Part I: the program                                                 *)
(* ===================================================================== *)

(** ** JavaScript numbers and array helpers *)

Module Js.

Definition number := Q.

(** [a < b], [a <= b], [a > b], [a >= b] on numbers. *)
Definition ltb (a b : number) : bool := negb (Qle_bool b a).
Definition leb (a b : number) : bool := Qle_bool a b.
Definition gtb (a b : number) : bool := ltb b a.
Definition geb (a b : number) : bool := leb b a.

(** [Math.round]: the nearest integer, halves rounded up. *)
Definition Math_round (x : number) : number := inject_Z (Qfloor (x + (1 # 2))).

(** [Math.min(a, b)] and [Math.max(a, b)]. *)
Definition Math_min (a b : number) : number := if leb a b then a else b.
Definition Math_max (a b : number) : number := if leb a b then b else a.

(** [xs.length] as a number. *)
Definition len {A} (xs : list A) : number := inject_Z (Z.of_nat (length xs)).

(** [xs.reduce((a, b) => a + b, 0)]. *)
Definition sum (xs : list number) : number := fold_left Qplus xs 0.

(** [[...xs].sort((a, b) => a - b)]: a stable ascending sort. *)
Fixpoint insertAsc (x : number) (xs : list number) : list number :=
  match xs with
  | [] => [x]
  | y :: ys => if leb x y then x :: xs else y :: insertAsc x ys
  end.

Fixpoint sortAsc (xs : list number) : list number :=
  match xs with
  | [] => []
  | x :: ys => insertAsc x (sortAsc ys)
  end.

(** [sorted[Math.floor(sorted.length / 2)]] of the sorted copy: the middle
    element (the upper one of the two for an even length).  Every caller
    guards against the empty array, where JavaScript yields [undefined]. *)
Definition median (xs : list number) : number :=
  let sorted := sortAsc xs in
  nth (length sorted / 2) sorted 0.

(** [xs.shift()] discards the first element. *)
Definition shift {A} (xs : list A) : list A := tl xs.

End Js.

Declare Scope js_scope.
Delimit Scope js_scope with js.
Infix "<?" := Js.ltb (at level 70, no associativity) : js_scope.
Infix "<=?" := Js.leb (at level 70, no associativity) : js_scope.
Infix ">?" := Js.gtb (at level 70, no associativity) : js_scope.
Infix ">=?" := Js.geb (at level 70, no associativity) : js_scope.
Local Open Scope js_scope.

(** ** Blink detector

    [src/modules/camera/BlinkDetector.ts] and the detector the camera engine
    imports (the second unit of [src/modules/camera/quality/QualityMonitor.ts])
    declare the same fields and the same [smoothOpenness], [calibrateBaseline],
    [updateStateMachine], [completeBlink] and [reset]; these are modelled once.
    They differ in [processFrame] (only the first writes [currentEAR], a
    field the second does not have and never touches here) and in
    [calculateMetrics]; both are modelled per file in the sub-modules
    [Camera] and [Engine]. *)

Module Blink.

Inductive BlinkState := OPEN | CLOSING | CLOSED | OPENING.

Record BlinkConfig := {
  earThreshold : Q;
  earCloseThreshold : Q;
  earOpenThreshold : Q;
  incompleteThreshold : Q;
  minBlinkDuration : Q;
  maxBlinkDuration : Q;
  debounceTime : Q;
  smoothingWindowSize : Q
}.

Definition DEFAULT_CONFIG : BlinkConfig := {|
  earThreshold := 0.2;
  earCloseThreshold := 0.25;
  earOpenThreshold := 0.28;
  incompleteThreshold := 0.30;
  minBlinkDuration := 80;
  maxBlinkDuration := 400;
  debounceTime := 120;
  smoothingWindowSize := 3
|}.

(** [BlinkResult] / [BlinkEvent]. *)
Record BlinkResult := {
  timestamp : Q;
  isComplete : bool;
  minOpenness : Q;
  duration : Q
}.

(** [EyeOpenness]: [{ left, right, timestamp }]. *)
Record EyeOpenness := {
  eoLeft : Q;
  eoRight : Q;
  eoTimestamp : Q
}.

Record BlinkDetector := {
  config : BlinkConfig;
  state : BlinkState;
  blinkHistory : list BlinkResult;
  opennessHistory : list EyeOpenness;
  smoothingWindow : list Q;
  monitoringStartTime : Q;
  baselineOpenness : Q;
  currentBlinkStart : Q;
  currentBlinkMinOpenness : Q;
  lastBlinkTimestamp : Q;
  isCalibrated : bool;
  calibrationSamples : list Q;
  currentEAR : Q
}.

(** Field assignments [this.f = v]. *)
Definition set_state (d : BlinkDetector) (v : BlinkState) : BlinkDetector :=
  {| config := config d; state := v; blinkHistory := blinkHistory d;
     opennessHistory := opennessHistory d; smoothingWindow := smoothingWindow d;
     monitoringStartTime := monitoringStartTime d;
     baselineOpenness := baselineOpenness d;
     currentBlinkStart := currentBlinkStart d;
     currentBlinkMinOpenness := currentBlinkMinOpenness d;
     lastBlinkTimestamp := lastBlinkTimestamp d;
     isCalibrated := isCalibrated d; calibrationSamples := calibrationSamples d;
     currentEAR := currentEAR d |}.

Definition set_blinkHistory (d : BlinkDetector) (v : list BlinkResult) : BlinkDetector :=
  {| config := config d; state := state d; blinkHistory := v;
     opennessHistory := opennessHistory d; smoothingWindow := smoothingWindow d;
     monitoringStartTime := monitoringStartTime d;
     baselineOpenness := baselineOpenness d;
     currentBlinkStart := currentBlinkStart d;
     currentBlinkMinOpenness := currentBlinkMinOpenness d;
     lastBlinkTimestamp := lastBlinkTimestamp d;
     isCalibrated := isCalibrated d; calibrationSamples := calibrationSamples d;
     currentEAR := currentEAR d |}.

Definition set_opennessHistory (d : BlinkDetector) (v : list EyeOpenness) : BlinkDetector :=
  {| config := config d; state := state d; blinkHistory := blinkHistory d;
     opennessHistory := v; smoothingWindow := smoothingWindow d;
     monitoringStartTime := monitoringStartTime d;
     baselineOpenness := baselineOpenness d;
     currentBlinkStart := currentBlinkStart d;
     currentBlinkMinOpenness := currentBlinkMinOpenness d;
     lastBlinkTimestamp := lastBlinkTimestamp d;
     isCalibrated := isCalibrated d; calibrationSamples := calibrationSamples d;
     currentEAR := currentEAR d |}.

Definition set_smoothingWindow (d : BlinkDetector) (v : list Q) : BlinkDetector :=
  {| config := config d; state := state d; blinkHistory := blinkHistory d;
     opennessHistory := opennessHistory d; smoothingWindow := v;
     monitoringStartTime := monitoringStartTime d;
     baselineOpenness := baselineOpenness d;
     currentBlinkStart := currentBlinkStart d;
     currentBlinkMinOpenness := currentBlinkMinOpenness d;
     lastBlinkTimestamp := lastBlinkTimestamp d;
     isCalibrated := isCalibrated d; calibrationSamples := calibrationSamples d;
     currentEAR := currentEAR d |}.

Definition set_baselineOpenness (d : BlinkDetector) (v : Q) : BlinkDetector :=
  {| config := config d; state := state d; blinkHistory := blinkHistory d;
     opennessHistory := opennessHistory d; smoothingWindow := smoothingWindow d;
     monitoringStartTime := monitoringStartTime d;
     baselineOpenness := v;
     currentBlinkStart := currentBlinkStart d;
     currentBlinkMinOpenness := currentBlinkMinOpenness d;
     lastBlinkTimestamp := lastBlinkTimestamp d;
     isCalibrated := isCalibrated d; calibrationSamples := calibrationSamples d;
     currentEAR := currentEAR d |}.

Definition set_currentBlinkStart (d : BlinkDetector) (v : Q) : BlinkDetector :=
  {| config := config d; state := state d; blinkHistory := blinkHistory d;
     opennessHistory := opennessHistory d; smoothingWindow := smoothingWindow d;
     monitoringStartTime := monitoringStartTime d;
     baselineOpenness := baselineOpenness d;
     currentBlinkStart := v;
     currentBlinkMinOpenness := currentBlinkMinOpenness d;
     lastBlinkTimestamp := lastBlinkTimestamp d;
     isCalibrated := isCalibrated d; calibrationSamples := calibrationSamples d;
     currentEAR := currentEAR d |}.

Definition set_currentBlinkMinOpenness (d : BlinkDetector) (v : Q) : BlinkDetector :=
  {| config := config d; state := state d; blinkHistory := blinkHistory d;
     opennessHistory := opennessHistory d; smoothingWindow := smoothingWindow d;
     monitoringStartTime := monitoringStartTime d;
     baselineOpenness := baselineOpenness d;
     currentBlinkStart := currentBlinkStart d;
     currentBlinkMinOpenness := v;
     lastBlinkTimestamp := lastBlinkTimestamp d;
     isCalibrated := isCalibrated d; calibrationSamples := calibrationSamples d;
     currentEAR := currentEAR d |}.

Definition set_lastBlinkTimestamp (d : BlinkDetector) (v : Q) : BlinkDetector :=
  {| config := config d; state := state d; blinkHistory := blinkHistory d;
     opennessHistory := opennessHistory d; smoothingWindow := smoothingWindow d;
     monitoringStartTime := monitoringStartTime d;
     baselineOpenness := baselineOpenness d;
     currentBlinkStart := currentBlinkStart d;
     currentBlinkMinOpenness := currentBlinkMinOpenness d;
     lastBlinkTimestamp := v;
     isCalibrated := isCalibrated d; calibrationSamples := calibrationSamples d;
     currentEAR := currentEAR d |}.

Definition set_isCalibrated (d : BlinkDetector) (v : bool) : BlinkDetector :=
  {| config := config d; state := state d; blinkHistory := blinkHistory d;
     opennessHistory := opennessHistory d; smoothingWindow := smoothingWindow d;
     monitoringStartTime := monitoringStartTime d;
     baselineOpenness := baselineOpenness d;
     currentBlinkStart := currentBlinkStart d;
     currentBlinkMinOpenness := currentBlinkMinOpenness d;
     lastBlinkTimestamp := lastBlinkTimestamp d;
     isCalibrated := v; calibrationSamples := calibrationSamples d;
     currentEAR := currentEAR d |}.

Definition set_calibrationSamples (d : BlinkDetector) (v : list Q) : BlinkDetector :=
  {| config := config d; state := state d; blinkHistory := blinkHistory d;
     opennessHistory := opennessHistory d; smoothingWindow := smoothingWindow d;
     monitoringStartTime := monitoringStartTime d;
     baselineOpenness := baselineOpenness d;
     currentBlinkStart := currentBlinkStart d;
     currentBlinkMinOpenness := currentBlinkMinOpenness d;
     lastBlinkTimestamp := lastBlinkTimestamp d;
     isCalibrated := isCalibrated d; calibrationSamples := v;
     currentEAR := currentEAR d |}.

Definition set_currentEAR (d : BlinkDetector) (v : Q) : BlinkDetector :=
  {| config := config d; state := state d; blinkHistory := blinkHistory d;
     opennessHistory := opennessHistory d; smoothingWindow := smoothingWindow d;
     monitoringStartTime := monitoringStartTime d;
     baselineOpenness := baselineOpenness d;
     currentBlinkStart := currentBlinkStart d;
     currentBlinkMinOpenness := currentBlinkMinOpenness d;
     lastBlinkTimestamp := lastBlinkTimestamp d;
     isCalibrated := isCalibrated d; calibrationSamples := calibrationSamples d;
     currentEAR := v |}.

(** [constructor(config)], with the merged configuration passed in. *)
Definition new (cfg : BlinkConfig) : BlinkDetector :=
  {| config := cfg; state := OPEN; blinkHistory := []; opennessHistory := [];
     smoothingWindow := []; monitoringStartTime := 0;
     baselineOpenness := 0.35;
     currentBlinkStart := 0; currentBlinkMinOpenness := 1.0;
     lastBlinkTimestamp := 0;
     isCalibrated := false; calibrationSamples := [];
     currentEAR := 0 |}.

(** [reset()]: the configuration, the baseline and [currentEAR] are kept. *)
Definition reset (d : BlinkDetector) (now : Q) : BlinkDetector :=
  {| config := config d; state := OPEN; blinkHistory := []; opennessHistory := [];
     smoothingWindow := []; monitoringStartTime := now;
     baselineOpenness := baselineOpenness d;
     currentBlinkStart := 0; currentBlinkMinOpenness := 1.0;
     lastBlinkTimestamp := 0;
     isCalibrated := false; calibrationSamples := [];
     currentEAR := currentEAR d |}.

(** [smoothOpenness(openness)]: push, trim the window, return its median. *)
Definition smoothOpenness (d : BlinkDetector) (openness : Q) : Q * BlinkDetector :=
  let w := smoothingWindow d ++ [openness] in
  let w := if Js.len w >? smoothingWindowSize (config d) then Js.shift w else w in
  (Js.median w, set_smoothingWindow d w).

(** [calibrateBaseline(openness)]. *)
Definition calibrateBaseline (d : BlinkDetector) (openness : Q) : BlinkDetector :=
  let d := if openness >? 0.5
           then set_calibrationSamples d (calibrationSamples d ++ [openness])
           else d in
  if Js.len (calibrationSamples d) >=? 30
  then set_isCalibrated
         (set_baselineOpenness d (Js.median (calibrationSamples d))) true
  else d.

(** [completeBlink(timestamp)]. *)
Definition completeBlink (d : BlinkDetector) (timestamp : Q) : BlinkDetector :=
  let duration := timestamp - currentBlinkStart d in
  if (duration <? minBlinkDuration (config d))
     || (duration >? maxBlinkDuration (config d))
  then d
  else if timestamp - lastBlinkTimestamp d <? debounceTime (config d)
  then d
  else
    let isComplete :=
      currentBlinkMinOpenness d / baselineOpenness d
        <=? incompleteThreshold (config d) in
    let blinkEvent :=
      {| timestamp := timestamp; isComplete := isComplete;
         minOpenness := currentBlinkMinOpenness d; duration := duration |} in
    let d := set_blinkHistory d (blinkHistory d ++ [blinkEvent]) in
    let d := set_lastBlinkTimestamp d timestamp in
    let sixtySecondsAgo := timestamp - 60000 in
    set_blinkHistory d
      (filter (fun b => Blink.timestamp b >? sixtySecondsAgo) (blinkHistory d)).

(** The statement repeated in CLOSING, CLOSED and OPENING:
    [if (openness < this.currentBlinkMinOpenness) this.currentBlinkMinOpenness = openness]. *)
Definition trackMinOpenness (d : BlinkDetector) (openness : Q) : BlinkDetector :=
  if openness <? currentBlinkMinOpenness d
  then set_currentBlinkMinOpenness d openness
  else d.

(** [updateStateMachine(openness, timestamp)]. *)
Definition updateStateMachine (d : BlinkDetector) (openness timestamp : Q)
  : BlinkDetector :=
  let earValue := openness * 0.35 in
  match state d with
  | OPEN =>
      if earValue <? earCloseThreshold (config d)
      then set_currentBlinkMinOpenness
             (set_currentBlinkStart (set_state d CLOSING) timestamp) openness
      else d
  | CLOSING =>
      let d := trackMinOpenness d openness in
      let d := if earValue <? earThreshold (config d)
               then set_state d CLOSED else d in
      if earValue >? earOpenThreshold (config d)
      then set_state d OPEN else d
  | CLOSED =>
      let d := trackMinOpenness d openness in
      if earValue >=? earThreshold (config d)
      then set_state d OPENING else d
  | OPENING =>
      let d := trackMinOpenness d openness in
      if earValue >=? earOpenThreshold (config d)
      then set_state (completeBlink d timestamp) OPEN
      else d
  end.


(** The [BlinkMetrics] both [calculateMetrics] return. *)
Record BlinkMetrics := {
  blinkCount : Q;
  blinkRate : Q;
  incompleteBlinkCount : Q;
  incompleteBlinkRatio : Q;
  confidence : Q
}.

Definition zeroMetrics : BlinkMetrics :=
  {| blinkCount := 0; blinkRate := 0; incompleteBlinkCount := 0;
     incompleteBlinkRatio := 0; confidence := 0 |}.

(** [src/modules/camera/BlinkDetector.ts]. *)
Module Camera.

Section ProcessFrame.

(** Six ordered contour points of one eye, and [calculateEAR] of
    [LandmarkProvider], a parameter of the detector here. *)
Variable EyeContour : Type.
Variable calculateEAR : EyeContour -> Q.

Record EyeLandmarks := { left : EyeContour; right : EyeContour }.

(** [processFrame(eyeLandmarks, timestamp)]. *)
Definition processFrame (d : BlinkDetector) (eyeLandmarks : option EyeLandmarks)
    (timestamp : Q) : option EyeOpenness * BlinkDetector :=
  match eyeLandmarks with
  | None => (None, d)
  | Some lm =>
      let leftEAR := calculateEAR (left lm) in
      let rightEAR := calculateEAR (right lm) in
      let rawOpenness := (leftEAR + rightEAR) / 2 in
      let normalizedOpenness := Js.Math_min 1 (rawOpenness / 0.35) in
      let '(smoothedOpenness, d) := smoothOpenness d normalizedOpenness in
      let d := set_currentEAR d rawOpenness in
      let eyeOpenness :=
        {| eoLeft := leftEAR / 0.35; eoRight := rightEAR / 0.35;
           eoTimestamp := timestamp |} in
      let d := set_opennessHistory d (opennessHistory d ++ [eyeOpenness]) in
      let sixtySecondsAgo := timestamp - 60000 in
      let d := set_opennessHistory d
                 (filter (fun h => eoTimestamp h >? sixtySecondsAgo)
                         (opennessHistory d)) in
      let d := if negb (isCalibrated d)
               then calibrateBaseline d smoothedOpenness else d in
      let d := updateStateMachine d smoothedOpenness timestamp in
      (Some eyeOpenness, d)
  end.

End ProcessFrame.

(** [calculateMetrics(durationSeconds, avgFps = 30)]. *)
Definition calculateMetrics (d : BlinkDetector) (durationSeconds : Q)
    (avgFps : option Q) : BlinkMetrics :=
  let avgFps := match avgFps with Some f => f | None => 30 end in
  if Nat.eqb (length (blinkHistory d)) 0 then zeroMetrics
  else
    let blinkCount := Js.len (blinkHistory d) in
    let incompleteBlinkCount :=
      Js.len (filter (fun b => negb (isComplete b)) (blinkHistory d)) in
    let minutes := durationSeconds / 60 in
    let blinkRate := if minutes >? 0 then blinkCount / minutes else 0 in
    let incompleteBlinkRatio :=
      if blinkCount >? 0 then incompleteBlinkCount / blinkCount else 0 in
    let confidence := 1.0 in
    let confidence :=
      if avgFps <? 20 then confidence * 0.7
      else if avgFps <? 24 then confidence * 0.85
      else confidence in
    let confidence :=
      if negb (isCalibrated d) then confidence * 0.5 else confidence in
    {| blinkCount := blinkCount;
       blinkRate := Js.Math_round (blinkRate * 10) / 10;
       incompleteBlinkCount := incompleteBlinkCount;
       incompleteBlinkRatio := Js.Math_round (incompleteBlinkRatio * 100) / 100;
       confidence := Js.Math_round (confidence * 100) / 100 |}.

(** [getMetrics()] at wall-clock time [now]: the metrics over the time
    monitored (a fixed 10 s before the first [reset]), paired with the
    [currentEAR] that the returned object carries beside them. *)
Definition getMetrics (d : BlinkDetector) (now : Q) : BlinkMetrics * Q :=
  let elapsed :=
    if monitoringStartTime d >? 0
    then (now - monitoringStartTime d) / 1000
    else 10 in
  (calculateMetrics d elapsed None, currentEAR d).

(** The object [getBlinkData()] returns. *)
Record BlinkData := {
  totalBlinks : Q;
  incompleteBlinks : Q;
  blinkRate : Q
}.

(** [getBlinkData()]. *)
Definition getBlinkData (d : BlinkDetector) : BlinkData :=
  let metrics := calculateMetrics d 60 None in
  {| totalBlinks := Js.len (blinkHistory d);
     incompleteBlinks :=
       Js.len (filter (fun b => negb (isComplete b)) (blinkHistory d));
     blinkRate := Blink.blinkRate metrics |}.

End Camera.

(** The detector imported by [CameraEngine]
    ([src/modules/camera/quality/QualityMonitor.ts], second unit). *)
Module Engine.

Section ProcessFrame.

Variable EyeContour : Type.
Variable calculateEAR : EyeContour -> Q.

Record EyeLandmarks := { leftEye : EyeContour; rightEye : EyeContour }.

(** [processFrame(eyeLandmarks, timestamp)]; this detector has no
    [currentEAR] to write. *)
Definition processFrame (d : BlinkDetector) (eyeLandmarks : option EyeLandmarks)
    (timestamp : Q) : option EyeOpenness * BlinkDetector :=
  match eyeLandmarks with
  | None => (None, d)
  | Some lm =>
      let leftEAR := calculateEAR (leftEye lm) in
      let rightEAR := calculateEAR (rightEye lm) in
      let rawOpenness := (leftEAR + rightEAR) / 2 in
      let normalizedOpenness := Js.Math_min 1 (rawOpenness / 0.35) in
      let '(smoothedOpenness, d) := smoothOpenness d normalizedOpenness in
      let eyeOpenness :=
        {| eoLeft := leftEAR / 0.35; eoRight := rightEAR / 0.35;
           eoTimestamp := timestamp |} in
      let d := set_opennessHistory d (opennessHistory d ++ [eyeOpenness]) in
      let sixtySecondsAgo := timestamp - 60000 in
      let d := set_opennessHistory d
                 (filter (fun h => eoTimestamp h >? sixtySecondsAgo)
                         (opennessHistory d)) in
      let d := if negb (isCalibrated d)
               then calibrateBaseline d smoothedOpenness else d in
      let d := updateStateMachine d smoothedOpenness timestamp in
      (Some eyeOpenness, d)
  end.

End ProcessFrame.

(** [calculateMetrics(durationSeconds, avgFps)]. *)
Definition calculateMetrics (d : BlinkDetector) (durationSeconds avgFps : Q)
    : BlinkMetrics :=
  if Nat.eqb (length (blinkHistory d)) 0 then zeroMetrics
  else
    let blinkCount := Js.len (blinkHistory d) in
    let incompleteBlinkCount :=
      Js.len (filter (fun b => negb (isComplete b)) (blinkHistory d)) in
    let minutes := durationSeconds / 60 in
    let blinkRate := if minutes >? 0 then blinkCount / minutes else 0 in
    let incompleteBlinkRatio :=
      if blinkCount >? 0 then incompleteBlinkCount / blinkCount else 0 in
    let confidence := 1.0 in
    let confidence :=
      if avgFps <? 20 then confidence * 0.7
      else if avgFps <? 24 then confidence * 0.85
      else confidence in
    let confidence :=
      if negb (isCalibrated d) then confidence * 0.5 else confidence in
    let confidence :=
      if avgFps <? 30 then confidence * 0.8 else confidence in
    {| blinkCount := blinkCount;
       blinkRate := Js.Math_round (blinkRate * 10) / 10;
       incompleteBlinkCount := incompleteBlinkCount;
       incompleteBlinkRatio := Js.Math_round (incompleteBlinkRatio * 100) / 100;
       confidence := Js.Math_round (confidence * 100) / 100 |}.

(** [getBlinkHistory()]. *)
Definition getBlinkHistory (d : BlinkDetector) : list BlinkResult :=
  blinkHistory d.

(** [getMetrics()] at wall-clock time [now]. *)
Definition getMetrics (d : BlinkDetector) (now : Q) : BlinkMetrics :=
  let durationMs := Js.Math_max 1000 (now - monitoringStartTime d) in
  let durationSec := Js.Math_min 60 (durationMs / 1000) in
  calculateMetrics d durationSec 30.

(** [isReady()]. *)
Definition isReady (d : BlinkDetector) : bool := isCalibrated d.

End Engine.

End Blink.

(** ** Distance estimator of the camera engine
    ([src/modules/camera/distance/DistanceEstimator.ts]) *)

Module Distance.

Inductive Bucket := NEAR | OK | FAR | UNKNOWN.

(** The strings pushed on [debug.flags]. *)
Inductive Flag := NO_LANDMARKS | NOT_CALIBRATED | OUT_OF_RANGE.

Record Debug := {
  iodPx : Q;
  iodNorm : Q;
  k : Q;
  rawCm : Q;
  flags : list Flag
}.

Record DistanceResult := {
  estCm : Q;
  confidence : Q;
  bucket : Bucket;
  debug : Debug
}.

Record Point := { x : Q; y : Q }.

Definition DEFAULT_TARGET_CM : Q := 45.
Definition ALPHA : Q := 0.2.
Definition CALIBRATION_DURATION_MS : Q := 10000.

(** The estimator's fields, and the value kept in [localStorage] under
    [STORAGE_KEY] ([None] when the key is absent). *)
Record DistanceEstimator := {
  calibrationK : option Q;
  lastSmoothedCm : option Q;
  calibrationSamples : list Q;
  isCalibrating : bool;
  calibrationStartTime : Q;
  localStorage : option Q
}.

(** [loadCalibration()]. *)
Definition loadCalibration (d : DistanceEstimator) : DistanceEstimator :=
  match localStorage d with
  | Some val =>
      if val >? 0
      then {| calibrationK := Some val; lastSmoothedCm := lastSmoothedCm d;
              calibrationSamples := calibrationSamples d;
              isCalibrating := isCalibrating d;
              calibrationStartTime := calibrationStartTime d;
              localStorage := localStorage d |}
      else d
  | None => d
  end.

(** [constructor()], given what [localStorage] holds. *)
Definition new (stored : option Q) : DistanceEstimator :=
  loadCalibration
    {| calibrationK := None; lastSmoothedCm := None; calibrationSamples := [];
       isCalibrating := false; calibrationStartTime := 0;
       localStorage := stored |}.

(** [resetCalibration()]. *)
Definition resetCalibration (d : DistanceEstimator) : DistanceEstimator :=
  {| calibrationK := None; lastSmoothedCm := None;
     calibrationSamples := calibrationSamples d;
     isCalibrating := isCalibrating d;
     calibrationStartTime := calibrationStartTime d;
     localStorage := None |}.

(** [startCalibration()]. *)
Definition startCalibration (d : DistanceEstimator) (now : Q) : DistanceEstimator :=
  {| calibrationK := calibrationK d; lastSmoothedCm := lastSmoothedCm d;
     calibrationSamples := [];
     isCalibrating := true;
     calibrationStartTime := now;
     localStorage := localStorage d |}.

(** [finalizeCalibration()]. *)
Definition finalizeCalibration (d : DistanceEstimator) : DistanceEstimator :=
  let d := {| calibrationK := calibrationK d; lastSmoothedCm := lastSmoothedCm d;
              calibrationSamples := calibrationSamples d;
              isCalibrating := false;
              calibrationStartTime := calibrationStartTime d;
              localStorage := localStorage d |} in
  if Nat.ltb (length (calibrationSamples d)) 10 then d
  else
    let medianIodPx := Js.median (calibrationSamples d) in
    let newK := DEFAULT_TARGET_CM * medianIodPx in
    {| calibrationK := Some newK; lastSmoothedCm := lastSmoothedCm d;
       calibrationSamples := calibrationSamples d;
       isCalibrating := isCalibrating d;
       calibrationStartTime := calibrationStartTime d;
       localStorage := Some newK |}.

(** [processCalibrationFrame(iodPx, isStable)]. *)
Definition processCalibrationFrame (d : DistanceEstimator) (now : Q)
    (iodPx : Q) (isStable : bool) : DistanceEstimator :=
  if negb (isCalibrating d) then d
  else if now - calibrationStartTime d >? CALIBRATION_DURATION_MS
  then finalizeCalibration d
  else if (iodPx >? 0) && isStable
  then {| calibrationK := calibrationK d; lastSmoothedCm := lastSmoothedCm d;
          calibrationSamples := calibrationSamples d ++ [iodPx];
          isCalibrating := isCalibrating d;
          calibrationStartTime := calibrationStartTime d;
          localStorage := localStorage d |}
  else d.

(** [isCalibrated()]: [this.calibrationK !== null]. *)
Definition isCalibrated (d : DistanceEstimator) : bool :=
  match calibrationK d with Some _ => true | None => false end.

(** Truthiness of [this.calibrationK]: neither [null] nor zero. *)
Definition truthyK (d : DistanceEstimator) : bool :=
  match calibrationK d with
  | Some v => negb (Qeq_bool v 0)
  | None => false
  end.

(** [this.calibrationK || dflt]. *)
Definition calibrationK_or (d : DistanceEstimator) (dflt : Q) : Q :=
  match calibrationK d with
  | Some v => if Qeq_bool v 0 then dflt else v
  | None => dflt
  end.

(** [createUnknownResult(flags, iodPx = 0, iodNorm = 0)]. *)
Definition createUnknownResult (d : DistanceEstimator) (flags : list Flag)
    (iodPx iodNorm : Q) : DistanceResult :=
  {| estCm := 0; confidence := 0; bucket := UNKNOWN;
     debug := {| iodPx := iodPx; iodNorm := iodNorm;
                 k := calibrationK_or d 0; rawCm := 0; flags := flags |} |}.

Section Estimate.

(** [Math.hypot] on two arguments. *)
Variable Math_hypot : Q -> Q -> Q.

(** [estimate(videoWidth, landmarks)]; [None] stands for a missing
    landmark array. *)
Definition estimate (d : DistanceEstimator) (videoWidth : Q)
    (landmarks : option (list Point)) : DistanceResult * DistanceEstimator :=
  match landmarks with
  | None => (createUnknownResult d [NO_LANDMARKS] 0 0, d)
  | Some lms =>
      if Nat.ltb (length lms) 264
      then (createUnknownResult d [NO_LANDMARKS] 0 0, d)
      else
        let origin := {| x := 0; y := 0 |} in
        let left := nth 33 lms origin in
        let right := nth 263 lms origin in
        let iodNorm := Math_hypot (x right - x left) (y right - y left) in
        let iodPx := iodNorm * videoWidth in
        let flags := [] in
        let effectiveK := calibrationK_or d 8500 in
        let flags := if negb (truthyK d) then flags ++ [NOT_CALIBRATED]
                     else flags in
        let rawCm := effectiveK / iodPx in
        let smoothedCm :=
          match lastSmoothedCm d with
          | Some last => ALPHA * rawCm + (1 - ALPHA) * last
          | None => rawCm
          end in
        let d := {| calibrationK := calibrationK d;
                    lastSmoothedCm := Some smoothedCm;
                    calibrationSamples := calibrationSamples d;
                    isCalibrating := isCalibrating d;
                    calibrationStartTime := calibrationStartTime d;
                    localStorage := localStorage d |} in
        let confidence := 1.0 in
        let out_of_range := (smoothedCm <? 15) || (smoothedCm >? 120) in
        let confidence := if out_of_range then 0.3 else confidence in
        let flags := if out_of_range then flags ++ [OUT_OF_RANGE] else flags in
        let bucket :=
          if smoothedCm <? 30 then NEAR
          else if smoothedCm >? 60 then FAR
          else OK in
        let bucket := if confidence <? 0.5 then UNKNOWN else bucket in
        ({| estCm := Js.Math_round (smoothedCm * 10) / 10;
            confidence := confidence;
            bucket := bucket;
            debug := {| iodPx := iodPx; iodNorm := iodNorm; k := effectiveK;
                        rawCm := rawCm; flags := flags |} |}, d)
  end.

End Estimate.

(** The object [getCalibrationDetails()] returns. *)
Module CalibrationDetails.

Record t := {
  targetCm : Q;
  iodPxCalib : Q;
  k : Q;
  timestamp : Q;
  sampleCount : Q
}.

End CalibrationDetails.

(** [getCalibrationDetails()] at wall-clock time [now]; [None] is [null]. *)
Definition getCalibrationDetails (d : DistanceEstimator) (now : Q)
    : option CalibrationDetails.t :=
  match calibrationK d with
  | None => None
  | Some K =>
      if Qeq_bool K 0 then None
      else
        Some {| CalibrationDetails.targetCm := DEFAULT_TARGET_CM;
                CalibrationDetails.iodPxCalib := K / DEFAULT_TARGET_CM;
                CalibrationDetails.k := K;
                CalibrationDetails.timestamp := now;
                CalibrationDetails.sampleCount := 10 |}
  end.

End Distance.

(** ** Head pose from the landmarks
    ([src/modules/camera/distance/pose.ts]) *)

Module Pose.

(** The landmark indices of [LANDMARKS]. *)
Definition NOSE_TIP : nat := 1.
Definition LEFT_EYE_OUTER : nat := 33.
Definition RIGHT_EYE_OUTER : nat := 263.
Definition LEFT_FACE_EDGE : nat := 234.
Definition RIGHT_FACE_EDGE : nat := 454.

Record PoseState := {
  yawProxy : Q;
  isStable : bool;
  isCentered : bool
}.

(** [calculateYawProxy(landmarks)]; [None] stands for a missing array, and
    an index past the end of the array reads [undefined]. *)
Definition calculateYawProxy (landmarks : option (list Distance.Point)) : Q :=
  match landmarks with
  | None => 0
  | Some lms =>
      if Nat.eqb (length lms) 0 then 0
      else
        match nth_error lms NOSE_TIP, nth_error lms LEFT_FACE_EDGE,
              nth_error lms RIGHT_FACE_EDGE with
        | Some nose, Some leftEdge, Some rightEdge =>
            let distToLeft := Qabs (Distance.x nose - Distance.x leftEdge) in
            let distToRight := Qabs (Distance.x nose - Distance.x rightEdge) in
            let totalWidth := distToLeft + distToRight in
            if Qeq_bool totalWidth 0 then 0
            else (distToRight - distToLeft) / totalWidth
        | _, _, _ => 0
        end
  end.

(** [analyzePose(landmarks, threshold = 0.2)]. *)
Definition analyzePose (landmarks : option (list Distance.Point))
    (threshold : option Q) : PoseState :=
  let threshold := match threshold with Some t => t | None => 0.2 end in
  let yaw := calculateYawProxy landmarks in
  let isCentered := Qabs yaw <? threshold in
  {| yawProxy := yaw; isStable := isCentered; isCentered := isCentered |}.

End Pose.

(** ** The older distance estimator
    ([src/modules/camera/DistanceEstimator.ts]) *)

Module LegacyDistance.

Inductive Bucket := NEAR | FAR | OK | UNKNOWN.

(** The object held in [this.calibration]; the fields the constructor
    leaves out are [None]. *)
Record Calibration := {
  k : Q;
  targetCm : Q;
  iodMedian : option Q;
  isNormalized : bool;
  timestamp : option Q
}.

Record DistanceEstimator := {
  calibration : Calibration;
  calibrationSamples : list Q;
  cmHistory : list Q
}.

Record NormalizedLandmark := { x : Q; y : Q; z : Q }.

Record Estimate := {
  estimatedDistanceCm : Q;
  bucket : Bucket;
  confidence : Q
}.

(** [constructor()]. *)
Definition new : DistanceEstimator :=
  {| calibration := {| k := 5.0; targetCm := 50; iodMedian := None;
                       isNormalized := true; timestamp := None |};
     calibrationSamples := [];
     cmHistory := [] |}.

(** [configure(config)], with [config.k] when the object has a truthy one. *)
Definition configure (d : DistanceEstimator) (config_k : option Q)
    : DistanceEstimator :=
  match config_k with
  | Some v =>
      if Qeq_bool v 0 then d
      else {| calibration :=
                {| k := v; targetCm := targetCm (calibration d);
                   iodMedian := iodMedian (calibration d);
                   isNormalized := isNormalized (calibration d);
                   timestamp := timestamp (calibration d) |};
              calibrationSamples := calibrationSamples d;
              cmHistory := cmHistory d |}
  | None => d
  end.

(** [addCalibrationSample(iod)]. *)
Definition addCalibrationSample (d : DistanceEstimator) (iod : Q)
    : DistanceEstimator :=
  if iod >? 0
  then {| calibration := calibration d;
          calibrationSamples := calibrationSamples d ++ [iod];
          cmHistory := cmHistory d |}
  else d.

(** [finalizeCalibration(targetCm = 50)]. *)
Definition finalizeCalibration (d : DistanceEstimator) (targetCm : option Q)
    (now : Q) : bool * DistanceEstimator :=
  let targetCm := match targetCm with Some t => t | None => 50 end in
  if Nat.ltb (length (calibrationSamples d)) 5 then (false, d)
  else
    let medianIOD := Js.median (calibrationSamples d) in
    let k := targetCm * medianIOD in
    (true,
     {| calibration := {| k := k; targetCm := targetCm;
                          iodMedian := Some medianIOD;
                          isNormalized := true; timestamp := Some now |};
        calibrationSamples := [];
        cmHistory := cmHistory d |}).

(** [smoothValue(val)]: mean of the last five values. *)
Definition smoothValue (d : DistanceEstimator) (val : Q) : Q * DistanceEstimator :=
  let h := cmHistory d ++ [val] in
  let h := if Nat.ltb 5 (length h) then Js.shift h else h in
  (Js.sum h / Js.len h,
   {| calibration := calibration d;
      calibrationSamples := calibrationSamples d;
      cmHistory := h |}).

(** [classifyBucket(cm)]. *)
Definition classifyBucket (cm : Q) : Bucket :=
  if cm <? 40 then NEAR
  else if cm >? 75 then FAR
  else OK.

Definition unknownEstimate : Estimate :=
  {| estimatedDistanceCm := 0; bucket := UNKNOWN; confidence := 0 |}.

Section EstimateDistance.

Variable Math_sqrt : Q -> Q.

(** [estimateDistance(landmarks)]. *)
Definition estimateDistance (d : DistanceEstimator)
    (landmarks : option (list NormalizedLandmark))
    : Estimate * DistanceEstimator :=
  match landmarks with
  | None => (unknownEstimate, d)
  | Some lms =>
      if Nat.ltb (length lms) 478 then (unknownEstimate, d)
      else
        match nth_error lms 33, nth_error lms 263 with
        | Some leftInner, Some rightInner =>
            let dx := x rightInner - x leftInner in
            let dy := y rightInner - y leftInner in
            let iodNorm := Math_sqrt (dx * dx + dy * dy) in
            if Qeq_bool iodNorm 0 then (unknownEstimate, d)
            else
              let k := if isNormalized (calibration d)
                       then k (calibration d) else 5.0 in
              let estimatedCm := k / iodNorm in
              let '(estimatedCm, d) := smoothValue d estimatedCm in
              ({| estimatedDistanceCm := estimatedCm;
                  bucket := classifyBucket estimatedCm;
                  confidence := 0.8 |}, d)
        | _, _ => (unknownEstimate, d)
        end
  end.

End EstimateDistance.

(** [getLastMeasurement()]. *)
Definition getLastMeasurement (d : DistanceEstimator) : option Estimate :=
  match rev (cmHistory d) with
  | [] => None
  | last :: _ =>
      Some {| estimatedDistanceCm := last; bucket := classifyBucket last;
              confidence := 1 |}
  end.

Section Guidance.

Import String.
Local Open Scope string_scope.

(** The string each bucket is in the program. *)
Definition bucketName (b : Bucket) : string :=
  match b with
  | NEAR => "NEAR"
  | FAR => "FAR"
  | OK => "OK"
  | UNKNOWN => "UNKNOWN"
  end.

Record Guidance := { status : string; message : string }.

(** [getGuidance(bucket, confidence)]. *)
Definition getGuidance (bucket : string) (confidence : Q) : Guidance :=
  if String.eqb bucket "NEAR"
  then {| status := "WARNING"; message := "Too Close!" |}
  else if String.eqb bucket "FAR"
  then {| status := "WARNING"; message := "Too Far" |}
  else {| status := "OK"; message := "Good Distance" |}.

End Guidance.

End LegacyDistance.

(** ** Quality monitor
    ([src/modules/camera/quality/QualityMonitor.ts], first unit) *)

Module Quality.

Inductive QualityFlag :=
| FACE_NOT_FOUND
| LOW_LIGHT
| LOW_FPS
| POSE_UNSTABLE
| EYE_OCCLUDED
| GLASSES_GLARE_SUSPECTED
| MULTI_FACE_DETECTED
| MODEL_WARMING_UP.

Record QualityMonitorConfig := {
  lowLightThreshold : Q;
  lowFpsThreshold : Q;
  poseYawThreshold : Q;
  posePitchThreshold : Q;
  poseRollThreshold : Q;
  warmupDuration : Q
}.

Definition DEFAULT_CONFIG : QualityMonitorConfig := {|
  lowLightThreshold := 50;
  lowFpsThreshold := 20;
  poseYawThreshold := 25;
  posePitchThreshold := 20;
  poseRollThreshold := 15;
  warmupDuration := 2500
|}.

Record PoseAngles := { yaw : Q; pitch : Q; roll : Q }.

(** The [details] object; a property that was never assigned is [None]. *)
Record Details := {
  fps : option Q;
  faceCount : option Q;
  brightness : option Q;
  poseAngles : option PoseAngles
}.

Record QualityFlags := {
  flags : list QualityFlag;
  confidence : Q;
  details : Details
}.

Record QualityMonitor := {
  config : QualityMonitorConfig;
  startTime : Q;
  fpsHistory : list Q;
  lastFrameTime : Q
}.

Record Point := { x : Q; y : Q }.
Record EyeLandmarks := { leftEye : list Point; rightEye : list Point }.

(** One RGBA pixel of the canvas read-back. *)
Record Pixel := { red : Q; green : Q; blue : Q; alpha : Q }.

(** [FaceLandmarkerResult]: one landmark array per detected face. *)
Record FaceLandmarkerResult := { faceLandmarks : list (list Point) }.

(** [constructor(config)] at time [now]. *)
Definition new (cfg : QualityMonitorConfig) (now : Q) : QualityMonitor :=
  {| config := cfg; startTime := now; fpsHistory := []; lastFrameTime := 0 |}.

(** [reset()]. *)
Definition reset (m : QualityMonitor) (now : Q) : QualityMonitor :=
  {| config := config m; startTime := now; fpsHistory := []; lastFrameTime := 0 |}.

(** [getAverageFPS()]. *)
Definition getAverageFPS (m : QualityMonitor) : Q :=
  if Nat.eqb (length (fpsHistory m)) 0 then 0
  else Js.sum (fpsHistory m) / Js.len (fpsHistory m).

(** [calculateFPS(timestamp)]. *)
Definition calculateFPS (m : QualityMonitor) (timestamp : Q) : Q * QualityMonitor :=
  let h :=
    if lastFrameTime m >? 0
    then
      let delta := timestamp - lastFrameTime m in
      if delta >? 0
      then
        let instantFps := 1000 / delta in
        let h := fpsHistory m ++ [instantFps] in
        if Nat.ltb 30 (length h) then Js.shift h else h
      else fpsHistory m
    else fpsHistory m in
  let m := {| config := config m; startTime := startTime m; fpsHistory := h;
              lastFrameTime := timestamp |} in
  (getAverageFPS m, m).

(** The multiplier [assessQuality] applies when it raises a flag; the
    missing face sets the confidence to zero. *)
Definition multiplier (f : QualityFlag) : Q :=
  match f with
  | MODEL_WARMING_UP => 0.5
  | LOW_FPS => 0.7
  | FACE_NOT_FOUND => 0
  | MULTI_FACE_DETECTED => 0.6
  | LOW_LIGHT => 0.8
  | POSE_UNSTABLE => 0.7
  | EYE_OCCLUDED => 0.6
  | GLASSES_GLARE_SUSPECTED => 0.85
  end.

Section AssessQuality.

(** The video element and what the browser and [LandmarkProvider] compute
    from it.  [centerCrop] is the pixel data of the 100x100 centre crop
    drawn on a scratch canvas, [None] when no 2d context is available or
    the drawing throws. *)
Variable HTMLVideoElement : Type.
Variable centerCrop : HTMLVideoElement -> option (list Pixel).
Variable calculatePoseAngles : FaceLandmarkerResult -> nat -> option PoseAngles.
Variable extractEyeLandmarks : FaceLandmarkerResult -> nat -> option EyeLandmarks.
Variable Math_sqrt : Q -> Q.

(** [estimateBrightness(videoElement)]. *)
Definition estimateBrightness (videoElement : HTMLVideoElement) : Q :=
  match centerCrop videoElement with
  | None => 128
  | Some data =>
      let sampleSize := 100 in
      let sum :=
        fold_left
          (fun sum p => sum + (0.299 * red p + 0.587 * green p + 0.114 * blue p))
          data 0 in
      sum / (sampleSize * sampleSize)
  end.

(** [Math.max(...xs)] and [Math.min(...xs)] on a non-empty array. *)
Definition maxOf (xs : list Q) : Q :=
  match xs with [] => 0 | v :: r => fold_left Js.Math_max r v end.
Definition minOf (xs : list Q) : Q :=
  match xs with [] => 0 | v :: r => fold_left Js.Math_min r v end.

(** [calculateLandmarkSpread(landmarks)]. *)
Definition calculateLandmarkSpread (landmarks : list Point) : Q :=
  if Nat.eqb (length landmarks) 0 then 0
  else
    let xs := List.map x landmarks in
    let ys := List.map y landmarks in
    let xRange := maxOf xs - minOf xs in
    let yRange := maxOf ys - minOf ys in
    Math_sqrt (xRange * xRange + yRange * yRange).

(** [detectEyeOcclusion(eyeLandmarks)]. *)
Definition detectEyeOcclusion (eyeLandmarks : EyeLandmarks) : Q :=
  let leftEyeSpread := calculateLandmarkSpread (leftEye eyeLandmarks) in
  let rightEyeSpread := calculateLandmarkSpread (rightEye eyeLandmarks) in
  let avgSpread := (leftEyeSpread + rightEyeSpread) / 2 in
  if avgSpread <? 0.01 then 0.8
  else if avgSpread <? 0.015 then 0.4
  else 0.

(** [detectGlassesGlare(videoElement, landmarkResult)]. *)
Definition detectGlassesGlare (videoElement : HTMLVideoElement)
    (landmarkResult : FaceLandmarkerResult) : bool :=
  match extractEyeLandmarks landmarkResult 0%nat with
  | None => false
  | Some _ =>
      let brightness := estimateBrightness videoElement in
      if brightness >? 200 then true else false
  end.

(** [assessQuality(videoElement, landmarkResult, timestamp)] at wall-clock
    time [now]. *)
Definition assessQuality (m : QualityMonitor) (now : Q)
    (videoElement : HTMLVideoElement)
    (landmarkResult : option FaceLandmarkerResult) (timestamp : Q)
    : QualityFlags * QualityMonitor :=
  let flags := [] in
  let confidence := 1.0 in
  let warming := now - startTime m <? warmupDuration (config m) in
  let flags := if warming then flags ++ [MODEL_WARMING_UP] else flags in
  let confidence := if warming then confidence * 0.5 else confidence in
  let '(fps, m) := calculateFPS m timestamp in
  let lowFps := (fps <? lowFpsThreshold (config m)) && (fps >? 0) in
  let flags := if lowFps then flags ++ [LOW_FPS] else flags in
  let confidence := if lowFps then confidence * 0.7 else confidence in
  let noFaceResult :=
    {| flags := flags ++ [FACE_NOT_FOUND]; confidence := 0;
       details := {| fps := Some fps; faceCount := None;
                     brightness := None; poseAngles := None |} |} in
  match landmarkResult with
  | None => (noFaceResult, m)
  | Some r =>
      if Nat.eqb (length (faceLandmarks r)) 0 then (noFaceResult, m)
      else
        let multi := Nat.ltb 1 (length (faceLandmarks r)) in
        let flags := if multi then flags ++ [MULTI_FACE_DETECTED] else flags in
        let faceCount := if multi then Some (Js.len (faceLandmarks r)) else None in
        let confidence := if multi then confidence * 0.6 else confidence in
        let brightness := estimateBrightness videoElement in
        let lowLight := brightness <? lowLightThreshold (config m) in
        let flags := if lowLight then flags ++ [LOW_LIGHT] else flags in
        let confidence := if lowLight then confidence * 0.8 else confidence in
        let pose := calculatePoseAngles r 0%nat in
        let unstable :=
          match pose with
          | Some a =>
              (Qabs (yaw a) >? poseYawThreshold (config m))
              || (Qabs (pitch a) >? posePitchThreshold (config m))
              || (Qabs (roll a) >? poseRollThreshold (config m))
          | None => false
          end in
        let flags := if unstable then flags ++ [POSE_UNSTABLE] else flags in
        let confidence := if unstable then confidence * 0.7 else confidence in
        let occluded :=
          match extractEyeLandmarks r 0%nat with
          | Some eyeLandmarks => detectEyeOcclusion eyeLandmarks >? 0.3
          | None => false
          end in
        let flags := if occluded then flags ++ [EYE_OCCLUDED] else flags in
        let confidence := if occluded then confidence * 0.6 else confidence in
        let glare := detectGlassesGlare videoElement r in
        let flags := if glare then flags ++ [GLASSES_GLARE_SUSPECTED] else flags in
        let confidence := if glare then confidence * 0.85 else confidence in
        ({| flags := flags; confidence := confidence;
            details := {| fps := Some fps; faceCount := faceCount;
                          brightness := Some brightness;
                          poseAngles := pose |} |}, m)
  end.

End AssessQuality.

End Quality.

(** ** Landmark helpers
    ([LandmarkProvider], the second unit of [src/modules/camera/events.ts]) *)

Module LandmarkProvider.

(** How a call ends: with a value, or with the [TypeError] of a property
    read on [undefined]. *)
Inductive Outcome (A : Type) :=
| Returns (a : A)
| Throws.

Arguments Returns {A} a.
Arguments Throws {A}.

Section EAR.

Variable Math_hypot : Q -> Q -> Q.

(** [calculateEAR(eyeLandmarks)] on an array of points. *)
Definition calculateEAR (eyeLandmarks : list Quality.Point) : Q :=
  if Nat.ltb (length eyeLandmarks) 6 then 0
  else
    let p i := nth i eyeLandmarks {| Quality.x := 0; Quality.y := 0 |} in
    let v1 := Math_hypot (Quality.x (p 1%nat) - Quality.x (p 5%nat))
                         (Quality.y (p 1%nat) - Quality.y (p 5%nat)) in
    let v2 := Math_hypot (Quality.x (p 2%nat) - Quality.x (p 4%nat))
                         (Quality.y (p 2%nat) - Quality.y (p 4%nat)) in
    let h := Math_hypot (Quality.x (p 0%nat) - Quality.x (p 3%nat))
                        (Quality.y (p 0%nat) - Quality.y (p 3%nat)) in
    if Qeq_bool h 0 then 0
    else (v1 + v2) / (2.0 * h).

End EAR.

(** [calculatePoseAngles(result, faceIndex = 0)].  A face index or a
    landmark index past the end reads [undefined], and the property read
    that follows throws. *)
Definition calculatePoseAngles (result : Quality.FaceLandmarkerResult)
    (faceIndex : nat) : Outcome (option Quality.PoseAngles) :=
  if Nat.eqb (length (Quality.faceLandmarks result)) 0 then Returns None
  else
    match nth_error (Quality.faceLandmarks result) faceIndex with
    | None => Throws
    | Some landmarks =>
        match nth_error landmarks 1, nth_error landmarks 234,
              nth_error landmarks 454 with
        | Some noseTip, Some leftCheek, Some rightCheek =>
            let faceWidth :=
              Qabs (Quality.x rightCheek - Quality.x leftCheek) in
            let noseCenterOffset :=
              (Quality.x noseTip
               - (Quality.x leftCheek + Quality.x rightCheek) / 2)
              / faceWidth in
            let yaw := noseCenterOffset * 60 in
            Returns (Some {| Quality.yaw := yaw; Quality.pitch := 0;
                             Quality.roll := 0 |})
        | _, _, _ => Throws
        end
    end.

End LandmarkProvider.

(** ** Camera engine: the burst check
    ([src/modules/camera/CameraEngine.ts]) *)

Module Engine.

(** What [runDistanceBurst] does to its environment: it reads the clock,
    waits on a timer, creates a video element, starts and stops the
    preview, and reads [this.lastDistanceResult], which the frame loop
    rewrites while the burst is suspended. *)
Variant burstE : Type -> Type :=
| DateNow : burstE Q
| SetTimeout (ms : Q) : burstE unit
| CreateVideoElement : burstE unit
| StartPreview : burstE unit
| StopPreview : burstE unit
| LastDistanceResult : burstE (option Distance.DistanceResult).

(** The [{ flags, confidence }] object of a burst result. *)
Record BurstQuality := {
  qFlags : list Quality.QualityFlag;
  qConfidence : Q
}.

Record DistanceBurstResult := {
  bucket : Distance.Bucket;
  estimatedCm : option Q;
  confidence : Q;
  qualityFlags : BurstQuality;
  sampleCount : Q;
  duration : Q
}.

(** The engine fields the burst check reads before its first suspension. *)
Record CameraEngine := {
  isRunning : bool;
  hasVideoElement : bool;
  distanceEstimator : Distance.DistanceEstimator
}.


Definition unknownBurst (duration : Q) : DistanceBurstResult :=
  {| bucket := Distance.UNKNOWN; estimatedCm := None; confidence := 0;
     qualityFlags := {| qFlags := []; qConfidence := 0 |};
     sampleCount := 0; duration := duration |}.

(** One turn of [while (Date.now() < end) { ... }]: [inl] continues with
    the samples collected so far, [inr] leaves the loop. *)
Definition burstLoopBody (end_ : Q) (collectedCms : list Q)
    : itree burstE (list Q + list Q) :=
  ITree.bind (ITree.trigger DateNow) (fun now =>
    if now <? end_
    then
      ITree.bind (ITree.trigger LastDistanceResult) (fun last =>
        let collectedCms :=
          match last with
          | Some r =>
              if Distance.estCm r >? 0
              then collectedCms ++ [Distance.estCm r]
              else collectedCms
          | None => collectedCms
          end in
        ITree.bind (ITree.trigger (SetTimeout 100)) (fun _ =>
          Ret (inl collectedCms)))
    else Ret (inr collectedCms)).

(** [runDistanceBurst(options)], with [options.durationMs] when present. *)
Definition runDistanceBurst (e : CameraEngine) (durationMs : option Q)
    : itree burstE DistanceBurstResult :=
  let ms :=
    match durationMs with
    | Some v => if Qeq_bool v 0 then 1500 else v
    | None => 1500
    end in
  if negb (Distance.isCalibrated (distanceEstimator e))
  then Ret (unknownBurst 0)
  else
    let temporarilyStarted := negb (isRunning e) in
    ITree.bind (if hasVideoElement e then Ret tt
                else ITree.trigger CreateVideoElement) (fun _ =>
    ITree.bind (if temporarilyStarted then ITree.trigger StartPreview
                else Ret tt) (fun _ =>
    ITree.bind (ITree.trigger DateNow) (fun start =>
    let end_ := start + ms in
    ITree.bind (ITree.iter (burstLoopBody end_) []) (fun collectedCms =>
    ITree.bind (if temporarilyStarted then ITree.trigger StopPreview
                else Ret tt) (fun _ =>
    if Nat.eqb (length collectedCms) 0
    then Ret (unknownBurst ms)
    else
      let sorted := Js.sortAsc collectedCms in
      let medianCm := nth (length sorted / 2) sorted 0 in
      let bucket :=
        if medianCm <? 30 then Distance.NEAR
        else if medianCm >? 60 then Distance.FAR
        else Distance.OK in
      Ret {| bucket := bucket; estimatedCm := Some medianCm;
             confidence := 0.9;
             qualityFlags := {| qFlags := []; qConfidence := 0.9 |};
             sampleCount := Js.len collectedCms;
             duration := ms |}))))).

End Engine.

(** ** The specification's wording, for comparison with the program *)

Module Spec.

Import Blink.


(** The metrics confidence as the specification describes it: 1.0 times
    the frame-rate discount times the calibration discount. *)
Definition metrics_confidence (avgFps : Q) (calibrated : bool) : Q :=
  1.0
  * (if avgFps <? 20 then 0.7 else if avgFps <? 24 then 0.85 else 1)
  * (if calibrated then 1 else 0.5).

(** The proximity bucket as the specification describes it. *)
Definition bucket (cm : Q) : Distance.Bucket :=
  if cm <? 30 then Distance.NEAR
  else if cm >? 60 then Distance.FAR
  else Distance.OK.

(** The median as it is usually defined: the middle element of the sorted
    samples, or the mean of the two middle elements when their number is
    even. *)
Definition median (xs : list Q) : Q :=
  let sorted := Js.sortAsc xs in
  let n := length sorted in
  if Nat.even n
  then (nth (n / 2 - 1) sorted 0 + nth (n / 2) sorted 0) / 2
  else nth (n / 2) sorted 0.


End Spec.

(** ** Predicates used in the statements *)

Module BlinkInv.

Import Blink.

(** The state machine driven over a run of smoothed samples
    [(openness, timestamp)]. *)
Definition feed (d : BlinkDetector) (samples : list (Q * Q)) : BlinkDetector :=
  fold_left (fun d s => updateStateMachine d (fst s) (snd s)) samples d.

(** Every later event is at least [gap] after every earlier one. *)
Fixpoint spaced (gap : Q) (h : list BlinkResult) : Prop :=
  match h with
  | [] => True
  | e :: h' =>
      Forall (fun e' => gap <= timestamp e' - timestamp e) h' /\ spaced gap h'
  end.

(** What the history of a detector looks like when every event passed the
    duration and debounce checks of [completeBlink]. *)
Definition history_valid (d : BlinkDetector) : Prop :=
  Forall (fun e => minBlinkDuration (config d) <= duration e
                   /\ duration e <= maxBlinkDuration (config d))
         (blinkHistory d)
  /\ Forall (fun e => timestamp e <= lastBlinkTimestamp d) (blinkHistory d)
  /\ spaced (debounceTime (config d)) (blinkHistory d).

(** The two validation tests of [completeBlink], as one boolean. *)
Definition rejects (d : BlinkDetector) (ts : Q) : bool :=
  ((ts - currentBlinkStart d <? minBlinkDuration (config d))
   || (ts - currentBlinkStart d >? maxBlinkDuration (config d)))
  || (ts - lastBlinkTimestamp d <? debounceTime (config d)).

(** The baseline is positive and every buffered calibration sample is above
    one half. *)
Definition baseline_ok (d : BlinkDetector) : Prop :=
  0 < baselineOpenness d
  /\ Forall (fun v => 0.5 < v) (calibrationSamples d).


(** The event [completeBlink d ts] builds. *)
Definition candidate (d : BlinkDetector) (ts : Q) : BlinkResult :=
  {| timestamp := ts;
     isComplete := currentBlinkMinOpenness d / baselineOpenness d
                     <=? incompleteThreshold (config d);
     minOpenness := currentBlinkMinOpenness d;
     duration := ts - currentBlinkStart d |}.

End BlinkInv.

Module DistanceInv.

Import Distance.

(** A calibration session as the engine's [runCalibration] drives it:
    reset, start, one [processCalibrationFrame] per tick [(now, iodPx,
    isStable)], then [finalizeCalibration]. *)
Definition recalibrate (d : DistanceEstimator) (start : Q)
    (ticks : list (Q * Q * bool)) : DistanceEstimator :=
  finalizeCalibration
    (fold_left
       (fun d t => processCalibrationFrame d (fst (fst t)) (snd (fst t)) (snd t))
       ticks
       (startCalibration (resetCalibration d) start)).



(** The samples a calibration session keeps: positive IOD on a stable tick. *)
Definition accepted (ticks : list (Q * Q * bool)) : list Q :=
  List.map (fun t : Q * Q * bool => snd (fst t))
      (filter (fun t : Q * Q * bool => (snd (fst t) >? 0) && snd t) ticks).

(** Every tick arrives before the calibration window has elapsed. *)
Definition in_window (start : Q) (ticks : list (Q * Q * bool)) : Prop :=
  Forall (fun t => fst (fst t) - start <= CALIBRATION_DURATION_MS) ticks.

(** A landmark array [estimate] accepts. *)
Definition usable (landmarks : option (list Point)) : bool :=
  match landmarks with
  | Some lms => negb (Nat.ltb (length lms) 264)
  | None => false
  end.

(** The raw estimate [estimate] computes for a usable frame. *)
Definition rawOf (Math_hypot : Q -> Q -> Q) (d : DistanceEstimator)
    (videoWidth : Q) (lms : list Point) : Q :=
  calibrationK_or d 8500
  / (Math_hypot
       (x (nth 263 lms {| x := 0; y := 0 |}) - x (nth 33 lms {| x := 0; y := 0 |}))
       (y (nth 263 lms {| x := 0; y := 0 |}) - y (nth 33 lms {| x := 0; y := 0 |}))
     * videoWidth).




(** The smoothing step of [estimate]. *)
Definition ema (last : option Q) (raw : Q) : Q :=
  match last with
  | Some l => ALPHA * raw + (1 - ALPHA) * l
  | None => raw
  end.






End DistanceInv.

Module QualityInv.

Import Quality.

(** The landmark result is missing or holds no face. *)
Definition noFace (landmarkResult : option FaceLandmarkerResult) : bool :=
  match landmarkResult with
  | None => true
  | Some r => Nat.eqb (length (faceLandmarks r)) 0
  end.

(** Starting from 1.0, the product of the multipliers of the flags raised,
    in the order they were raised. *)
Definition product (flags : list QualityFlag) : Q :=
  fold_left Qmult (List.map multiplier flags) 1.0.

(** What [assessQuality] returns when no face is found: the flags of the
    warm-up and frame-rate checks, then FACE_NOT_FOUND. *)
Definition noFaceOutcome (m : QualityMonitor) (now timestamp : Q)
    : QualityFlags * QualityMonitor :=
  let warming := now - startTime m <? warmupDuration (config m) in
  let fps := fst (calculateFPS m timestamp) in
  let m' := snd (calculateFPS m timestamp) in
  let lowFps := (fps <? lowFpsThreshold (config m')) && (fps >? 0) in
  ({| flags := ((if warming then [MODEL_WARMING_UP] else [])
                ++ (if lowFps then [LOW_FPS] else []))
               ++ [FACE_NOT_FOUND];
      confidence := 0;
      details := {| fps := Some fps; faceCount := None;
                    brightness := None; poseAngles := None |} |}, m').

(** A flag of one of the checks that follow the face test. *)
Definition later_check (f : QualityFlag) : Prop :=
  f = MULTI_FACE_DETECTED \/ f = LOW_LIGHT \/ f = POSE_UNSTABLE
  \/ f = EYE_OCCLUDED \/ f = GLASSES_GLARE_SUSPECTED.

End QualityInv.

Module EngineInv.

Import Engine.

(** An environment for the burst check: the wall clock, what the frame loop
    last stored in [this.lastDistanceResult], and counts of the previews
    started, the timers awaited and the distance results read. *)
Record Env := {
  clock : Q;
  lastDistanceResult : option Distance.DistanceResult;
  previews : nat;
  timers : nat;
  reads : nat
}.

(** The events of the burst check acting on that environment; a timer
    advances the clock by its delay. *)
Definition handle : burstE ~> Monads.stateT Env (itree void1) :=
  fun _ ev env =>
    match ev with
    | DateNow => Ret (env, clock env)
    | SetTimeout ms =>
        Ret ({| clock := clock env + ms;
                lastDistanceResult := lastDistanceResult env;
                previews := previews env; timers := S (timers env);
                reads := reads env |}, tt)
    | CreateVideoElement => Ret (env, tt)
    | StartPreview =>
        Ret ({| clock := clock env;
                lastDistanceResult := lastDistanceResult env;
                previews := S (previews env); timers := timers env;
                reads := reads env |}, tt)
    | StopPreview => Ret (env, tt)
    | LastDistanceResult =>
        Ret ({| clock := clock env;
                lastDistanceResult := lastDistanceResult env;
                previews := previews env; timers := timers env;
                reads := S (reads env) |}, lastDistanceResult env)
    end.

(** The samples collected after one more turn of the loop. *)
Definition collect (acc : list Q) (last : option Distance.DistanceResult)
    : list Q :=
  match last with
  | Some r => if Distance.estCm r >? 0 then acc ++ [Distance.estCm r] else acc
  | None => acc
  end.

End EngineInv.

(** ** Predicates and runs used in the further statements *)

Module PoseInv.

Import Distance.


(** The three landmarks [calculateYawProxy] reads are present. *)
Definition edges (lms : list Point) (nose leftEdge rightEdge : Point) : Prop :=
  nth_error lms Pose.NOSE_TIP = Some nose
  /\ nth_error lms Pose.LEFT_FACE_EDGE = Some leftEdge
  /\ nth_error lms Pose.RIGHT_FACE_EDGE = Some rightEdge.

End PoseInv.

Module EyeInv.

Import Quality.


(** What the statements assume of [Math.hypot]: it respects equality of
    rationals, is never negative, and scales with its arguments. *)
Definition hypot_like (Math_hypot : Q -> Q -> Q) : Prop :=
  (forall a a' b b', a == a' -> b == b' -> Math_hypot a b == Math_hypot a' b')
  /\ (forall a b, 0 <= Math_hypot a b)
  /\ (forall c a b, 0 <= c -> Math_hypot (c * a) (c * b) == c * Math_hypot a b).


End EyeInv.

Module BlinkRun.

Import Blink.

(** The two detectors fed frame after frame; a frame is the eye landmarks
    (or [null]) and the timestamp. *)
Definition cameraFrames (EyeContour : Type) (calculateEAR : EyeContour -> Q)
    (d : BlinkDetector)
    (fs : list (option (Camera.EyeLandmarks EyeContour) * Q)) : BlinkDetector :=
  fold_left
    (fun d f => snd (Camera.processFrame EyeContour calculateEAR d (fst f) (snd f)))
    fs d.

Definition engineFrames (EyeContour : Type) (calculateEAR : EyeContour -> Q)
    (d : BlinkDetector)
    (fs : list (option (Engine.EyeLandmarks EyeContour) * Q)) : BlinkDetector :=
  fold_left
    (fun d f => snd (Engine.processFrame EyeContour calculateEAR d (fst f) (snd f)))
    fs d.

(** A value of the unit interval. *)
Definition in_unit (v : Q) : Prop := 0 <= v /\ v <= 1.

(** Every openness the detector holds lies in the unit interval, and the
    smoothing window is no longer than configured. *)
Definition unit_range (d : BlinkDetector) : Prop :=
  Forall in_unit (smoothingWindow d)
  /\ Js.len (smoothingWindow d) <= smoothingWindowSize (config d)
  /\ in_unit (currentBlinkMinOpenness d)
  /\ Forall (fun e => in_unit (minOpenness e)) (blinkHistory d).

(** The baseline calibration after at most [n] frames: at most [n] samples,
    all above one half; a calibrated detector has seen 30 of them and its
    baseline is above one half, an uncalibrated one still has the initial
    baseline. *)
Definition calibration_sound (n : nat) (d : BlinkDetector) : Prop :=
  (length (calibrationSamples d) <= n)%nat
  /\ Forall (fun v => 0.5 < v) (calibrationSamples d)
  /\ (isCalibrated d = true ->
      (30 <= length (calibrationSamples d))%nat /\ 0.5 < baselineOpenness d)
  /\ (isCalibrated d = false -> baselineOpenness d = 0.35).

(** Every event of the history is less than 60 s older than the last
    accepted blink. *)
Definition recent (d : BlinkDetector) : Prop :=
  Forall (fun e => lastBlinkTimestamp d - 60000 < timestamp e) (blinkHistory d).

(** The fields the state machine reads and writes agree. *)
Definition same_core (d d' : BlinkDetector) : Prop :=
  config d' = config d
  /\ state d' = state d
  /\ blinkHistory d' = blinkHistory d
  /\ baselineOpenness d' = baselineOpenness d
  /\ currentBlinkStart d' = currentBlinkStart d
  /\ currentBlinkMinOpenness d' = currentBlinkMinOpenness d
  /\ lastBlinkTimestamp d' = lastBlinkTimestamp d
  /\ isCalibrated d' = isCalibrated d
  /\ calibrationSamples d' = calibrationSamples d.

(** [d'] is what a frame with normalized openness [n] at time [ts] makes of
    [d]: the window takes the sample, the baseline is calibrated while
    needed, and the state machine runs on the smoothed sample. *)
Definition after_frame (d d' : BlinkDetector) (n ts : Q) : Prop :=
  exists dk,
    same_core d dk
    /\ smoothingWindow dk = smoothingWindow (snd (smoothOpenness d n))
    /\ d' = updateStateMachine
              (if negb (isCalibrated dk)
               then calibrateBaseline dk (fst (smoothOpenness d n))
               else dk)
              (fst (smoothOpenness d n)) ts.

End BlinkRun.

Module QualityRun.

Import Quality.

(** The monitor's frame-rate bookkeeping over a run of frame timestamps. *)
Definition frames (m : QualityMonitor) (timestamps : list Q) : QualityMonitor :=
  fold_left (fun m ts => snd (calculateFPS m ts)) timestamps m.

(** At most 30 instantaneous rates are kept, all of them positive. *)
Definition fps_sound (m : QualityMonitor) : Prop :=
  (length (fpsHistory m) <= 30)%nat
  /\ Forall (fun v => 0 < v) (fpsHistory m).


(** The mean eye-contour spread [detectEyeOcclusion] thresholds. *)
Definition avgSpread (Math_sqrt : Q -> Q) (e : EyeLandmarks) : Q :=
  (calculateLandmarkSpread Math_sqrt (leftEye e)
   + calculateLandmarkSpread Math_sqrt (rightEye e)) / 2.

(** A complete read-back of the 100 x 100 crop with 8-bit channels. *)
Definition crop_ok (data : list Pixel) : Prop :=
  Js.len data == 100 * 100
  /\ Forall (fun p => (0 <= red p /\ red p <= 255)
                      /\ (0 <= green p /\ green p <= 255)
                      /\ (0 <= blue p /\ blue p <= 255)) data.

(** A flag raised by a check that fired. *)
Definition raised (check : bool) (f : QualityFlag) : list QualityFlag :=
  if check then [f] else [].

Section Checks.

Variable HTMLVideoElement : Type.
Variable centerCrop : HTMLVideoElement -> option (list Pixel).
Variable calculatePoseAngles : FaceLandmarkerResult -> nat -> option PoseAngles.
Variable extractEyeLandmarks : FaceLandmarkerResult -> nat -> option EyeLandmarks.
Variable Math_sqrt : Q -> Q.

(** The conditions [assessQuality] tests, in the order it tests them. *)
Definition warming (m : QualityMonitor) (now : Q) : bool :=
  now - startTime m <? warmupDuration (config m).

Definition lowFps (m : QualityMonitor) (timestamp : Q) : bool :=
  (fst (calculateFPS m timestamp) <? lowFpsThreshold (config m))
  && (fst (calculateFPS m timestamp) >? 0).

Definition multiFace (r : FaceLandmarkerResult) : bool :=
  Nat.ltb 1 (length (faceLandmarks r)).

Definition lowLight (m : QualityMonitor) (v : HTMLVideoElement) : bool :=
  estimateBrightness HTMLVideoElement centerCrop v
    <? lowLightThreshold (config m).

Definition unstable (m : QualityMonitor) (r : FaceLandmarkerResult) : bool :=
  match calculatePoseAngles r 0%nat with
  | Some a =>
      (Qabs (yaw a) >? poseYawThreshold (config m))
      || (Qabs (pitch a) >? posePitchThreshold (config m))
      || (Qabs (roll a) >? poseRollThreshold (config m))
  | None => false
  end.

Definition occluded (r : FaceLandmarkerResult) : bool :=
  match extractEyeLandmarks r 0%nat with
  | Some eyeLandmarks => detectEyeOcclusion Math_sqrt eyeLandmarks >? 0.3
  | None => false
  end.

Definition glare (v : HTMLVideoElement) (r : FaceLandmarkerResult) : bool :=
  detectGlassesGlare HTMLVideoElement centerCrop extractEyeLandmarks v r.

End Checks.

End QualityRun.

Module DistanceReach.

Import Distance.

(** The estimator states a program can reach through the public methods of
    the class, from a constructor call on any stored value. *)
Inductive reachable (Math_hypot : Q -> Q -> Q) : DistanceEstimator -> Prop :=
| reach_new (stored : option Q) : reachable Math_hypot (new stored)
| reach_load (d : DistanceEstimator) :
    reachable Math_hypot d -> reachable Math_hypot (loadCalibration d)
| reach_reset (d : DistanceEstimator) :
    reachable Math_hypot d -> reachable Math_hypot (resetCalibration d)
| reach_start (d : DistanceEstimator) (now : Q) :
    reachable Math_hypot d -> reachable Math_hypot (startCalibration d now)
| reach_frame (d : DistanceEstimator) (now iodPx : Q) (isStable : bool) :
    reachable Math_hypot d ->
    reachable Math_hypot (processCalibrationFrame d now iodPx isStable)
| reach_finalize (d : DistanceEstimator) :
    reachable Math_hypot d -> reachable Math_hypot (finalizeCalibration d)
| reach_estimate (d : DistanceEstimator) (videoWidth : Q)
    (landmarks : option (list Point)) :
    reachable Math_hypot d ->
    reachable Math_hypot (snd (estimate Math_hypot d videoWidth landmarks)).

(** The constant and the stored value, when present, and every buffered
    sample are positive. *)
Definition positive (d : DistanceEstimator) : Prop :=
  match calibrationK d with Some K => 0 < K | None => True end
  /\ Forall (fun v => 0 < v) (calibrationSamples d).

End DistanceReach.

Module LegacyInv.

Import LegacyDistance.

(** The normalized distance between the eye corners that
    [estimateDistance] computes (landmarks 33 and 263). *)
Definition iodNormOf (Math_sqrt : Q -> Q) (lms : list NormalizedLandmark) : Q :=
  let o := {| x := 0; y := 0; z := 0 |} in
  let dx := x (nth 263 lms o) - x (nth 33 lms o) in
  let dy := y (nth 263 lms o) - y (nth 33 lms o) in
  Math_sqrt (dx * dx + dy * dy).


Section Guidance.

Import String.
Local Open Scope string_scope.

(** The three objects [getGuidance] returns. *)
Definition tooClose : Guidance :=
  {| status := "WARNING"; message := "Too Close!" |}.
Definition tooFar : Guidance :=
  {| status := "WARNING"; message := "Too Far" |}.
Definition goodDistance : Guidance :=
  {| status := "OK"; message := "Good Distance" |}.

End Guidance.

End LegacyInv.

Module BurstRun.

Import Engine EngineInv.

(** The burst length [runDistanceBurst] settles on: [options.durationMs || 1500]. *)
Definition burstMs (durationMs : option Q) : Q :=
  match durationMs with
  | Some v => if Qeq_bool v 0 then 1500 else v
  | None => 1500
  end.

(** The number of turns the sampling loop takes when every turn waits
    100 ms: one per started 100 ms of the burst. *)
Definition turns (ms : Q) : nat := Z.to_nat (Qceiling (ms / 100)).

(** The environment after one turn of the loop, and after [n] turns. *)
Definition turn (env : Env) : Env :=
  {| clock := clock env + 100;
     lastDistanceResult := lastDistanceResult env;
     previews := previews env; timers := S (timers env);
     reads := S (reads env) |}.

Fixpoint afterTurns (n : nat) (env : Env) : Env :=
  match n with
  | O => env
  | S k => afterTurns k (turn env)
  end.

(** The samples [n] turns collect while the frame loop shows [last]. *)
Fixpoint collected (n : nat) (acc : list Q)
    (last : option Distance.DistanceResult) : list Q :=
  match n with
  | O => acc
  | S k => collected k (collect acc last) last
  end.

(** The environment once the preview is running. *)
Definition started (e : CameraEngine) (env : Env) : Env :=
  if isRunning e then env
  else {| clock := clock env;
          lastDistanceResult := lastDistanceResult env;
          previews := S (previews env); timers := timers env;
          reads := reads env |}.

End BurstRun.

(** ** Concrete inputs used to run the model *)

Module Examples.

Import Blink BlinkInv.

(** A detector with the default thresholds that has followed one eye
    closure: open, closing at 1033 ms, closed, reopening. *)
Definition reopening : BlinkDetector :=
  feed (new DEFAULT_CONFIG)
       [(1, 1000); (0.5, 1033); (0.5, 1066); (0.6, 1100)].

(** The same detector after the eye is fully open again at 1150 ms. *)
Definition blinked : BlinkDetector :=
  updateStateMachine reopening 1 1150.


(** Eleven stable calibration ticks 100 ms apart, IOD 200, 201, ..., 210 px. *)
Definition ticks : list (Q * Q * bool) :=
  List.map (fun i => (100 * inject_Z i, 199 + inject_Z i, true))
      [1; 2; 3; 4; 5; 6; 7; 8; 9; 10; 11]%Z.

(** Four stable ticks: too few for a calibration. *)
Definition fewTicks : list (Q * Q * bool) := firstn 4 ticks.

(** [Math.hypot] on landmark sets that lie on one horizontal line, where
    [dy = 0] and the hypotenuse is [|dx|]. *)
Definition hypot_row (dx dy : Q) : Q := Qabs dx.

(** 264 landmarks on the line [y = 0], the outer eye corners (indices 33
    and 263) at [x = a] and [x = b]. *)
Definition face (a b : Q) : list Distance.Point :=
  repeat {| Distance.x := 0; Distance.y := 0 |} 33
  ++ [{| Distance.x := a; Distance.y := 0 |}]
  ++ repeat {| Distance.x := 0; Distance.y := 0 |} 229
  ++ [{| Distance.x := b; Distance.y := 0 |}].








(** A distance result at 45 cm, as the frame loop stores it. *)
Definition at45 : Distance.DistanceResult :=
  {| Distance.estCm := 45; Distance.confidence := 1;
     Distance.bucket := Distance.OK;
     Distance.debug := {| Distance.iodPx := 205; Distance.iodNorm := 0.205;
                          Distance.k := 9225; Distance.rawCm := 45;
                          Distance.flags := [] |} |}.

(** A running engine whose estimator loaded the constant 9225, one that
    never calibrated, and an environment at time 0 that shows [at45]. *)
Definition calibratedEngine : Engine.CameraEngine :=
  {| Engine.isRunning := true; Engine.hasVideoElement := true;
     Engine.distanceEstimator := Distance.new (Some 9225) |}.

Definition uncalibratedEngine : Engine.CameraEngine :=
  {| Engine.isRunning := true; Engine.hasVideoElement := true;
     Engine.distanceEstimator := Distance.new None |}.

Definition quietEnv : EngineInv.Env :=
  {| EngineInv.clock := 0; EngineInv.lastDistanceResult := Some at45;
     EngineInv.previews := 0; EngineInv.timers := 0; EngineInv.reads := 0 |}.

(** The estimator in the middle of a calibration session, after [ticks]. *)
Definition collecting : Distance.DistanceEstimator :=
  fold_left
    (fun d t => Distance.processCalibrationFrame d (fst (fst t))
                  (snd (fst t)) (snd t))
    ticks
    (Distance.startCalibration (Distance.new None) 0).


(** Twelve stable calibration ticks: the IOD readings 200, 202, ..., 210 px,
    twice over. *)
Definition evenTicks : list (Q * Q * bool) :=
  List.map (fun i => (100 * inject_Z i, 198 + 2 * inject_Z (1 + (i - 1) mod 6), true))
      [1; 2; 3; 4; 5; 6; 7; 8; 9; 10; 11; 12]%Z.

(** The estimator after those twelve ticks of a session. *)
Definition collectingEven : Distance.DistanceEstimator :=
  fold_left
    (fun d t => Distance.processCalibrationFrame d (fst (fst t))
                  (snd (fst t)) (snd t))
    evenTicks
    (Distance.startCalibration (Distance.new None) 0).


(** [Math.hypot] on segments parallel to an axis, where one of the two
    differences is zero and the hypotenuse is the size of the other. *)
Definition hypot_axis (dx dy : Q) : Q := Qabs dx + Qabs dy.

(** [Math.sqrt] on a ratio of two perfect squares. *)
Definition sqrt_squares (v : Q) : Q := Z.sqrt (Qnum v) # Pos.sqrt (Qden v).

(** An eye contour in the order [calculateEAR] reads it: the corners 4
    apart, the lids 2 apart. *)
Definition openEye : list Quality.Point :=
  [ {| Quality.x := 0; Quality.y := 0 |};
    {| Quality.x := 1; Quality.y := 1 |};
    {| Quality.x := 3; Quality.y := 1 |};
    {| Quality.x := 4; Quality.y := 0 |};
    {| Quality.x := 3; Quality.y := -1 |};
    {| Quality.x := 1; Quality.y := -1 |} ].

(** One frame at 1000 ms with both eyes open, for each detector. *)
Definition cameraFrame
    : list (option (Blink.Camera.EyeLandmarks (list Quality.Point)) * Q) :=
  [(Some {| Blink.Camera.left := openEye; Blink.Camera.right := openEye |},
    1000)].

Definition engineFrame
    : list (option (Blink.Engine.EyeLandmarks (list Quality.Point)) * Q) :=
  [(Some {| Blink.Engine.leftEye := openEye; Blink.Engine.rightEye := openEye |},
    1000)].

(** A detector whose window holds two samples at 0.9. *)
Definition settled : Blink.BlinkDetector :=
  Blink.set_smoothingWindow (Blink.new Blink.DEFAULT_CONFIG) [0.9; 0.9].

(** 455 landmarks on the line [y = 0]: the nose tip (index 1) at [x = n],
    the face edges (indices 234 and 454) at [x = l] and [x = r]. *)
Definition mesh (n l r : Q) : list Distance.Point :=
  [{| Distance.x := 0; Distance.y := 0 |}; {| Distance.x := n; Distance.y := 0 |}]
  ++ repeat {| Distance.x := 0; Distance.y := 0 |} 232
  ++ [{| Distance.x := l; Distance.y := 0 |}]
  ++ repeat {| Distance.x := 0; Distance.y := 0 |} 219
  ++ [{| Distance.x := r; Distance.y := 0 |}].

(** The same landmarks as the quality monitor reads them, and a landmark
    result that holds this one face. *)
Definition qmesh (n l r : Q) : list Quality.Point :=
  [{| Quality.x := 0; Quality.y := 0 |}; {| Quality.x := n; Quality.y := 0 |}]
  ++ repeat {| Quality.x := 0; Quality.y := 0 |} 232
  ++ [{| Quality.x := l; Quality.y := 0 |}]
  ++ repeat {| Quality.x := 0; Quality.y := 0 |} 219
  ++ [{| Quality.x := r; Quality.y := 0 |}].

Definition oneFace : Quality.FaceLandmarkerResult :=
  {| Quality.faceLandmarks := [qmesh 0.5 0.3 0.7] |}.

(** [calculatePoseAngles] as the quality monitor sees it when it returns. *)
Definition poseOf (r : Quality.FaceLandmarkerResult) (i : nat)
    : option Quality.PoseAngles :=
  match LandmarkProvider.calculatePoseAngles r i with
  | LandmarkProvider.Returns a => a
  | LandmarkProvider.Throws => None
  end.

(** A read-back of the crop in which every pixel is mid grey. *)
Definition greyCrop : list Quality.Pixel :=
  repeat {| Quality.red := 128; Quality.green := 128; Quality.blue := 128;
            Quality.alpha := 255 |} (100 * 100).

(** A quality monitor that saw its last frame at 1000 ms. *)
Definition watching : Quality.QualityMonitor :=
  {| Quality.config := Quality.DEFAULT_CONFIG; Quality.startTime := 0;
     Quality.fpsHistory := [30]; Quality.lastFrameTime := 1000 |}.

(** A calibration tick that arrives after the 10 s window. *)
Definition lateTick : Q * Q * bool := (20000, 300, true).

(** 478 landmarks on the line [y = 0], the eye corners (indices 33 and
    263) at [x = a] and [x = b], for the older estimator. *)
Definition legacyFace (a b : Q) : list LegacyDistance.NormalizedLandmark :=
  repeat {| LegacyDistance.x := 0; LegacyDistance.y := 0; LegacyDistance.z := 0 |} 33
  ++ [{| LegacyDistance.x := a; LegacyDistance.y := 0; LegacyDistance.z := 0 |}]
  ++ repeat {| LegacyDistance.x := 0; LegacyDistance.y := 0; LegacyDistance.z := 0 |} 229
  ++ [{| LegacyDistance.x := b; LegacyDistance.y := 0; LegacyDistance.z := 0 |}]
  ++ repeat {| LegacyDistance.x := 0; LegacyDistance.y := 0; LegacyDistance.z := 0 |} 214.


End Examples.

(* ===================================================================== *)
(** * Part II: properties                                                 *)
(* ===================================================================== *)

(** ** Comparisons and sorting *)

Lemma ltb_true (a b : Q) : (a <? b) = true <-> a < b.
Proof.
  unfold Js.ltb. rewrite negb_true_iff, <- not_true_iff_false, Qle_bool_iff.
  split; intro H; lra.
Qed.

Lemma ltb_false (a b : Q) : (a <? b) = false <-> b <= a.
Proof.
  unfold Js.ltb. rewrite negb_false_iff, Qle_bool_iff. tauto.
Qed.

Lemma leb_true (a b : Q) : (a <=? b) = true <-> a <= b.
Proof. unfold Js.leb. apply Qle_bool_iff. Qed.

Lemma leb_false (a b : Q) : (a <=? b) = false <-> b < a.
Proof.
  unfold Js.leb. rewrite <- not_true_iff_false, Qle_bool_iff.
  split; intro H; lra.
Qed.

Lemma gtb_true (a b : Q) : (a >? b) = true <-> b < a.
Proof. unfold Js.gtb. apply ltb_true. Qed.

Lemma gtb_false (a b : Q) : (a >? b) = false <-> a <= b.
Proof. unfold Js.gtb. apply ltb_false. Qed.

Lemma geb_true (a b : Q) : (a >=? b) = true <-> b <= a.
Proof. unfold Js.geb. apply leb_true. Qed.

Lemma geb_false (a b : Q) : (a >=? b) = false <-> a < b.
Proof. unfold Js.geb. apply leb_false. Qed.

(** Turn every boolean comparison in the context into its proposition. *)
Ltac reflect_cmp :=
  repeat match goal with
  | H : (_ <? _) = true |- _ => apply ltb_true in H
  | H : (_ <? _) = false |- _ => apply ltb_false in H
  | H : (_ <=? _) = true |- _ => apply leb_true in H
  | H : (_ <=? _) = false |- _ => apply leb_false in H
  | H : (_ >? _) = true |- _ => apply gtb_true in H
  | H : (_ >? _) = false |- _ => apply gtb_false in H
  | H : (_ >=? _) = true |- _ => apply geb_true in H
  | H : (_ >=? _) = false |- _ => apply geb_false in H
  | H : (_ || _) = true |- _ => apply orb_true_iff in H
  | H : (_ || _) = false |- _ => apply orb_false_iff in H; destruct H
  | H : (_ && _) = true |- _ => apply andb_true_iff in H; destruct H
  | H : (_ && _) = false |- _ => apply andb_false_iff in H
  end.

(** ** The sorted copy and its middle element *)

Module SortFacts.

Lemma insertAsc_perm (v : Q) (xs : list Q) :
  Permutation (Js.insertAsc v xs) (v :: xs).
Proof.
  induction xs as [|w xs IH]; simpl; [reflexivity|].
  destruct (v <=? w); [reflexivity|].
  rewrite IH. apply perm_swap.
Qed.

Lemma sortAsc_perm (xs : list Q) : Permutation (Js.sortAsc xs) xs.
Proof.
  induction xs as [|v xs IH]; simpl; [reflexivity|].
  rewrite insertAsc_perm. constructor. exact IH.
Qed.

Lemma sortAsc_length (xs : list Q) : length (Js.sortAsc xs) = length xs.
Proof. apply Permutation_length, sortAsc_perm. Qed.

Lemma insertAsc_sorted (v : Q) (xs : list Q) :
  StronglySorted Qle xs -> StronglySorted Qle (Js.insertAsc v xs).
Proof.
  induction 1 as [|w xs Hs IH Hall]; simpl.
  - constructor; constructor.
  - destruct (v <=? w) eqn:E; reflect_cmp.
    + constructor; [constructor; assumption|].
      constructor; [assumption|].
      eapply Forall_impl; [|exact Hall]. simpl. intros u Hu. lra.
    + constructor; [assumption|].
      eapply Permutation_Forall; [symmetry; apply insertAsc_perm|].
      constructor; [lra|assumption].
Qed.

Lemma sortAsc_sorted (xs : list Q) : StronglySorted Qle (Js.sortAsc xs).
Proof.
  induction xs as [|v xs IH]; simpl; [constructor|].
  apply insertAsc_sorted, IH.
Qed.

(** In a sorted list, the element at index [i] bounds the [i + 1] elements
    up to it from above and the elements from it on from below. *)
Lemma sorted_nth_split (xs : list Q) :
  StronglySorted Qle xs ->
  forall i, (i < length xs)%nat ->
    Forall (fun v => v <= nth i xs 0) (firstn (S i) xs)
    /\ Forall (fun v => nth i xs 0 <= v) (skipn i xs).
Proof.
  induction 1 as [|w xs Hs IH Hall]; intros i Hi; simpl in Hi; [lia|].
  destruct i as [|i].
  - simpl. split.
    + constructor; [lra|]. destruct xs; constructor.
    + constructor; [lra|assumption].
  - destruct (IH i ltac:(lia)) as [Hlo Hhi].
    split.
    + change (firstn (S (S i)) (w :: xs)) with (w :: firstn (S i) xs).
      change (nth (S i) (w :: xs) 0) with (nth i xs 0).
      constructor; [|assumption].
      rewrite Forall_forall in Hall. apply Hall. apply nth_In. lia.
    + exact Hhi.
Qed.

Lemma filter_length_perm {A} (f : A -> bool) (xs ys : list A) :
  Permutation xs ys -> length (filter f xs) = length (filter f ys).
Proof.
  induction 1; simpl; try congruence.
  - destruct (f x); simpl; congruence.
  - destruct (f x), (f y); reflexivity.
Qed.

Lemma filter_length_all {A} (f : A -> bool) (xs : list A) :
  Forall (fun a => f a = true) xs -> length (filter f xs) = length xs.
Proof.
  induction 1 as [|a xs Ha _ IH]; simpl; [reflexivity|].
  rewrite Ha. simpl. congruence.
Qed.

Lemma filter_length_firstn {A} (f : A -> bool) (n : nat) (xs : list A) :
  (length (filter f (firstn n xs)) <= length (filter f xs))%nat.
Proof.
  rewrite <- (firstn_skipn n xs) at 2. rewrite filter_app, length_app. lia.
Qed.

Lemma filter_length_skipn {A} (f : A -> bool) (n : nat) (xs : list A) :
  (length (filter f (skipn n xs)) <= length (filter f xs))%nat.
Proof.
  rewrite <- (firstn_skipn n xs) at 2. rewrite filter_app, length_app. lia.
Qed.

(** [Js.median] picks a sample with more than half of the samples at or
    below it and at least half of them at or above it. *)
Lemma median_middle (xs : list Q) :
  xs <> [] ->
  In (Js.median xs) xs
  /\ (length xs < 2 * length (filter (fun v => Js.leb v (Js.median xs)) xs))%nat
  /\ (length xs <= 2 * length (filter (fun v => Js.leb (Js.median xs) v) xs))%nat.
Proof.
  intro Hne. unfold Js.median. cbv zeta.
  set (s := Js.sortAsc xs).
  assert (Hlen : length s = length xs) by apply sortAsc_length.
  assert (Hpos : (0 < length xs)%nat)
    by (destruct xs; [congruence|simpl; lia]).
  set (i := (length s / 2)%nat).
  assert (Hi : (i < length s)%nat)
    by (subst i; apply Nat.div_lt; lia).
  assert (Hhalf : (length s < 2 * S i /\ 2 * i <= length s)%nat).
  { subst i. pose proof (Nat.div_mod_eq (length s) 2) as E.
    pose proof (Nat.mod_upper_bound (length s) 2 ltac:(lia)). lia. }
  destruct (sorted_nth_split s (sortAsc_sorted xs) i Hi) as [Hlo Hhi].
  split; [|split].
  - eapply Permutation_in; [apply sortAsc_perm|]. apply nth_In. exact Hi.
  - rewrite <- (filter_length_perm _ _ _ (sortAsc_perm xs)). fold s.
    pose proof (filter_length_firstn (fun v => v <=? nth i s 0) (S i) s) as Hle.
    rewrite filter_length_all in Hle.
    + rewrite length_firstn in Hle. lia.
    + eapply Forall_impl; [|exact Hlo]. simpl. intros v Hv. apply leb_true, Hv.
  - rewrite <- (filter_length_perm _ _ _ (sortAsc_perm xs)). fold s.
    pose proof (filter_length_skipn (fun v => nth i s 0 <=? v) i s) as Hle.
    rewrite filter_length_all in Hle.
    + rewrite length_skipn in Hle. lia.
    + eapply Forall_impl; [|exact Hhi]. simpl. intros v Hv. apply leb_true, Hv.
Qed.


Lemma sorted_nth_le (xs : list Q) :
  StronglySorted Qle xs ->
  forall i j, (i <= j)%nat -> (j < length xs)%nat ->
    nth i xs 0 <= nth j xs 0.
Proof.
  induction 1 as [|w xs Hs IH Hall]; intros i j Hij Hj; simpl in Hj; [lia|].
  destruct i as [|i], j as [|j]; simpl; try lia.
  - apply Qle_refl.
  - rewrite Forall_forall in Hall. apply Hall, nth_In. lia.
  - apply IH; lia.
Qed.

(** The middle element the program picks is the usual median when the
    number of samples is odd, and is never below it. *)
Lemma median_odd (xs : list Q) :
  Nat.even (length xs) = false -> Js.median xs = Spec.median xs.
Proof.
  intro H. unfold Js.median, Spec.median. cbv zeta.
  rewrite sortAsc_length, H. reflexivity.
Qed.

Lemma mean_le_upper (a b : Q) : a <= b -> (a + b) / 2 <= b.
Proof. intro H. apply Qle_shift_div_r; lra. Qed.

Lemma median_upper (xs : list Q) :
  xs <> [] -> Spec.median xs <= Js.median xs.
Proof.
  intro Hne. unfold Js.median, Spec.median. cbv zeta.
  assert (Hpos : (0 < length (Js.sortAsc xs))%nat).
  { rewrite sortAsc_length. destruct xs; [congruence|simpl; lia]. }
  destruct (Nat.even (length (Js.sortAsc xs))); [|apply Qle_refl].
  assert (Hhalf : (length (Js.sortAsc xs) / 2 < length (Js.sortAsc xs))%nat)
    by (apply Nat.div_lt; lia).
  assert (Hle := sorted_nth_le (Js.sortAsc xs) (sortAsc_sorted xs)
                   (length (Js.sortAsc xs) / 2 - 1) (length (Js.sortAsc xs) / 2)
                   (Nat.le_sub_l _ _) Hhalf).
  apply mean_le_upper, Hle.
Qed.

End SortFacts.

(** ** Blink detector: finalization ([completeBlink]) *)

Module BlinkFacts.

Import Blink BlinkInv.

Lemma spaced_filter (gap : Q) (f : BlinkResult -> bool) (h : list BlinkResult) :
  spaced gap h -> spaced gap (filter f h).
Proof.
  induction h as [|e h IH]; simpl; [trivial|].
  intros [Hall Hrest]. destruct (f e); simpl; auto.
  split; auto.
  apply Forall_forall. intros e' Hin. apply filter_In in Hin.
  rewrite Forall_forall in Hall. apply Hall. tauto.
Qed.

Lemma spaced_snoc (gap : Q) (h : list BlinkResult) (e : BlinkResult) :
  spaced gap h ->
  Forall (fun e' => gap <= timestamp e - timestamp e') h ->
  spaced gap (h ++ [e]).
Proof.
  induction h as [|a h IH]; simpl; intros Hs Hall.
  - split; constructor.
  - destruct Hs as [Ha Hs]. inversion Hall; subst. split.
    + apply Forall_app. split; [assumption|]. constructor; [assumption|constructor].
    + apply IH; assumption.
Qed.

Lemma Forall_filter_keep {A} (P : A -> Prop) (f : A -> bool) (l : list A) :
  Forall P l -> Forall P (filter f l).
Proof.
  rewrite !Forall_forall. intros H a Hin. apply filter_In in Hin. apply H, Hin.
Qed.

Lemma completeBlink_rejected (d : BlinkDetector) (ts : Q) :
  rejects d ts = true -> completeBlink d ts = d.
Proof.
  unfold rejects, completeBlink. intro H.
  destruct ((ts - currentBlinkStart d <? minBlinkDuration (config d))
            || (ts - currentBlinkStart d >? maxBlinkDuration (config d)));
    [reflexivity|].
  simpl in H. rewrite H. reflexivity.
Qed.

Lemma completeBlink_accepted (d : BlinkDetector) (ts : Q) :
  rejects d ts = false ->
  completeBlink d ts =
    set_blinkHistory
      (set_lastBlinkTimestamp
         (set_blinkHistory d (blinkHistory d ++ [candidate d ts])) ts)
      (filter (fun b => timestamp b >? ts - 60000)
              (blinkHistory d ++ [candidate d ts])).
Proof.
  unfold rejects, completeBlink. intro H.
  apply orb_false_iff in H. destruct H as [H1 H2].
  rewrite H1, H2. reflexivity.
Qed.

Lemma rejects_true_iff (d : BlinkDetector) (ts : Q) :
  rejects d ts = true <->
  (ts - currentBlinkStart d < minBlinkDuration (config d)
   \/ maxBlinkDuration (config d) < ts - currentBlinkStart d
   \/ ts - lastBlinkTimestamp d < debounceTime (config d)).
Proof.
  unfold rejects. rewrite !orb_true_iff, !ltb_true, gtb_true. tauto.
Qed.

Lemma rejects_false_iff (d : BlinkDetector) (ts : Q) :
  rejects d ts = false <->
  (minBlinkDuration (config d) <= ts - currentBlinkStart d
   /\ ts - currentBlinkStart d <= maxBlinkDuration (config d)
   /\ debounceTime (config d) <= ts - lastBlinkTimestamp d).
Proof.
  unfold rejects. rewrite !orb_false_iff, !ltb_false, gtb_false. tauto.
Qed.

Lemma completeBlink_config (d : BlinkDetector) (ts : Q) :
  config (completeBlink d ts) = config d.
Proof.
  destruct (rejects d ts) eqn:E.
  - rewrite completeBlink_rejected by assumption. reflexivity.
  - rewrite completeBlink_accepted by assumption. reflexivity.
Qed.

Lemma completeBlink_valid (d : BlinkDetector) (ts : Q) :
  0 <= debounceTime (config d) ->
  history_valid d -> history_valid (completeBlink d ts).
Proof.
  intros Hgap (Hdur & Hlast & Hsp).
  destruct (rejects d ts) eqn:E.
  - rewrite completeBlink_rejected by assumption. repeat split; assumption.
  - rewrite completeBlink_accepted by assumption.
    apply rejects_false_iff in E. destruct E as (E1 & E2 & E3).
    unfold history_valid. simpl. repeat split.
    + apply Forall_filter_keep, Forall_app. split; [assumption|].
      constructor; [simpl; split; assumption|constructor].
    + apply Forall_filter_keep, Forall_app. split.
      * eapply Forall_impl; [|exact Hlast]. simpl. intros e He. lra.
      * constructor; [simpl; lra|constructor].
    + apply spaced_filter, spaced_snoc; [assumption|].
      eapply Forall_impl; [|exact Hlast]. simpl. intros e He. lra.
Qed.

Lemma trackMinOpenness_history (d : BlinkDetector) (o : Q) :
  config (trackMinOpenness d o) = config d
  /\ blinkHistory (trackMinOpenness d o) = blinkHistory d
  /\ lastBlinkTimestamp (trackMinOpenness d o) = lastBlinkTimestamp d
  /\ state (trackMinOpenness d o) = state d
  /\ currentBlinkStart (trackMinOpenness d o) = currentBlinkStart d
  /\ baselineOpenness (trackMinOpenness d o) = baselineOpenness d.
Proof.
  unfold trackMinOpenness. destruct (o <? currentBlinkMinOpenness d);
    repeat split; reflexivity.
Qed.

Lemma history_valid_ext (d d' : BlinkDetector) :
  config d' = config d ->
  blinkHistory d' = blinkHistory d ->
  lastBlinkTimestamp d' = lastBlinkTimestamp d ->
  history_valid d -> history_valid d'.
Proof.
  unfold history_valid. intros -> -> ->. trivial.
Qed.

Lemma updateStateMachine_config (d : BlinkDetector) (o ts : Q) :
  config (updateStateMachine d o ts) = config d.
Proof.
  unfold updateStateMachine.
  destruct (trackMinOpenness_history d o) as (Hc & _).
  destruct (state d).
  - destruct (_ <? _); reflexivity.
  - repeat (destruct (_ <? _) || destruct (_ >? _)); simpl; exact Hc || reflexivity.
  - destruct (_ >=? _); simpl; exact Hc.
  - destruct (_ >=? _); simpl; [rewrite completeBlink_config|]; exact Hc.
Qed.

Lemma updateStateMachine_valid (d : BlinkDetector) (o ts : Q) :
  0 <= debounceTime (config d) ->
  history_valid d -> history_valid (updateStateMachine d o ts).
Proof.
  intros Hgap Hv. unfold updateStateMachine.
  destruct (trackMinOpenness_history d o) as (Hc & Hh & Hl & _).
  assert (Hv' : history_valid (trackMinOpenness d o))
    by (eapply history_valid_ext; eauto).
  destruct (state d).
  - destruct (_ <? _); [|assumption].
    eapply history_valid_ext; [| | |exact Hv]; reflexivity.
  - repeat (destruct (_ <? _) || destruct (_ >? _)); simpl;
      try assumption;
      (eapply history_valid_ext; [| | |exact Hv']; reflexivity).
  - destruct (_ >=? _); [|assumption].
    eapply history_valid_ext; [| | |exact Hv']; reflexivity.
  - destruct (_ >=? _); [|assumption].
    eapply history_valid_ext;
      [| | |apply (completeBlink_valid (trackMinOpenness d o) ts);
            [rewrite Hc|]; eassumption]; reflexivity.
Qed.

Lemma new_valid (cfg : BlinkConfig) : history_valid (new cfg).
Proof. repeat split; simpl; constructor. Qed.

Lemma feed_valid (samples : list (Q * Q)) (d : BlinkDetector) :
  0 <= debounceTime (config d) ->
  history_valid d -> history_valid (feed d samples).
Proof.
  unfold feed. revert d.
  induction samples as [|s samples IH]; simpl; intros d Hgap Hv; [assumption|].
  apply IH.
  - rewrite updateStateMachine_config. assumption.
  - apply updateStateMachine_valid; assumption.
Qed.

(** The baseline that [completeBlink] divides by is positive in every state
    the detector reaches: it is the default 0.35 or the median of samples
    above 0.5. *)
Lemma completeBlink_baseline (d : BlinkDetector) (ts : Q) :
  baselineOpenness (completeBlink d ts) = baselineOpenness d
  /\ calibrationSamples (completeBlink d ts) = calibrationSamples d.
Proof.
  destruct (rejects d ts) eqn:E.
  - rewrite completeBlink_rejected by assumption. split; reflexivity.
  - rewrite completeBlink_accepted by assumption. split; reflexivity.
Qed.

Lemma updateStateMachine_baseline (d : BlinkDetector) (o ts : Q) :
  baselineOpenness (updateStateMachine d o ts) = baselineOpenness d
  /\ calibrationSamples (updateStateMachine d o ts) = calibrationSamples d.
Proof.
  unfold updateStateMachine, trackMinOpenness.
  destruct (state d).
  - destruct (_ <? _); split; reflexivity.
  - destruct (o <? _); simpl; destruct (_ <? _); simpl; destruct (_ >? _);
      split; reflexivity.
  - destruct (o <? _); simpl; destruct (_ >=? _); split; reflexivity.
  - destruct (o <? _); simpl; destruct (_ >=? _); simpl;
      try (split; reflexivity);
      match goal with
      | |- context [completeBlink ?x ts] =>
          destruct (completeBlink_baseline x ts) as [Hb Hc]; rewrite Hb, Hc
      end; split; reflexivity.
Qed.

Lemma calibrateBaseline_positive (d : BlinkDetector) (o : Q) :
  baseline_ok d -> baseline_ok (calibrateBaseline d o).
Proof.
  unfold baseline_ok, calibrateBaseline. intros [Hb Hs].
  set (d1 := if o >? 0.5
             then set_calibrationSamples d (calibrationSamples d ++ [o])
             else d).
  assert (H1 : 0 < baselineOpenness d1
               /\ Forall (fun v => 0.5 < v) (calibrationSamples d1)).
  { subst d1. destruct (o >? 0.5) eqn:E; simpl; [|split; assumption].
    split; [assumption|]. apply Forall_app. split; [assumption|].
    constructor; [apply gtb_true; exact E|constructor]. }
  destruct H1 as [Hb1 Hs1].
  destruct (Js.len (calibrationSamples d1) >=? 30) eqn:E30; simpl;
    [|split; assumption].
  split; [|assumption].
  assert (Hne : calibrationSamples d1 <> []).
  { intro Hnil. rewrite Hnil in E30. vm_compute in E30. discriminate. }
  destruct (SortFacts.median_middle _ Hne) as (Hin & _).
  rewrite Forall_forall in Hs1. specialize (Hs1 _ Hin). lra.
Qed.

Lemma processFrame_baseline_positive (EyeContour : Type)
    (calculateEAR : EyeContour -> Q) (d : BlinkDetector) (ts : Q)
    (camera : option (Camera.EyeLandmarks EyeContour))
    (engine : option (Engine.EyeLandmarks EyeContour)) :
  baseline_ok d ->
  baseline_ok (snd (Camera.processFrame EyeContour calculateEAR d camera ts))
  /\ baseline_ok (snd (Engine.processFrame EyeContour calculateEAR d engine ts)).
Proof.
  intro Hok.
  assert (Hstep : forall d0 (b : bool) o,
             baseline_ok d0 ->
             baseline_ok
               (updateStateMachine
                  (if b then calibrateBaseline d0 o else d0) o ts)).
  { intros d0 b o H0. unfold baseline_ok.
    destruct (updateStateMachine_baseline
                (if b then calibrateBaseline d0 o else d0) o ts) as [Hb Hc].
    rewrite Hb, Hc.
    destruct b; [apply calibrateBaseline_positive|]; exact H0. }
  split.
  - unfold Camera.processFrame. destruct camera as [lm|]; [|exact Hok].
    unfold smoothOpenness. cbv zeta. cbn [snd]. apply Hstep. exact Hok.
  - unfold Engine.processFrame. destruct engine as [lm|]; [|exact Hok].
    unfold smoothOpenness. cbv zeta. cbn [snd]. apply Hstep. exact Hok.
Qed.

End BlinkFacts.

Module BlinkProps.

Import Blink BlinkInv BlinkFacts.

Lemma filter_recent_snoc (h : list BlinkResult) (ev : BlinkResult) :
  filter (fun b => timestamp b >? timestamp ev - 60000) (h ++ [ev])
  = filter (fun b => timestamp b >? timestamp ev - 60000) h ++ [ev].
Proof.
  rewrite filter_app. simpl.
  assert (E : (timestamp ev >? timestamp ev - 60000) = true)
    by (apply gtb_true; lra).
  rewrite E. reflexivity.
Qed.

(** C1.  [completeBlink] leaves the detector exactly as it was (no event,
    same [lastBlinkTimestamp]) when the candidate's duration is outside
    [minBlinkDuration, maxBlinkDuration] or the candidate comes less than
    [debounceTime] after [lastBlinkTimestamp]; otherwise it appends the
    event, keeps it through the 60 s trim and moves [lastBlinkTimestamp]
    to it.  Hence, with a non-negative debounce time, every event of the
    history has a duration within the bounds and lies at least
    [debounceTime] after every earlier event, in every state the state
    machine reaches from a fresh detector. *)
Theorem completeBlink_validates (d : BlinkDetector) (ts : Q) :
  let cfg := config d in
  let dur := ts - currentBlinkStart d in
  ((dur < minBlinkDuration cfg \/ maxBlinkDuration cfg < dur
    \/ ts - lastBlinkTimestamp d < debounceTime cfg) ->
   completeBlink d ts = d)
  /\ ((minBlinkDuration cfg <= dur /\ dur <= maxBlinkDuration cfg
       /\ debounceTime cfg <= ts - lastBlinkTimestamp d) ->
      lastBlinkTimestamp (completeBlink d ts) = ts
      /\ blinkHistory (completeBlink d ts)
         = filter (fun b => timestamp b >? ts - 60000) (blinkHistory d)
           ++ [candidate d ts])
  /\ (0 <= debounceTime cfg -> history_valid d ->
      history_valid (completeBlink d ts))
  /\ (forall samples, 0 <= debounceTime cfg ->
      history_valid (feed (new cfg) samples)).
Proof.
  cbv zeta. repeat split.
  - intro H. apply completeBlink_rejected, rejects_true_iff, H.
  - rewrite completeBlink_accepted by (apply rejects_false_iff; assumption).
    reflexivity.
  - rewrite completeBlink_accepted by (apply rejects_false_iff; assumption).
    simpl. apply (filter_recent_snoc (blinkHistory d) (candidate d ts)).
  - apply completeBlink_valid; assumption.
  - apply completeBlink_valid; assumption.
  - apply completeBlink_valid; assumption.
  - apply feed_valid; [assumption|apply new_valid].
  - apply feed_valid; [assumption|apply new_valid].
  - apply feed_valid; [assumption|apply new_valid].
Qed.

Lemma completeBlink_validates_witness :
  lastBlinkTimestamp (completeBlink Examples.reopening 1150) = 1150
  /\ completeBlink Examples.reopening 1100 = Examples.reopening
  /\ history_valid (completeBlink Examples.reopening 1150).
Proof.
  destruct (completeBlink_validates Examples.reopening 1150) as (_ & Hacc & Hinv & Hrun).
  destruct (completeBlink_validates Examples.reopening 1100) as (Hrej & _).
  split; [|split].
  - apply Hacc. vm_compute. intuition discriminate.
  - apply Hrej. left. vm_compute. reflexivity.
  - apply Hinv.
    + vm_compute. discriminate.
    + apply (Hrun [(1, 1000); (0.5, 1033); (0.5, 1066); (0.6, 1100)]).
      vm_compute. discriminate.
Defined.

(** C8.  The event recorded for a blink that passes the duration and
    debounce checks carries the tracked minimum openness, and it is marked
    complete exactly when that minimum divided by the baseline openness is
    at most [incompleteThreshold]; it is incomplete exactly when the ratio
    exceeds the threshold. *)
Theorem isComplete_iff_ratio (d : BlinkDetector) (ts : Q) :
  minBlinkDuration (config d) <= ts - currentBlinkStart d ->
  ts - currentBlinkStart d <= maxBlinkDuration (config d) ->
  debounceTime (config d) <= ts - lastBlinkTimestamp d ->
  ~ baselineOpenness d == 0 ->
  exists older ev,
    blinkHistory (completeBlink d ts) = older ++ [ev]
    /\ timestamp ev = ts
    /\ minOpenness ev = currentBlinkMinOpenness d
    /\ (isComplete ev = true <->
        currentBlinkMinOpenness d / baselineOpenness d
          <= incompleteThreshold (config d))
    /\ (isComplete ev = false <->
        incompleteThreshold (config d)
          < currentBlinkMinOpenness d / baselineOpenness d).
Proof.
  intros Hmin Hmax Hdeb _.
  assert (Hacc : rejects d ts = false)
    by (apply rejects_false_iff; repeat split; assumption).
  exists (filter (fun b => timestamp b >? ts - 60000) (blinkHistory d)).
  exists (candidate d ts).
  split; [|split; [|split; [|split]]].
  - rewrite completeBlink_accepted by assumption. simpl.
    apply (filter_recent_snoc (blinkHistory d) (candidate d ts)).
  - reflexivity.
  - reflexivity.
  - simpl. apply leb_true.
  - simpl. apply leb_false.
Qed.

Lemma isComplete_iff_ratio_witness :
  exists older ev,
    blinkHistory (completeBlink Examples.reopening 1150) = older ++ [ev]
    /\ timestamp ev = 1150
    /\ minOpenness ev = currentBlinkMinOpenness Examples.reopening
    /\ (isComplete ev = true <->
        currentBlinkMinOpenness Examples.reopening
          / baselineOpenness Examples.reopening
          <= incompleteThreshold (config Examples.reopening))
    /\ (isComplete ev = false <->
        incompleteThreshold (config Examples.reopening)
          < currentBlinkMinOpenness Examples.reopening
            / baselineOpenness Examples.reopening).
Proof.
  apply (isComplete_iff_ratio Examples.reopening 1150);
    vm_compute; discriminate.
Defined.




Lemma history_nonempty (d : BlinkDetector) :
  blinkHistory d <> [] -> Nat.eqb (length (blinkHistory d)) 0 = false.
Proof. destruct (blinkHistory d); [congruence|reflexivity]. Qed.

(** C7, as the program has it.  With at least one recorded blink, the
    detector of [BlinkDetector.ts] returns the product of the frame-rate
    discount (0.7 below 20 fps, else 0.85 below 24 fps) and the
    calibration discount (0.5 when uncalibrated) rounded to two decimals:
    the product itself, except that 0.85 * 0.5 is returned as 0.43.  The
    detector used by the camera engine multiplies the same product by a
    further 0.8 whenever the frame rate is below 30 fps. *)
Theorem calculateMetrics_confidence (d : BlinkDetector) (dur avgFps : Q) :
  blinkHistory d <> [] ->
  let product := Spec.metrics_confidence avgFps (isCalibrated d) in
  confidence (Camera.calculateMetrics d dur (Some avgFps))
    == Js.Math_round (product * 100) / 100
  /\ (20 <= avgFps -> avgFps < 24 -> isCalibrated d = false ->
      confidence (Camera.calculateMetrics d dur (Some avgFps)) == 0.43)
  /\ (avgFps < 20 \/ 24 <= avgFps \/ isCalibrated d = true ->
      confidence (Camera.calculateMetrics d dur (Some avgFps)) == product)
  /\ confidence (Engine.calculateMetrics d dur avgFps)
     == product * (if avgFps <? 30 then 0.8 else 1).
Proof.
  intros Hne. cbv zeta.
  unfold Camera.calculateMetrics, Engine.calculateMetrics,
    Spec.metrics_confidence.
  rewrite (history_nonempty d Hne). cbn [confidence].
  destruct (avgFps <? 20) eqn:E20; destruct (avgFps <? 24) eqn:E24;
    destruct (avgFps <? 30) eqn:E30; destruct (isCalibrated d);
    reflect_cmp; cbn [negb];
    (split; [|split; [|split]]); intros;
    try solve [vm_compute; reflexivity];
    try (exfalso; lra);
    try discriminate;
    repeat match goal with
           | H : _ \/ _ |- _ => destruct H
           end;
    try (exfalso; lra); try discriminate.
Qed.

Lemma calculateMetrics_confidence_witness :
  confidence (Camera.calculateMetrics Examples.blinked 60 (Some 22)) == 0.43
  /\ confidence (Engine.calculateMetrics Examples.blinked 60 22) == 0.34.
Proof.
  assert (Hne : blinkHistory Examples.blinked <> [])
    by (vm_compute; discriminate).
  destruct (calculateMetrics_confidence Examples.blinked 60 22 Hne)
    as (_ & H43 & _ & Heng).
  split.
  - apply H43; [vm_compute; discriminate|vm_compute; reflexivity|reflexivity].
  - rewrite Heng. vm_compute. reflexivity.
Defined.

(** C7, as the specification words it, fails twice: at 25 fps the engine's
    detector returns 0.4 where the two discounts give 0.5, and at 22 fps
    the detector of [BlinkDetector.ts], uncalibrated, returns 0.43 where
    the two discounts give 0.425. *)
Lemma metrics_confidence_counterexample :
  blinkHistory Examples.blinked <> []
  /\ ~ confidence (Engine.calculateMetrics Examples.blinked 60 25)
       == Spec.metrics_confidence 25 (isCalibrated Examples.blinked)
  /\ ~ confidence (Camera.calculateMetrics Examples.blinked 60 (Some 22))
       == Spec.metrics_confidence 22 (isCalibrated Examples.blinked).
Proof. vm_compute. repeat split; discriminate. Qed.

(** C10, as the program has it.  With an empty history both detectors
    return the all-zero metrics, whatever the frame rate and the
    calibration; with a non-empty history the confidence is at least 0.35
    in the detector of [BlinkDetector.ts] and at least 0.28 in the
    detector used by the camera engine. *)
Theorem calculateMetrics_empty_history (d : BlinkDetector) (dur avgFps : Q)
    (optFps : option Q) :
  (blinkHistory d = [] ->
   Camera.calculateMetrics d dur optFps = zeroMetrics
   /\ Engine.calculateMetrics d dur avgFps = zeroMetrics
   /\ confidence (Camera.calculateMetrics d dur optFps) = 0
   /\ confidence (Engine.calculateMetrics d dur avgFps) = 0)
  /\ (blinkHistory d <> [] ->
      0.35 <= confidence (Camera.calculateMetrics d dur optFps)
      /\ 0.28 <= confidence (Engine.calculateMetrics d dur avgFps)).
Proof.
  split.
  - intro He. unfold Camera.calculateMetrics, Engine.calculateMetrics.
    rewrite He. simpl. repeat split.
  - intro Hne. unfold Camera.calculateMetrics, Engine.calculateMetrics.
    rewrite (history_nonempty d Hne). cbn [confidence].
    split.
    + destruct (_ <? 20); [|destruct (_ <? 24)]; destruct (isCalibrated d);
        vm_compute; discriminate.
    + destruct (avgFps <? 20); [|destruct (avgFps <? 24)];
        destruct (isCalibrated d); destruct (avgFps <? 30);
        vm_compute; discriminate.
Qed.

Lemma calculateMetrics_empty_history_witness :
  Engine.calculateMetrics (new DEFAULT_CONFIG) 60 10 = zeroMetrics
  /\ 0.28 <= confidence (Engine.calculateMetrics Examples.blinked 60 10).
Proof.
  destruct (calculateMetrics_empty_history (new DEFAULT_CONFIG) 60 10 None)
    as (H0 & _).
  destruct (calculateMetrics_empty_history Examples.blinked 60 10 None)
    as (_ & H1).
  split.
  - apply H0. reflexivity.
  - apply H1. vm_compute. discriminate.
Defined.

(** C10, as the specification words it, fails on its bound: at 10 fps and
    without calibration the engine's detector returns 0 for an empty
    history, and for a history of one blink its discounts give 0.28, below
    0.35. *)
Lemma discount_floor_counterexample :
  blinkHistory (new DEFAULT_CONFIG) = []
  /\ isCalibrated (new DEFAULT_CONFIG) = isCalibrated Examples.blinked
  /\ confidence (Engine.calculateMetrics (new DEFAULT_CONFIG) 60 10) = 0
  /\ blinkHistory Examples.blinked <> []
  /\ confidence (Engine.calculateMetrics Examples.blinked 60 10) == 0.28
  /\ confidence (Engine.calculateMetrics Examples.blinked 60 10) < 0.35.
Proof. vm_compute. repeat split; discriminate. Qed.

End BlinkProps.

(** ** Distance estimators: calibration *)

Module CalibrationFacts.

Import Distance DistanceInv.

(** While the window is open, a session collects exactly the accepted
    samples and stays in calibration. *)
Lemma session_samples (start : Q) (ticks : list (Q * Q * bool))
    (d : DistanceEstimator) :
  isCalibrating d = true ->
  calibrationStartTime d = start ->
  in_window start ticks ->
  let d' := fold_left
              (fun d t => processCalibrationFrame d (fst (fst t))
                            (snd (fst t)) (snd t))
              ticks d in
  calibrationSamples d' = calibrationSamples d ++ accepted ticks
  /\ calibrationK d' = calibrationK d
  /\ localStorage d' = localStorage d
  /\ isCalibrating d' = true.
Proof.
  revert d. induction ticks as [|t ticks IH]; intros d Hc Hs Hw; simpl.
  - rewrite app_nil_r. repeat split; assumption.
  - inversion Hw as [|? ? Ht Hrest]; subst.
    unfold accepted. simpl.
    set (d1 := processCalibrationFrame d (fst (fst t)) (snd (fst t)) (snd t)).
    assert (Hd1 : d1 = if (snd (fst t) >? 0) && snd t
                       then {| calibrationK := calibrationK d;
                               lastSmoothedCm := lastSmoothedCm d;
                               calibrationSamples :=
                                 calibrationSamples d ++ [snd (fst t)];
                               isCalibrating := isCalibrating d;
                               calibrationStartTime := calibrationStartTime d;
                               localStorage := localStorage d |}
                       else d).
    { subst d1. unfold processCalibrationFrame. rewrite Hc. simpl.
      assert (E : (fst (fst t) - calibrationStartTime d
                     >? CALIBRATION_DURATION_MS) = false)
        by (apply gtb_false; exact Ht).
      rewrite E. reflexivity. }
    clearbody d1. subst d1.
    destruct ((snd (fst t) >? 0) && snd t) eqn:E; simpl.
    + match goal with
      | |- context [fold_left _ ticks ?x] =>
          destruct (IH x) as (H1 & H2 & H3 & H4);
            [simpl; solve [assumption|reflexivity]..|]
      end.
      cbv zeta in H1, H2, H3, H4. rewrite H1, H2, H3, H4. simpl.
      rewrite <- app_assoc. repeat split.
    + destruct (IH d) as (H1 & H2 & H3 & H4);
        [solve [assumption|reflexivity]..|].
      cbv zeta in H1, H2, H3, H4. rewrite H1, H2, H3, H4. repeat split.
Qed.

Lemma finalize_enough (d : DistanceEstimator) :
  (10 <= length (calibrationSamples d))%nat ->
  calibrationK (finalizeCalibration d)
  = Some (DEFAULT_TARGET_CM * Js.median (calibrationSamples d)).
Proof.
  intro H. unfold finalizeCalibration. simpl.
  destruct (Nat.ltb_spec (length (calibrationSamples d)) 10); [lia|reflexivity].
Qed.

Lemma finalize_too_few (d : DistanceEstimator) :
  (length (calibrationSamples d) < 10)%nat ->
  calibrationK (finalizeCalibration d) = calibrationK d
  /\ localStorage (finalizeCalibration d) = localStorage d
  /\ isCalibrated (finalizeCalibration d) = isCalibrated d.
Proof.
  intro H. unfold finalizeCalibration, isCalibrated. simpl.
  destruct (Nat.ltb_spec (length (calibrationSamples d)) 10); [|lia].
  repeat split.
Qed.

(** The constant a whole session leaves, from the accepted samples alone. *)
Lemma recalibrate_k (d : DistanceEstimator) (start : Q)
    (ticks : list (Q * Q * bool)) :
  in_window start ticks ->
  calibrationK (recalibrate d start ticks)
  = if Nat.ltb (length (accepted ticks)) 10 then None
    else Some (DEFAULT_TARGET_CM * Js.median (accepted ticks)).
Proof.
  intro Hw. unfold recalibrate.
  destruct (session_samples start ticks
              (startCalibration (resetCalibration d) start))
    as (Hs & Hk & _); [reflexivity|reflexivity|assumption|].
  cbv zeta in Hs, Hk. simpl in Hs, Hk.
  destruct (Nat.ltb_spec (length (accepted ticks)) 10) as [Hlt|Hge].
  - destruct (finalize_too_few
                (fold_left
                   (fun d t => processCalibrationFrame d (fst (fst t))
                                 (snd (fst t)) (snd t))
                   ticks (startCalibration (resetCalibration d) start)))
      as (H & _); [rewrite Hs; exact Hlt|].
    rewrite H. exact Hk.
  - rewrite finalize_enough by (rewrite Hs; exact Hge).
    rewrite Hs. reflexivity.
Qed.

(** The accepted samples depend on the IOD and stability readings only. *)
Lemma accepted_same (ticks ticks' : list (Q * Q * bool)) :
  List.map (fun t => (snd (fst t), snd t)) ticks
  = List.map (fun t => (snd (fst t), snd t)) ticks' ->
  accepted ticks = accepted ticks'.
Proof.
  revert ticks'.
  induction ticks as [|t ticks IH]; intros [|t' ticks'] Hsame;
    simpl in Hsame; try discriminate; [reflexivity|].
  injection Hsame as Hi Hst Hrest.
  unfold accepted in *. simpl. rewrite Hi, Hst.
  destruct ((snd (fst t') >? 0) && snd t'); simpl;
    rewrite (IH ticks' Hrest); [rewrite Hi|]; reflexivity.
Qed.

End CalibrationFacts.

Module CalibrationProps.

Import DistanceInv CalibrationFacts.

(** C2, as the program has it.  With at least 10 samples the engine's
    [finalizeCalibration] sets [k = 45 * m] and stores it, where [m] is the
    middle element [sorted[floor(n / 2)]] of the sorted samples; with fewer
    it leaves the constant and the stored value as they were.  With at
    least 5 samples the older estimator's [finalizeCalibration(targetCm)]
    succeeds with [k = targetCm * m]; with fewer it returns [false] and
    leaves the estimator as it was.  The middle element is a sample with
    more than half of the samples at or below it and at least half at or
    above it; it is the usual median when the number of samples is odd and
    is never below it.  Two calibration sessions fed the same IOD and
    stability readings within the window end with the same constant,
    whatever the estimator held before the reset. *)
Theorem finalizeCalibration_constant
    (d : Distance.DistanceEstimator) (l : LegacyDistance.DistanceEstimator)
    (targetCm now : Q) :
  ((10 <= length (Distance.calibrationSamples d))%nat ->
   let m := Js.median (Distance.calibrationSamples d) in
   Distance.calibrationK (Distance.finalizeCalibration d) = Some (45 * m)
   /\ Distance.localStorage (Distance.finalizeCalibration d) = Some (45 * m)
   /\ In m (Distance.calibrationSamples d)
   /\ (length (Distance.calibrationSamples d)
       < 2 * length (filter (fun v => Js.leb v m) (Distance.calibrationSamples d)))%nat
   /\ (length (Distance.calibrationSamples d)
       <= 2 * length (filter (fun v => Js.leb m v) (Distance.calibrationSamples d)))%nat)
  /\ ((length (Distance.calibrationSamples d) < 10)%nat ->
      Distance.calibrationK (Distance.finalizeCalibration d)
      = Distance.calibrationK d
      /\ Distance.localStorage (Distance.finalizeCalibration d)
         = Distance.localStorage d
      /\ Distance.isCalibrated (Distance.finalizeCalibration d)
         = Distance.isCalibrated d)
  /\ ((5 <= length (LegacyDistance.calibrationSamples l))%nat ->
      let m := Js.median (LegacyDistance.calibrationSamples l) in
      fst (LegacyDistance.finalizeCalibration l (Some targetCm) now) = true
      /\ LegacyDistance.k
           (LegacyDistance.calibration
              (snd (LegacyDistance.finalizeCalibration l (Some targetCm) now)))
         = targetCm * m
      /\ In m (LegacyDistance.calibrationSamples l))
  /\ ((length (LegacyDistance.calibrationSamples l) < 5)%nat ->
      LegacyDistance.finalizeCalibration l (Some targetCm) now = (false, l))
  /\ (forall d' start start' ticks ticks',
        in_window start ticks -> in_window start' ticks' ->
        List.map (fun t => (snd (fst t), snd t)) ticks
        = List.map (fun t => (snd (fst t), snd t)) ticks' ->
        Distance.calibrationK (DistanceInv.recalibrate d start ticks)
        = Distance.calibrationK (DistanceInv.recalibrate d' start' ticks'))
  /\ (forall samples,
        (Nat.even (length samples) = false ->
         Js.median samples = Spec.median samples)
        /\ (samples <> [] -> Spec.median samples <= Js.median samples)).
Proof.
  split; [|split; [|split; [|split; [|split]]]];
    [| | | | |intro samples; split;
              [apply SortFacts.median_odd|apply SortFacts.median_upper]].
  - intro H. cbv zeta.
    assert (Hne : Distance.calibrationSamples d <> [])
      by (destruct (Distance.calibrationSamples d); [simpl in H; lia|congruence]).
    destruct (SortFacts.median_middle _ Hne) as (Hin & Hlo & Hhi).
    split; [apply finalize_enough; exact H|].
    split; [|repeat split; assumption].
    unfold Distance.finalizeCalibration. simpl.
    destruct (Nat.ltb_spec (length (Distance.calibrationSamples d)) 10);
      [lia|reflexivity].
  - apply finalize_too_few.
  - intro H. cbv zeta.
    assert (Hne : LegacyDistance.calibrationSamples l <> [])
      by (destruct (LegacyDistance.calibrationSamples l);
          [simpl in H; lia|congruence]).
    unfold LegacyDistance.finalizeCalibration.
    destruct (Nat.ltb_spec (length (LegacyDistance.calibrationSamples l)) 5);
      [lia|].
    simpl. repeat split. apply (SortFacts.median_middle _ Hne).
  - intro H. unfold LegacyDistance.finalizeCalibration.
    destruct (Nat.ltb_spec (length (LegacyDistance.calibrationSamples l)) 5);
      [reflexivity|lia].
  - intros d' start start' ticks ticks' Hw Hw' Hsame.
    rewrite !recalibrate_k by assumption.
    assert (E : accepted ticks = accepted ticks')
      by (apply accepted_same; assumption).
    rewrite E. reflexivity.
Qed.



Lemma finalizeCalibration_constant_witness :
  Distance.calibrationK (Distance.finalizeCalibration Examples.collecting)
  = Some (45 * Js.median (Distance.calibrationSamples Examples.collecting))
  /\ 45 * Js.median (Distance.calibrationSamples Examples.collecting) == 9225
  /\ Distance.calibrationK
       (DistanceInv.recalibrate (Distance.new None) 0 Examples.ticks)
     = Distance.calibrationK
         (DistanceInv.recalibrate
            (DistanceInv.recalibrate (Distance.new None) 0 Examples.ticks)
            0 Examples.ticks)
  /\ LegacyDistance.finalizeCalibration LegacyDistance.new (Some 45) 0
     = (false, LegacyDistance.new).
Proof.
  pose proof (finalizeCalibration_constant
                Examples.collecting LegacyDistance.new 45 0)
    as (Henough & _ & _ & Hfew & _).
  pose proof (finalizeCalibration_constant
                (Distance.new None) LegacyDistance.new 45 0)
    as (_ & _ & _ & _ & Hsame & _).
  assert (Hlen : (10 <= length (Distance.calibrationSamples Examples.collecting))%nat)
    by (vm_compute; repeat constructor).
  specialize (Henough Hlen). cbv zeta in Henough.
  destruct Henough as (Hk & _).
  split; [exact Hk|].
  split; [vm_compute; reflexivity|].
  split.
  - apply Hsame; try reflexivity;
      unfold in_window; repeat constructor; vm_compute; discriminate.
  - apply Hfew. simpl. lia.
Defined.

(** C2, as the specification words it, fails on a buffer of even length:
    after twelve stable readings 200, 202, ..., 210 px taken twice, whose
    median is 205, the engine's estimator sets [k = 45 * 206 = 9270], not
    [45 * 205 = 9225]. *)
Lemma even_buffer_median_counterexample :
  Forall2 Qeq (Distance.calibrationSamples Examples.collectingEven)
          [200; 202; 204; 206; 208; 210; 200; 202; 204; 206; 208; 210]
  /\ Spec.median (Distance.calibrationSamples Examples.collectingEven) == 205
  /\ Distance.calibrationK (Distance.finalizeCalibration Examples.collectingEven)
     = Some (45 * Js.median (Distance.calibrationSamples Examples.collectingEven))
  /\ 45 * Js.median (Distance.calibrationSamples Examples.collectingEven) == 9270
  /\ ~ 45 * Js.median (Distance.calibrationSamples Examples.collectingEven)
       == 45 * Spec.median (Distance.calibrationSamples Examples.collectingEven).
Proof.
  split; [vm_compute; repeat constructor|].
  split; [vm_compute; reflexivity|].
  split; [vm_compute; reflexivity|].
  split; [vm_compute; reflexivity|].
  vm_compute. discriminate.
Qed.

End CalibrationProps.

(** ** Distance estimators: smoothing and buckets *)

Module EstimateFacts.

Import Distance DistanceInv.

Section WithHypot.

Variable Math_hypot : Q -> Q -> Q.

Lemma estimate_unusable (d : DistanceEstimator) (w : Q)
    (landmarks : option (list Point)) :
  usable landmarks = false ->
  Distance.estimate Math_hypot d w landmarks = (createUnknownResult d [NO_LANDMARKS] 0 0, d).
Proof.
  unfold usable, Distance.estimate. destruct landmarks as [lms|]; [|reflexivity].
  destruct (Nat.ltb (length lms) 264); [reflexivity|discriminate].
Qed.

Lemma estimate_usable (d : DistanceEstimator) (w : Q) (lms : list Point) :
  usable (Some lms) = true ->
  let raw := rawOf Math_hypot d w lms in
  let s := ema (lastSmoothedCm d) raw in
  let r := fst (Distance.estimate Math_hypot d w (Some lms)) in
  let d' := snd (Distance.estimate Math_hypot d w (Some lms)) in
  rawCm (debug r) = raw
  /\ lastSmoothedCm d' = Some s
  /\ calibrationK d' = calibrationK d
  /\ estCm r = Js.Math_round (s * 10) / 10
  /\ confidence r = (if (s <? 15) || (s >? 120) then 0.3 else 1.0)
  /\ bucket r = (if (if (s <? 15) || (s >? 120) then 0.3 else 1.0) <? 0.5
                 then UNKNOWN
                 else if s <? 30 then NEAR
                 else if s >? 60 then FAR else OK)
  /\ (In OUT_OF_RANGE (flags (debug r)) <-> (s <? 15) || (s >? 120) = true).
Proof.
  unfold usable, Distance.estimate. intro Hu.
  destruct (Nat.ltb (length lms) 264); [discriminate|].
  cbv zeta. cbn [fst snd rawCm debug lastSmoothedCm calibrationK estCm
                 confidence bucket flags].
  fold (DistanceInv.rawOf Math_hypot d w lms).
  fold (ema (lastSmoothedCm d)
            (DistanceInv.rawOf Math_hypot d w lms)).
  set (s := ema (lastSmoothedCm d)
                (DistanceInv.rawOf Math_hypot d w lms)).
  repeat split; try reflexivity.
  - destruct (negb (truthyK d));
      destruct ((s <? 15) || (s >? 120)); simpl; intro H;
      repeat (destruct H as [H|H]; try discriminate);
      solve [reflexivity | contradiction].
  - destruct (negb (truthyK d)); intro H; rewrite H; simpl; auto.
Qed.





End WithHypot.







End EstimateFacts.

Module EstimateProps.

Import Distance DistanceInv EstimateFacts.




(** C6, as the program has it.  For a usable frame whose eye corners are
    apart, the engine's estimator reports UNKNOWN with confidence 0.3 and
    the OUT_OF_RANGE flag when the smoothed value is below 15 or above
    120 cm; otherwise, with confidence 1, NEAR below 30 cm, FAR above
    60 cm and OK in between.  The older estimator's [classifyBucket] uses
    40 and 75 cm and never answers UNKNOWN. *)
Theorem bucket_classification (Math_hypot : Q -> Q -> Q)
    (d : DistanceEstimator) (w : Q) (lms : list Point) (cm : Q) :
  usable (Some lms) = true ->
  ~ iodPx (debug (fst (estimate Math_hypot d w (Some lms)))) == 0 ->
  let r := fst (estimate Math_hypot d w (Some lms)) in
  (exists s,
     lastSmoothedCm (snd (estimate Math_hypot d w (Some lms))) = Some s
     /\ (s < 15 \/ 120 < s ->
         bucket r = UNKNOWN /\ confidence r = 0.3
         /\ In OUT_OF_RANGE (flags (debug r)))
     /\ (15 <= s -> s < 30 -> bucket r = NEAR /\ confidence r = 1.0)
     /\ (30 <= s -> s <= 60 -> bucket r = OK /\ confidence r = 1.0)
     /\ (60 < s -> s <= 120 -> bucket r = FAR /\ confidence r = 1.0)
     /\ (15 <= s -> s <= 120 -> bucket r = Spec.bucket s))
  /\ (cm < 40 -> LegacyDistance.classifyBucket cm = LegacyDistance.NEAR)
  /\ (75 < cm -> LegacyDistance.classifyBucket cm = LegacyDistance.FAR)
  /\ (40 <= cm -> cm <= 75 ->
      LegacyDistance.classifyBucket cm = LegacyDistance.OK)
  /\ LegacyDistance.classifyBucket cm <> LegacyDistance.UNKNOWN.
Proof.
  intros Hu _. cbv zeta.
  destruct (estimate_usable Math_hypot d w lms Hu)
    as (_ & Hs & _ & _ & Hc & Hb & Hf).
  cbv zeta in Hs, Hc, Hb, Hf.
  set (s := ema (lastSmoothedCm d) (rawOf Math_hypot d w lms)) in *.
  split.
  - exists s. split; [exact Hs|].
    rewrite Hc, Hb. unfold Spec.bucket.
    destruct (s <? 15) eqn:E15; destruct (s >? 120) eqn:E120;
      destruct (s <? 30) eqn:E30; destruct (s >? 60) eqn:E60;
      reflect_cmp; cbn [orb];
      change (0.3 <? 0.5) with true; change (1.0 <? 0.5) with false;
      cbv iota;
      repeat split; intros;
      try solve [reflexivity | exfalso; lra
                | apply Hf; reflexivity
                | match goal with
                  | H : _ \/ _ |- _ => exfalso; destruct H; lra
                  end].
  - unfold LegacyDistance.classifyBucket.
    destruct (cm <? 40) eqn:E40; destruct (cm >? 75) eqn:E75; reflect_cmp;
      repeat split; intros;
      solve [reflexivity | discriminate | exfalso; lra].
Qed.

Lemma bucket_classification_witness :
  bucket (fst (estimate Examples.hypot_row (new None) 1000
                 (Some (Examples.face 0 (85 # 1000))))) = FAR
  /\ LegacyDistance.classifyBucket 35 = LegacyDistance.NEAR.
Proof.
  destruct (bucket_classification Examples.hypot_row (new None) 1000
              (Examples.face 0 (85 # 1000)) 35)
    as ((s & Hs & _ & _ & _ & Hfar & _) & Hnear & _).
  - reflexivity.
  - vm_compute. discriminate.
  - split.
    + vm_compute in Hs. injection Hs as <-.
      apply Hfar; vm_compute; discriminate || reflexivity.
    + apply Hnear. vm_compute. reflexivity.
Defined.

(** C6, as the specification words it, fails on the older estimator: it
    calls 35 cm NEAR and 70 cm OK, where the thresholds 30 and 60 give OK
    and FAR. *)
Lemma legacy_bucket_counterexample :
  LegacyDistance.classifyBucket 35 = LegacyDistance.NEAR
  /\ Spec.bucket 35 = OK
  /\ LegacyDistance.classifyBucket 70 = LegacyDistance.OK
  /\ Spec.bucket 70 = FAR.
Proof. vm_compute. repeat split. Qed.

End EstimateProps.

(** ** Quality monitor *)

Module QualityFacts.

Import Quality QualityInv.

Section WithBrowser.

Variable HTMLVideoElement : Type.
Variable centerCrop : HTMLVideoElement -> option (list Pixel).
Variable calculatePoseAngles : FaceLandmarkerResult -> nat -> option PoseAngles.
Variable extractEyeLandmarks : FaceLandmarkerResult -> nat -> option EyeLandmarks.
Variable Math_sqrt : Q -> Q.

(** Without a face, [assessQuality] returns before it touches the video
    element or the landmark helpers. *)
Lemma assessQuality_noFace (m : QualityMonitor) (now : Q)
    (v : HTMLVideoElement) (lr : option FaceLandmarkerResult) (ts : Q) :
  noFace lr = true ->
  assessQuality HTMLVideoElement centerCrop calculatePoseAngles
    extractEyeLandmarks Math_sqrt m now v lr ts
  = noFaceOutcome m now ts.
Proof.
  unfold noFace, assessQuality, noFaceOutcome. intro H.
  destruct (calculateFPS m ts) as [fps m']. cbv zeta. simpl fst. simpl snd.
  destruct lr as [r|]; [rewrite H|];
    destruct (now - startTime m <? warmupDuration (config m));
    destruct ((fps <? lowFpsThreshold (config m')) && (fps >? 0));
    reflexivity.
Qed.

(** With a face, each of the seven checks contributes its flag and its
    multiplier or nothing. *)
Lemma assessQuality_face (m : QualityMonitor) (now : Q)
    (v : HTMLVideoElement) (lr : option FaceLandmarkerResult) (ts : Q) :
  noFace lr = false ->
  let q := fst (assessQuality HTMLVideoElement centerCrop
                  calculatePoseAngles extractEyeLandmarks Math_sqrt
                  m now v lr ts) in
  0 < confidence q /\ confidence q <= 1
  /\ confidence q = product (flags q)
  /\ ~ In FACE_NOT_FOUND (flags q)
  /\ brightness (details q)
     = Some (estimateBrightness HTMLVideoElement centerCrop v).
Proof.
  unfold noFace, assessQuality. intro H.
  destruct (calculateFPS m ts) as [fps m']. cbv zeta.
  destruct lr as [r|]; [rewrite H|discriminate].
  generalize (now - startTime m <? warmupDuration (config m)).
  generalize ((fps <? lowFpsThreshold (config m')) && (fps >? 0)).
  generalize (Nat.ltb 1 (length (faceLandmarks r))).
  generalize (estimateBrightness HTMLVideoElement centerCrop v
                <? lowLightThreshold (config m')).
  generalize (detectGlassesGlare HTMLVideoElement centerCrop
                extractEyeLandmarks v r).
  generalize (match extractEyeLandmarks r 0%nat with
              | Some eyeLandmarks =>
                  detectEyeOcclusion Math_sqrt eyeLandmarks >? 0.3
              | None => false
              end).
  generalize (match calculatePoseAngles r 0%nat with
              | Some a =>
                  (Qabs (yaw a) >? poseYawThreshold (config m'))
                  || (Qabs (pitch a) >? posePitchThreshold (config m'))
                  || (Qabs (roll a) >? poseRollThreshold (config m'))
              | None => false
              end).
  intros unstable occluded glare lowLight multi lowFps warming.
  cbn [fst flags confidence details brightness].
  destruct unstable, occluded, glare, lowLight, multi, lowFps, warming;
    cbn [app];
    (split; [vm_compute; reflexivity|]);
    (split; [vm_compute; discriminate|]);
    (split; [reflexivity|]);
    (split; [simpl; intuition discriminate|reflexivity]).
Qed.

End WithBrowser.

Lemma noFaceOutcome_shape (m : QualityMonitor) (now ts : Q) :
  let q := fst (noFaceOutcome m now ts) in
  confidence q = 0
  /\ confidence q == product (flags q)
  /\ (exists earlier, flags q = earlier ++ [FACE_NOT_FOUND])
  /\ (forall f, In f (flags q) -> ~ later_check f)
  /\ faceCount (details q) = None
  /\ brightness (details q) = None
  /\ poseAngles (details q) = None.
Proof.
  unfold noFaceOutcome. cbv zeta. cbn [fst flags confidence details
                                       faceCount brightness poseAngles].
  split; [reflexivity|].
  split.
  - destruct (_ <? _); destruct (_ && _); vm_compute; reflexivity.
  - split; [eexists; reflexivity|].
    split; [|repeat split].
    intros f Hin [H|[H|[H|[H|H]]]]; subst f;
      destruct (_ <? _); destruct (_ && _); simpl in Hin;
      intuition discriminate.
Qed.

End QualityFacts.

Module QualityProps.

Import Quality QualityInv QualityFacts.

(** C4.  The confidence [assessQuality] returns lies in [0, 1] and is the
    product of the multipliers of the flags it raised (the missing face
    counting as 0).  When the landmark result holds no face the confidence
    is exactly 0, FACE_NOT_FOUND is the last flag, no flag of a later
    check (multiple faces, light, pose, occlusion, glare) is raised, the
    details carry the frame rate only, and the result is the same for
    every video element and every outcome the later checks could have. *)
Theorem assessQuality_confidence
    (HTMLVideoElement : Type)
    (centerCrop : HTMLVideoElement -> option (list Pixel))
    (calculatePoseAngles : FaceLandmarkerResult -> nat -> option PoseAngles)
    (extractEyeLandmarks : FaceLandmarkerResult -> nat -> option EyeLandmarks)
    (Math_sqrt : Q -> Q)
    (m : QualityMonitor) (now : Q) (videoElement : HTMLVideoElement)
    (landmarkResult : option FaceLandmarkerResult) (timestamp : Q) :
  let run :=
    assessQuality HTMLVideoElement centerCrop calculatePoseAngles
      extractEyeLandmarks Math_sqrt m now videoElement landmarkResult
      timestamp in
  let q := fst run in
  0 <= confidence q /\ confidence q <= 1
  /\ confidence q == product (flags q)
  /\ (noFace landmarkResult = true ->
      confidence q = 0
      /\ (exists earlier, flags q = earlier ++ [FACE_NOT_FOUND])
      /\ (forall f, In f (flags q) -> ~ later_check f)
      /\ faceCount (details q) = None
      /\ brightness (details q) = None
      /\ poseAngles (details q) = None
      /\ forall (Video' : Type)
                (centerCrop' : Video' -> option (list Pixel))
                (calculatePoseAngles' : FaceLandmarkerResult -> nat -> option PoseAngles)
                (extractEyeLandmarks' : FaceLandmarkerResult -> nat -> option EyeLandmarks)
                (Math_sqrt' : Q -> Q) (videoElement' : Video'),
          assessQuality Video' centerCrop' calculatePoseAngles'
            extractEyeLandmarks' Math_sqrt' m now videoElement'
            landmarkResult timestamp = run)
  /\ (noFace landmarkResult = false ->
      0 < confidence q
      /\ ~ In FACE_NOT_FOUND (flags q)
      /\ brightness (details q)
         = Some (estimateBrightness HTMLVideoElement centerCrop videoElement)).
Proof.
  cbv zeta.
  destruct (noFace landmarkResult) eqn:Hn.
  - rewrite (assessQuality_noFace HTMLVideoElement centerCrop
               calculatePoseAngles extractEyeLandmarks Math_sqrt
               m now videoElement landmarkResult timestamp Hn).
    destruct (noFaceOutcome_shape m now timestamp)
      as (H0 & Hp & Hl & Hlater & Hf & Hb & Hpose).
    cbv zeta in H0, Hp, Hl, Hlater, Hf, Hb, Hpose.
    split; [rewrite H0; lra|].
    split; [rewrite H0; lra|].
    split; [exact Hp|].
    split; [|discriminate].
    intros _. repeat (split; [assumption|]).
    intros. apply assessQuality_noFace. exact Hn.
  - destruct (assessQuality_face HTMLVideoElement centerCrop
                calculatePoseAngles extractEyeLandmarks Math_sqrt
                m now videoElement landmarkResult timestamp Hn)
      as (Hpos & Hle & Hp & Hnf & Hb).
    cbv zeta in Hpos, Hle, Hp, Hnf, Hb.
    split; [lra|].
    split; [exact Hle|].
    split; [rewrite Hp; reflexivity|].
    split; [discriminate|].
    intros _. repeat split; assumption.
Qed.

Lemma assessQuality_confidence_witness :
  confidence
    (fst (assessQuality unit (fun _ => None) (fun _ _ => None)
            (fun _ _ => None) (fun v => v)
            (new DEFAULT_CONFIG 0) 5000 tt None 5000)) = 0
  /\ 0 < confidence
           (fst (assessQuality unit (fun _ => None) (fun _ _ => None)
                   (fun _ _ => None) (fun v => v)
                   (new DEFAULT_CONFIG 0) 100 tt
                   (Some {| faceLandmarks := [[]] |}) 100)).
Proof.
  split.
  - apply (assessQuality_confidence unit (fun _ => None) (fun _ _ => None)
             (fun _ _ => None) (fun v => v)
             (new DEFAULT_CONFIG 0) 5000 tt None 5000).
    reflexivity.
  - apply (assessQuality_confidence unit (fun _ => None) (fun _ _ => None)
             (fun _ _ => None) (fun v => v)
             (new DEFAULT_CONFIG 0) 100 tt
             (Some {| faceLandmarks := [[]] |}) 100).
    reflexivity.
Defined.

End QualityProps.

(** ** Camera engine: the burst check *)

Module BurstProps.

Import Engine EngineInv.

(** One turn of the sampling loop while the deadline is ahead: one read of
    the last distance result, one 100 ms timer. *)
Lemma burst_loop_turn (end_ : Q) (acc : list Q) (env : Env) :
  (clock env <? end_) = true ->
  interp_state handle (ITree.iter (burstLoopBody end_) acc) env
  ≈ interp_state handle
      (ITree.iter (burstLoopBody end_) (collect acc (lastDistanceResult env)))
      {| clock := clock env + 100;
         lastDistanceResult := lastDistanceResult env;
         previews := previews env; timers := S (timers env);
         reads := S (reads env) |}.
Proof.
  intro H. rewrite unfold_iter at 1. unfold burstLoopBody at 1.
  rewrite !interp_state_bind, interp_state_trigger. cbn.
  rewrite bind_ret_l. cbn. rewrite H.
  rewrite !interp_state_bind, interp_state_trigger. cbn.
  rewrite bind_ret_l. cbn.
  rewrite !interp_state_bind, interp_state_trigger. cbn.
  rewrite bind_ret_l. cbn.
  rewrite interp_state_ret, bind_ret_l. cbn.
  rewrite interp_state_tau, tau_eutt. reflexivity.
Qed.

(** The loop ends once the clock has reached the deadline. *)
Lemma burst_loop_exit (end_ : Q) (acc : list Q) (env : Env) :
  (clock env <? end_) = false ->
  interp_state handle (ITree.iter (burstLoopBody end_) acc) env
  ≈ Ret (env, acc).
Proof.
  intro H. rewrite unfold_iter. unfold burstLoopBody.
  rewrite !interp_state_bind, interp_state_trigger. cbn.
  rewrite bind_ret_l. cbn. rewrite H.
  rewrite interp_state_ret, bind_ret_l. cbn.
  rewrite interp_state_ret. reflexivity.
Qed.

(** A calibrated burst of 200 ms samples twice and answers OK. *)
Lemma runDistanceBurst_calibrated_run :
  exists env r,
    interp_state handle
      (runDistanceBurst Examples.calibratedEngine (Some 200)) Examples.quietEnv
    ≈ Ret (env, r)
    /\ bucket r = Distance.OK /\ sampleCount r == 2
    /\ reads env = 2%nat /\ timers env = 2%nat.
Proof.
  eexists. eexists. split.
  - unfold runDistanceBurst. cbn -[ITree.iter Js.sortAsc].
    rewrite !interp_state_bind, interp_state_ret, bind_ret_l.
    cbn -[ITree.iter Js.sortAsc].
    rewrite !interp_state_bind, interp_state_ret, bind_ret_l.
    cbn -[ITree.iter Js.sortAsc].
    rewrite !interp_state_bind, interp_state_trigger.
    cbn -[ITree.iter Js.sortAsc]. rewrite bind_ret_l.
    cbn -[ITree.iter Js.sortAsc].
    rewrite !interp_state_bind.
    rewrite burst_loop_turn by reflexivity. cbn -[ITree.iter Js.sortAsc].
    rewrite burst_loop_turn by reflexivity. cbn -[ITree.iter Js.sortAsc].
    rewrite burst_loop_exit by reflexivity. rewrite bind_ret_l.
    cbn -[ITree.iter Js.sortAsc].
    rewrite !interp_state_bind, interp_state_ret, bind_ret_l.
    cbn -[ITree.iter Js.sortAsc].
    rewrite interp_state_ret. reflexivity.
  - vm_compute. repeat split.
Qed.

(** A calibrated burst does talk to its environment: its first step is an
    event (creating a video element, starting the preview, or reading the
    clock). *)
Lemma runDistanceBurst_calibrated_starts (e : CameraEngine)
    (durationMs : option Q) :
  Distance.isCalibrated (distanceEstimator e) = true ->
  (hasVideoElement e = false ->
   exists k,
     observe (runDistanceBurst e durationMs) = VisF CreateVideoElement k)
  /\ (hasVideoElement e = true -> isRunning e = false ->
      exists k, observe (runDistanceBurst e durationMs) = VisF StartPreview k)
  /\ (hasVideoElement e = true -> isRunning e = true ->
      exists k, observe (runDistanceBurst e durationMs) = VisF DateNow k).
Proof.
  intro H. unfold runDistanceBurst. rewrite H.
  split; [|split]; intros; 
    repeat match goal with Hx : _ = _ |- _ => rewrite Hx; clear Hx end;
    cbn; eexists; reflexivity.
Qed.

(** C9.  While the distance estimator is uncalibrated, [runDistanceBurst]
    is the immediate return of the UNKNOWN result with confidence 0,
    sample count 0 and duration 0: the program performs no event at all,
    so it neither starts the preview, nor reads the clock, nor enters the
    sampling loop, nor reads a distance result, and it leaves every
    environment as it found it. *)
Theorem runDistanceBurst_uncalibrated (e : CameraEngine)
    (durationMs : option Q) :
  Distance.isCalibrated (distanceEstimator e) = false ->
  runDistanceBurst e durationMs = Ret (unknownBurst 0)
  /\ bucket (unknownBurst 0) = Distance.UNKNOWN
  /\ confidence (unknownBurst 0) = 0
  /\ sampleCount (unknownBurst 0) = 0
  /\ duration (unknownBurst 0) = 0
  /\ estimatedCm (unknownBurst 0) = None
  /\ forall env,
       interp_state handle (runDistanceBurst e durationMs) env
       ≈ Ret (env, unknownBurst 0).
Proof.
  intro H. unfold runDistanceBurst. rewrite H. cbn [negb].
  repeat (split; [reflexivity|]).
  intro env. rewrite interp_state_ret. reflexivity.
Qed.

Lemma runDistanceBurst_uncalibrated_witness :
  runDistanceBurst Examples.uncalibratedEngine (Some 1500)
  = Ret (unknownBurst 0).
Proof.
  apply (runDistanceBurst_uncalibrated Examples.uncalibratedEngine (Some 1500)).
  reflexivity.
Defined.

End BurstProps.

(* ===================================================================== *)
(** * Part III: further properties of the code                            *)
(* ===================================================================== *)

(** ** Rounding, lengths and sums *)

Module NumFacts.

Lemma Qeq_bool_false (a b : Q) : Qeq_bool a b = false <-> ~ a == b.
Proof.
  split.
  - intros H E. apply Qeq_bool_iff in E. congruence.
  - intro H. destruct (Qeq_bool a b) eqn:E; [|reflexivity].
    apply Qeq_bool_iff in E. contradiction.
Qed.

Lemma div_lt_iff (a t T : Q) : 0 < T -> (a / T < t <-> a < t * T).
Proof.
  intro HT. split; intro H.
  - assert (E : a == (a / T) * T) by (field; lra).
    rewrite E. apply Qmult_lt_r; assumption.
  - apply Qlt_shift_div_r; assumption.
Qed.

Lemma lt_div_iff (a t T : Q) : 0 < T -> (t < a / T <-> t * T < a).
Proof.
  intro HT. split; intro H.
  - assert (E : a == (a / T) * T) by (field; lra).
    rewrite E. apply Qmult_lt_r; assumption.
  - apply Qlt_shift_div_l; assumption.
Qed.


(** [Math.round] is monotone, respects equality of rationals, stays within
    one half of its argument and fixes the integers. *)
Lemma Math_round_mono (a b : Q) : a <= b -> Js.Math_round a <= Js.Math_round b.
Proof.
  intro H. unfold Js.Math_round. rewrite <- Zle_Qle.
  apply Qfloor_resp_le. lra.
Qed.

Lemma Math_round_comp (a b : Q) : a == b -> Js.Math_round a = Js.Math_round b.
Proof.
  intro H. unfold Js.Math_round. f_equal. apply Qfloor_comp. rewrite H. reflexivity.
Qed.

Lemma Math_round_near (a : Q) :
  a - (1 # 2) < Js.Math_round a /\ Js.Math_round a <= a + (1 # 2).
Proof.
  unfold Js.Math_round.
  pose proof (Qfloor_le (a + (1 # 2))) as Hle.
  pose proof (Qlt_floor (a + (1 # 2))) as Hlt.
  rewrite inject_Z_plus in Hlt. change (inject_Z 1) with 1 in Hlt.
  split; lra.
Qed.

Lemma Math_round_Z (z : Z) : Js.Math_round (inject_Z z) = inject_Z z.
Proof.
  destruct (Math_round_near (inject_Z z)) as [Hlo Hhi].
  unfold Js.Math_round in *. f_equal.
  set (f := Qfloor (inject_Z z + (1 # 2))) in *.
  assert (H1 : inject_Z f < inject_Z (z + 1))
    by (rewrite inject_Z_plus; change (inject_Z 1) with 1; lra).
  assert (H2 : inject_Z z < inject_Z (f + 1))
    by (rewrite inject_Z_plus; change (inject_Z 1) with 1; lra).
  rewrite <- Zlt_Qlt in H1, H2. lia.
Qed.

Lemma Math_round_Z_eq (a : Q) (z : Z) :
  a == inject_Z z -> Js.Math_round a = inject_Z z.
Proof.
  intro H. rewrite (Math_round_comp _ _ H). apply Math_round_Z.
Qed.

Lemma round_ge_int (z : Z) (v : Q) :
  inject_Z z <= v -> inject_Z z <= Js.Math_round v.
Proof.
  intro H. rewrite <- (Math_round_Z z). apply Math_round_mono, H.
Qed.

Lemma round_le_int (z : Z) (v : Q) :
  v <= inject_Z z -> Js.Math_round v <= inject_Z z.
Proof.
  intro H. rewrite <- (Math_round_Z z). apply Math_round_mono, H.
Qed.

(** [xs.length] as a number. *)
Lemma len_nonneg {A} (xs : list A) : 0 <= Js.len xs.
Proof.
  unfold Js.len. change 0 with (inject_Z 0). rewrite <- Zle_Qle. lia.
Qed.

Lemma len_le {A B} (xs : list A) (ys : list B) :
  (length xs <= length ys)%nat -> Js.len xs <= Js.len ys.
Proof.
  intro H. unfold Js.len. rewrite <- Zle_Qle. lia.
Qed.

Lemma len_pos {A} (xs : list A) : xs <> [] -> 1 <= Js.len xs.
Proof.
  intro H. unfold Js.len. change 1 with (inject_Z 1). rewrite <- Zle_Qle.
  destruct xs; [congruence|simpl; lia].
Qed.

Lemma len_cons {A} (a : A) (xs : list A) : Js.len (a :: xs) == Js.len xs + 1.
Proof.
  unfold Js.len. simpl length. rewrite Nat2Z.inj_succ. unfold Z.succ.
  rewrite inject_Z_plus. reflexivity.
Qed.

Lemma len_snoc {A} (xs : list A) (a : A) : Js.len (xs ++ [a]) == Js.len xs + 1.
Proof.
  unfold Js.len. rewrite length_app. simpl.
  rewrite Nat2Z.inj_add, inject_Z_plus. reflexivity.
Qed.

Lemma len_Z {A} (xs : list A) (k : Z) :
  Js.len xs * inject_Z k = inject_Z (Z.of_nat (length xs) * k).
Proof. unfold Js.len. rewrite inject_Z_mult. reflexivity. Qed.

Lemma inject_S (n : nat) :
  inject_Z (Z.of_nat (S n)) == inject_Z (Z.of_nat n) + 1.
Proof.
  rewrite Nat2Z.inj_succ. unfold Z.succ. rewrite inject_Z_plus. reflexivity.
Qed.

(** Lists. *)
Lemma Forall_tl {A} (P : A -> Prop) (l : list A) : Forall P l -> Forall P (tl l).
Proof. destruct 1; [constructor|assumption]. Qed.


Lemma fold_invariant {A B} (f : B -> A -> B) (I : nat -> B -> Prop) :
  (forall n b a, I n b -> I (S n) (f b a)) ->
  forall l b n, I n b -> I (n + length l)%nat (fold_left f l b).
Proof.
  intro Hstep. induction l as [|a l IH]; intros b n Hb; simpl.
  - rewrite Nat.add_0_r. exact Hb.
  - rewrite <- Nat.add_succ_comm. apply IH, Hstep, Hb.
Qed.

(** Sums and means of bounded numbers. *)
Lemma fold_sum_bounds {A} (f : A -> Q) (lo hi : Q) (xs : list A) :
  Forall (fun a => lo <= f a /\ f a <= hi) xs ->
  forall acc,
    acc + lo * Js.len xs <= fold_left (fun s a => s + f a) xs acc
    /\ fold_left (fun s a => s + f a) xs acc <= acc + hi * Js.len xs.
Proof.
  induction 1 as [|a xs [Ha1 Ha2] _ IH]; intro acc.
  - simpl. change (Js.len []) with 0. split; lra.
  - simpl fold_left. destruct (IH (acc + f a)) as [H1 H2].
    rewrite (len_cons a xs). split; lra.
Qed.



Lemma fold_pos (xs : list Q) :
  Forall (fun v => 0 < v) xs ->
  forall acc, acc <= fold_left Qplus xs acc
              /\ (xs <> [] -> acc < fold_left Qplus xs acc).
Proof.
  induction 1 as [|v xs Hv _ IH]; intro acc; simpl.
  - split; [apply Qle_refl|congruence].
  - destruct (IH (acc + v)) as [H1 _]. split; [lra|intros _; lra].
Qed.

Lemma median_Forall (P : Q -> Prop) (w : list Q) :
  w <> [] -> Forall P w -> P (Js.median w).
Proof.
  intros Hne HP. rewrite Forall_forall in HP. apply HP.
  apply (SortFacts.median_middle w Hne).
Qed.

End NumFacts.

(** ** Landmark helpers: eye aspect ratio and pose angles *)

Module LandmarkProps.

Import Quality LandmarkProvider EyeInv NumFacts.

(** The eye aspect ratio is never negative, and is 0 for fewer than six
    points. *)
Lemma calculateEAR_sign (Math_hypot : Q -> Q -> Q)
    (eyeLandmarks : list Point) :
  (forall a b, 0 <= Math_hypot a b) ->
  0 <= calculateEAR Math_hypot eyeLandmarks
  /\ ((length eyeLandmarks < 6)%nat -> calculateEAR Math_hypot eyeLandmarks = 0).
Proof.
  intro Hh. unfold calculateEAR.
  destruct (Nat.ltb_spec (length eyeLandmarks) 6) as [Hs|Hl].
  - split; [lra|reflexivity].
  - split; [|lia]. cbv zeta.
    destruct (Qeq_bool _ 0) eqn:E; [lra|].
    apply Qeq_bool_false in E.
    match type of E with ~ ?h == 0 => set (hh := h) in * end.
    assert (Hpos : 0 < hh).
    { pose proof (Hh (x (nth 0 eyeLandmarks {| x := 0; y := 0 |})
                      - x (nth 3 eyeLandmarks {| x := 0; y := 0 |}))
                     (y (nth 0 eyeLandmarks {| x := 0; y := 0 |})
                      - y (nth 3 eyeLandmarks {| x := 0; y := 0 |}))) as H0.
      fold hh in H0.
      destruct (Qlt_le_dec 0 hh); [assumption|exfalso; apply E; lra]. }
    apply Qle_shift_div_l; [lra|].
    match goal with |- 0 * _ <= ?a + ?b =>
      assert (0 <= a) by apply Hh; assert (0 <= b) by apply Hh end.
    lra.
Qed.


Lemma hypot_axis_like : hypot_like Examples.hypot_axis.
Proof.
  unfold hypot_like, Examples.hypot_axis. split; [|split].
  - intros a a' b b' Ha Hb. rewrite Ha, Hb. reflexivity.
  - intros a b. pose proof (Qabs_nonneg a). pose proof (Qabs_nonneg b). lra.
  - intros c a b Hc. rewrite !Qabs_Qmult, (Qabs_pos c Hc). ring.
Qed.





End LandmarkProps.

(** ** Head pose: the yaw proxy and the stability gate *)

Module PoseProps.

Import Distance Pose PoseInv NumFacts.

Lemma yaw_ratio_range (l r : Q) :
  0 <= l -> 0 <= r -> ~ l + r == 0 ->
  -1 <= (r - l) / (l + r) /\ (r - l) / (l + r) <= 1.
Proof.
  intros Hl Hr Hne.
  assert (Hpos : 0 < l + r)
    by (destruct (Qlt_le_dec 0 (l + r)); [assumption|exfalso; apply Hne; lra]).
  split.
  - apply Qle_shift_div_l; [assumption|lra].
  - apply Qle_shift_div_r; [assumption|lra].
Qed.

Lemma edges_nonempty (lms : list Point) (nose l r : Point) :
  edges lms nose l r -> Nat.eqb (length lms) 0 = false.
Proof.
  intros (H & _). destruct lms; [discriminate|reflexivity].
Qed.


(** X3.  For every landmark array, present or missing, of any length,
    [calculateYawProxy] returns a value between -1 and 1. *)
Theorem calculateYawProxy_range (landmarks : option (list Point)) :
  -1 <= calculateYawProxy landmarks /\ calculateYawProxy landmarks <= 1.
Proof.
  unfold calculateYawProxy.
  destruct landmarks as [lms|]; [|split; lra].
  destruct (Nat.eqb (length lms) 0); [split; lra|].
  destruct (nth_error lms NOSE_TIP) as [nose|]; [|split; lra].
  destruct (nth_error lms LEFT_FACE_EDGE) as [l|]; [|split; lra].
  destruct (nth_error lms RIGHT_FACE_EDGE) as [r|]; [|split; lra].
  cbv zeta.
  destruct (Qeq_bool _ 0) eqn:E; [split; lra|].
  apply Qeq_bool_false in E.
  apply yaw_ratio_range; [apply Qabs_nonneg|apply Qabs_nonneg|exact E].
Qed.

(** X4.  When the nose tip and the two face edges are present and not all
    on one vertical line, [analyzePose] reports the pose stable exactly
    when the horizontal distances from the nose to the two edges differ by
    less than [threshold] times their sum; [isStable] and [isCentered] are
    always the same flag. *)
Theorem analyzePose_centered (lms : list Point) (threshold : Q)
    (nose leftEdge rightEdge : Point) :
  edges lms nose leftEdge rightEdge ->
  let distToLeft := Qabs (x nose - x leftEdge) in
  let distToRight := Qabs (x nose - x rightEdge) in
  ~ distToLeft + distToRight == 0 ->
  let p := analyzePose (Some lms) (Some threshold) in
  isStable p = isCentered p
  /\ (isStable p = true
      <-> Qabs (distToRight - distToLeft)
          < threshold * (distToLeft + distToRight)).
Proof.
  intros He dL dR Hne p.
  split; [reflexivity|].
  subst p. unfold analyzePose, calculateYawProxy. cbv zeta.
  rewrite (edges_nonempty _ _ _ _ He).
  destruct He as (Hn & Hl & Hr). rewrite Hn, Hl, Hr.
  fold dL dR.
  assert (E : Qeq_bool (dL + dR) 0 = false) by (apply Qeq_bool_false; exact Hne).
  rewrite E. cbn [isStable].
  assert (HT : 0 < dL + dR).
  { pose proof (Qabs_nonneg (x nose - x leftEdge)).
    pose proof (Qabs_nonneg (x nose - x rightEdge)).
    fold dL in H. fold dR in H0.
    destruct (Qlt_le_dec 0 (dL + dR)); [assumption|exfalso; apply Hne; lra]. }
  rewrite ltb_true, !Qabs_Qlt_condition.
  rewrite (div_lt_iff _ _ _ HT), (lt_div_iff _ _ _ HT).
  split; intros [H1 H2]; split; lra.
Qed.

Lemma analyzePose_centered_witness :
  isStable (analyzePose (Some (Examples.mesh 0.5 0.3 0.7)) (Some 0.2)) = true.
Proof.
  destruct (analyzePose_centered (Examples.mesh 0.5 0.3 0.7) 0.2
              {| x := 0.5; y := 0 |} {| x := 0.3; y := 0 |}
              {| x := 0.7; y := 0 |}) as [_ H].
  - repeat split; reflexivity.
  - intro H. vm_compute in H. discriminate.
  - apply H. vm_compute. reflexivity.
Defined.

(** X5.  A landmark array that is missing, or too short to hold the right
    face edge (fewer than 455 landmarks), has yaw proxy 0 and is reported
    stable and centered for every positive threshold, the default 0.2
    included: the gate cannot tell such a frame from a frontal face. *)
Theorem analyzePose_degenerate (landmarks : option (list Point))
    (threshold : option Q) :
  match landmarks with
  | Some lms => (length lms <= RIGHT_FACE_EDGE)%nat
  | None => True
  end ->
  0 < match threshold with Some t => t | None => 0.2 end ->
  analyzePose landmarks threshold
  = {| yawProxy := 0; isStable := true; isCentered := true |}.
Proof.
  intros Hshort Hthr.
  assert (Hy : calculateYawProxy landmarks = 0).
  { unfold calculateYawProxy. destruct landmarks as [lms|]; [|reflexivity].
    destruct (Nat.eqb (length lms) 0); [reflexivity|].
    apply nth_error_None in Hshort. rewrite Hshort.
    destruct (nth_error lms NOSE_TIP); [|reflexivity].
    destruct (nth_error lms LEFT_FACE_EDGE); reflexivity. }
  unfold analyzePose. cbv zeta. rewrite Hy.
  set (t := match threshold with Some t => t | None => 0.2 end) in *.
  assert (E : (Qabs 0 <? t) = true) by (apply ltb_true; exact Hthr).
  rewrite E. reflexivity.
Qed.

Lemma analyzePose_degenerate_witness :
  analyzePose (Some (Examples.face 0 0.1)) None
  = {| yawProxy := 0; isStable := true; isCentered := true |}.
Proof.
  apply (analyzePose_degenerate (Some (Examples.face 0 0.1)) None).
  - apply Nat.leb_le. vm_compute. reflexivity.
  - vm_compute. reflexivity.
Defined.



End PoseProps.

(** ** Blink detector: what holds after any run of frames *)

Module BlinkRunFacts.

Import Blink BlinkInv BlinkRun BlinkFacts NumFacts.

(** The window after one more sample. *)
Lemma smoothOpenness_window (d : BlinkDetector) (o : Q) :
  1 <= smoothingWindowSize (config d) ->
  Js.len (smoothingWindow d) <= smoothingWindowSize (config d) ->
  let w := smoothingWindow (snd (smoothOpenness d o)) in
  w <> []
  /\ Js.len w <= smoothingWindowSize (config d)
  /\ fst (smoothOpenness d o) = Js.median w
  /\ (forall P : Q -> Prop, Forall P (smoothingWindow d) -> P o -> Forall P w).
Proof.
  intros Hsize Hlen. unfold smoothOpenness. cbv zeta. cbn [fst snd smoothingWindow set_smoothingWindow].
  pose proof (len_snoc (smoothingWindow d) o) as Hs.
  pose proof (len_nonneg (smoothingWindow d)) as Hn.
  destruct (Js.len (smoothingWindow d ++ [o]) >? smoothingWindowSize (config d)) eqn:E;
    reflect_cmp.
  - destruct (smoothingWindow d) as [|a r] eqn:Hw.
    { exfalso. change (Js.len ([] ++ [o])) with 1 in E. lra. }
    simpl app. unfold Js.shift. simpl tl.
    split; [destruct r; discriminate|].
    split.
    + pose proof (len_snoc r o) as Hr.
      assert (Ha : Js.len (a :: r) == Js.len r + 1).
      { unfold Js.len. simpl length. rewrite Nat2Z.inj_succ. unfold Z.succ.
        rewrite inject_Z_plus. reflexivity. }
      lra.
    + split; [reflexivity|].
      intros P HP Ho. inversion HP; subst. apply Forall_app. split; [assumption|].
      constructor; [assumption|constructor].
  - split; [destruct (smoothingWindow d); discriminate|].
    split; [assumption|]. split; [reflexivity|].
    intros P HP Ho. apply Forall_app. split; [assumption|].
    constructor; [assumption|constructor].
Qed.

(** What [calibrateBaseline] leaves alone. *)
Lemma calibrateBaseline_frame (d : BlinkDetector) (o : Q) :
  config (calibrateBaseline d o) = config d
  /\ state (calibrateBaseline d o) = state d
  /\ blinkHistory (calibrateBaseline d o) = blinkHistory d
  /\ smoothingWindow (calibrateBaseline d o) = smoothingWindow d
  /\ currentBlinkStart (calibrateBaseline d o) = currentBlinkStart d
  /\ currentBlinkMinOpenness (calibrateBaseline d o) = currentBlinkMinOpenness d
  /\ lastBlinkTimestamp (calibrateBaseline d o) = lastBlinkTimestamp d.
Proof.
  unfold calibrateBaseline.
  destruct (o >? 0.5); cbv zeta; destruct (Js.len _ >=? 30);
    repeat split; reflexivity.
Qed.

(** What [completeBlink] and [updateStateMachine] leave alone. *)
Lemma completeBlink_frame (d : BlinkDetector) (ts : Q) :
  smoothingWindow (completeBlink d ts) = smoothingWindow d
  /\ isCalibrated (completeBlink d ts) = isCalibrated d
  /\ currentBlinkMinOpenness (completeBlink d ts) = currentBlinkMinOpenness d.
Proof.
  destruct (rejects d ts) eqn:E.
  - rewrite completeBlink_rejected by assumption. repeat split.
  - rewrite completeBlink_accepted by assumption. repeat split.
Qed.

Lemma updateStateMachine_frame (d : BlinkDetector) (o ts : Q) :
  smoothingWindow (updateStateMachine d o ts) = smoothingWindow d
  /\ isCalibrated (updateStateMachine d o ts) = isCalibrated d.
Proof.
  unfold updateStateMachine, trackMinOpenness.
  destruct (state d).
  - destruct (_ <? _); split; reflexivity.
  - destruct (o <? _); simpl; destruct (_ <? _); simpl; destruct (_ >? _);
      split; reflexivity.
  - destruct (o <? _); simpl; destruct (_ >=? _); split; reflexivity.
  - destruct (o <? _); simpl; destruct (_ >=? _); simpl;
      try (split; reflexivity);
      match goal with
      | |- context [completeBlink ?x ts] =>
          destruct (completeBlink_frame x ts) as (Hw & Hc & _); rewrite Hw, Hc
      end; split; reflexivity.
Qed.

(** The running minimum after one step of the state machine is the sample
    or the minimum held before. *)
Lemma updateStateMachine_min (d : BlinkDetector) (o ts : Q) :
  currentBlinkMinOpenness (updateStateMachine d o ts) = o
  \/ currentBlinkMinOpenness (updateStateMachine d o ts) = currentBlinkMinOpenness d.
Proof.
  unfold updateStateMachine, trackMinOpenness.
  destruct (state d).
  - destruct (_ <? _); [left|right]; reflexivity.
  - destruct (o <? _); simpl; destruct (_ <? _); simpl; destruct (_ >? _);
      simpl; auto.
  - destruct (o <? _); simpl; destruct (_ >=? _); simpl; auto.
  - destruct (o <? _); simpl; destruct (_ >=? _); simpl; auto;
      match goal with
      | |- context [completeBlink ?x ts] =>
          destruct (completeBlink_frame x ts) as (_ & _ & Hm); rewrite Hm
      end; simpl; auto.
Qed.

(** The history after [completeBlink]: as it was, or the recent part of it
    with one more event that carries the running minimum. *)
Lemma completeBlink_history (d : BlinkDetector) (ts : Q) :
  (blinkHistory (completeBlink d ts) = blinkHistory d
   /\ lastBlinkTimestamp (completeBlink d ts) = lastBlinkTimestamp d)
  \/ (blinkHistory (completeBlink d ts)
      = filter (fun b => timestamp b >? ts - 60000)
          (blinkHistory d ++ [candidate d ts])
      /\ lastBlinkTimestamp (completeBlink d ts) = ts).
Proof.
  destruct (rejects d ts) eqn:E.
  - rewrite completeBlink_rejected by assumption. left. split; reflexivity.
  - rewrite completeBlink_accepted by assumption. right. split; reflexivity.
Qed.

(** The history after one step of the state machine. *)
Lemma updateStateMachine_history (d : BlinkDetector) (o ts : Q) :
  (blinkHistory (updateStateMachine d o ts) = blinkHistory d
   /\ lastBlinkTimestamp (updateStateMachine d o ts) = lastBlinkTimestamp d)
  \/ (exists m,
        (m = o \/ m = currentBlinkMinOpenness d)
        /\ blinkHistory (updateStateMachine d o ts)
           = filter (fun b => timestamp b >? ts - 60000)
               (blinkHistory d
                ++ [candidate (set_currentBlinkMinOpenness d m) ts])
        /\ lastBlinkTimestamp (updateStateMachine d o ts) = ts).
Proof.
  unfold updateStateMachine, trackMinOpenness.
  destruct (state d).
  - destruct (_ <? _); left; split; reflexivity.
  - destruct (o <? _); simpl; destruct (_ <? _); simpl; destruct (_ >? _);
      left; split; reflexivity.
  - destruct (o <? _); simpl; destruct (_ >=? _); left; split; reflexivity.
  - destruct (o <? _); simpl; destruct (_ >=? _); simpl;
      try (left; split; reflexivity).
    + destruct (completeBlink_history (set_currentBlinkMinOpenness d o) ts)
        as [[Hh Hl]|[Hh Hl]]; rewrite Hh, Hl.
      * left. split; reflexivity.
      * right. exists o. split; [left; reflexivity|]. split; reflexivity.
    + destruct (completeBlink_history d ts) as [[Hh Hl]|[Hh Hl]]; rewrite Hh, Hl.
      * left. split; reflexivity.
      * right. exists (currentBlinkMinOpenness d).
        split; [right; reflexivity|]. split; [|reflexivity].
        unfold candidate. reflexivity.
Qed.

(** Normalized openness: [Math.min(1, raw / 0.35)] of a mean of two EAR
    values that are not negative. *)
Lemma normalized_in_unit (l r : Q) :
  0 <= l -> 0 <= r -> in_unit (Js.Math_min 1 ((l + r) / 2 / 0.35)).
Proof.
  intros Hl Hr. unfold in_unit, Js.Math_min.
  assert (H0 : 0 <= (l + r) / 2 / 0.35).
  { apply Qle_shift_div_l; [reflexivity|]. apply Qle_shift_div_l; lra. }
  destruct (1 <=? (l + r) / 2 / 0.35) eqn:E; reflect_cmp; split; lra.
Qed.

(** Both [processFrame] bodies, once the window is updated, calibrate the
    baseline if needed and run the state machine on the smoothed sample. *)
Lemma camera_step (EyeContour : Type) (calculateEAR : EyeContour -> Q)
    (d : BlinkDetector) (lm : Camera.EyeLandmarks EyeContour) (ts : Q) :
  after_frame d
    (snd (Camera.processFrame EyeContour calculateEAR d (Some lm) ts))
    (Js.Math_min 1
       ((calculateEAR (Camera.left EyeContour lm)
         + calculateEAR (Camera.right EyeContour lm)) / 2 / 0.35))
    ts.
Proof.
  unfold after_frame, Camera.processFrame, smoothOpenness. cbv zeta.
  eexists. split; [|split]; [| |reflexivity]; repeat split; reflexivity.
Qed.

Lemma engine_step (EyeContour : Type) (calculateEAR : EyeContour -> Q)
    (d : BlinkDetector) (lm : Engine.EyeLandmarks EyeContour) (ts : Q) :
  after_frame d
    (snd (Engine.processFrame EyeContour calculateEAR d (Some lm) ts))
    (Js.Math_min 1
       ((calculateEAR (Engine.leftEye EyeContour lm)
         + calculateEAR (Engine.rightEye EyeContour lm)) / 2 / 0.35))
    ts.
Proof.
  unfold after_frame, Engine.processFrame, smoothOpenness. cbv zeta.
  eexists. split; [|split]; [| |reflexivity]; repeat split; reflexivity.
Qed.

(** The unit range through calibration and the state machine. *)
Lemma unit_range_tail (dk : BlinkDetector) (s ts : Q) :
  unit_range dk -> in_unit s ->
  unit_range
    (updateStateMachine
       (if negb (isCalibrated dk) then calibrateBaseline dk s else dk) s ts).
Proof.
  intros Hu Hs.
  set (d1 := if negb (isCalibrated dk) then calibrateBaseline dk s else dk).
  assert (H1 : unit_range d1).
  { subst d1. destruct (negb (isCalibrated dk)); [|assumption].
    destruct (calibrateBaseline_frame dk s) as (Hc & _ & Hh & Hw & _ & Hm & _).
    unfold unit_range. rewrite Hc, Hh, Hw, Hm. exact Hu. }
  clearbody d1. clear Hu. destruct H1 as (Hw & Hl & Hm & Hh).
  destruct (updateStateMachine_frame d1 s ts) as (Ew & _).
  unfold unit_range. rewrite Ew, updateStateMachine_config.
  split; [assumption|]. split; [assumption|]. split.
  - destruct (updateStateMachine_min d1 s ts) as [E|E]; rewrite E; assumption.
  - destruct (updateStateMachine_history d1 s ts)
      as [[E _]|(m & Hm' & E & _)]; rewrite E; [assumption|].
    apply Forall_filter_keep, Forall_app. split; [assumption|].
    constructor; [|constructor]. simpl.
    destruct Hm' as [-> | ->]; assumption.
Qed.

Lemma unit_range_window (d dk : BlinkDetector) (n : Q) :
  1 <= smoothingWindowSize (config d) ->
  unit_range d -> in_unit n ->
  same_core d dk ->
  smoothingWindow dk = smoothingWindow (snd (smoothOpenness d n)) ->
  unit_range dk /\ in_unit (fst (smoothOpenness d n)).
Proof.
  intros Hsize (Hw & Hl & Hm & Hh) Hn (Ec & _ & Eh & _ & _ & Em & _) Ew.
  destruct (smoothOpenness_window d n Hsize Hl) as (Hne & Hlen & Hmed & HP).
  cbv zeta in Hne, Hlen, Hmed, HP.
  split.
  - unfold unit_range. rewrite Ew, Ec, Eh, Em.
    split; [apply HP; assumption|]. split; [assumption|]. split; assumption.
  - rewrite Hmed. apply median_Forall; [assumption|]. apply HP; assumption.
Qed.

(** The calibration record through one frame. *)
Lemma calibration_tail (n : nat) (dk : BlinkDetector) (s ts : Q) :
  calibration_sound n dk ->
  calibration_sound (S n)
    (updateStateMachine
       (if negb (isCalibrated dk) then calibrateBaseline dk s else dk) s ts).
Proof.
  intros (Hlen & Hall & Hcal & Hun).
  set (d1 := if negb (isCalibrated dk) then calibrateBaseline dk s else dk).
  assert (H1 : calibration_sound (S n) d1).
  { subst d1. destruct (isCalibrated dk) eqn:Ec; simpl.
    - unfold calibration_sound. rewrite Ec.
      split; [lia|]. split; [assumption|].
      split; [intros _; apply Hcal; reflexivity|intro; discriminate].
    - unfold calibrateBaseline.
      set (d0 := if s >? 0.5
                 then set_calibrationSamples dk (calibrationSamples dk ++ [s])
                 else dk).
      assert (H0 : (length (calibrationSamples d0) <= S n)%nat
                   /\ Forall (fun v => 0.5 < v) (calibrationSamples d0)
                   /\ isCalibrated d0 = false
                   /\ baselineOpenness d0 = 0.35).
      { subst d0. destruct (s >? 0.5) eqn:E; simpl.
        - split; [rewrite length_app; simpl; lia|].
          split; [|split; [assumption|apply Hun; reflexivity]].
          apply Forall_app. split; [assumption|].
          constructor; [apply gtb_true; exact E|constructor].
        - split; [lia|]. split; [assumption|].
          split; [assumption|apply Hun; reflexivity]. }
      clearbody d0. destruct H0 as (Hl0 & Ha0 & Hc0 & Hb0).
      destruct (Js.len (calibrationSamples d0) >=? 30) eqn:E30; simpl.
      + split; [assumption|]. split; [assumption|].
        split; [|intro; discriminate]. intros _.
        assert (H30 : (30 <= length (calibrationSamples d0))%nat).
        { reflect_cmp. unfold Js.len in E30.
          change 30 with (inject_Z 30) in E30. rewrite <- Zle_Qle in E30. lia. }
        split; [exact H30|].
        apply (median_Forall (fun v => 0.5 < v)); [|assumption].
        destruct (calibrationSamples d0); [simpl in H30; lia|discriminate].
      + split; [assumption|]. split; [assumption|].
        split; [rewrite Hc0; discriminate|]. intros _. exact Hb0. }
  clearbody d1. destruct H1 as (Hl1 & Ha1 & Hc1 & Hu1).
  destruct (updateStateMachine_baseline d1 s ts) as (Eb & Es).
  destruct (updateStateMachine_frame d1 s ts) as (_ & Ec).
  unfold calibration_sound. rewrite Eb, Es, Ec. repeat split; tauto.
Qed.

(** The history through one frame. *)
Lemma recent_tail (dk : BlinkDetector) (s ts : Q) :
  0 <= debounceTime (config dk) ->
  history_valid dk /\ recent dk ->
  history_valid
    (updateStateMachine
       (if negb (isCalibrated dk) then calibrateBaseline dk s else dk) s ts)
  /\ recent
       (updateStateMachine
          (if negb (isCalibrated dk) then calibrateBaseline dk s else dk) s ts).
Proof.
  intros Hgap (Hv & Hr).
  set (d1 := if negb (isCalibrated dk) then calibrateBaseline dk s else dk).
  assert (H1 : config d1 = config dk /\ blinkHistory d1 = blinkHistory dk
               /\ lastBlinkTimestamp d1 = lastBlinkTimestamp dk).
  { subst d1. destruct (negb (isCalibrated dk)); [|repeat split].
    destruct (calibrateBaseline_frame dk s) as (Hc & _ & Hh & _ & _ & _ & Hl).
    repeat split; assumption. }
  clearbody d1. destruct H1 as (Hc & Hh & Hl).
  assert (Hv1 : history_valid d1) by (eapply history_valid_ext; eauto).
  split.
  - apply updateStateMachine_valid; [rewrite Hc|]; assumption.
  - unfold recent.
    destruct (updateStateMachine_history d1 s ts)
      as [[E El]|(m & _ & E & El)]; rewrite E, El.
    + rewrite Hh, Hl. exact Hr.
    + apply Forall_forall. intros e He. apply filter_In in He.
      destruct He as [_ He]. apply gtb_true in He. exact He.
Qed.

Lemma same_core_valid (d dk : BlinkDetector) :
  same_core d dk ->
  (history_valid d /\ recent d -> history_valid dk /\ recent dk)
  /\ (forall n, calibration_sound n d -> calibration_sound n dk)
  /\ config dk = config d.
Proof.
  intros (Ec & _ & Eh & Eb & _ & _ & El & Ecal & Es).
  split; [|split; [|assumption]].
  - intros [Hv Hr]. split.
    + eapply history_valid_ext; eauto.
    + unfold recent. rewrite Eh, El. exact Hr.
  - intros n H. unfold calibration_sound. rewrite Es, Ecal, Eb. exact H.
Qed.

(** One frame keeps the configuration and each of the three invariants. *)
Lemma after_frame_config (d d' : BlinkDetector) (n ts : Q) :
  after_frame d d' n ts -> config d' = config d.
Proof.
  intros (dk & Hk & _ & ->). rewrite updateStateMachine_config.
  destruct (same_core_valid d dk Hk) as (_ & _ & Hc).
  destruct (negb (isCalibrated dk)); [|exact Hc].
  destruct (calibrateBaseline_frame dk (fst (smoothOpenness d n))) as (Hc' & _).
  congruence.
Qed.

Lemma after_frame_unit (d d' : BlinkDetector) (n ts : Q) :
  after_frame d d' n ts ->
  1 <= smoothingWindowSize (config d) -> in_unit n ->
  unit_range d -> unit_range d'.
Proof.
  intros (dk & Hk & Hw & ->) Hsize Hn Hu.
  destruct (unit_range_window d dk n Hsize Hu Hn Hk Hw) as [Hdk Hs].
  apply unit_range_tail; assumption.
Qed.

Lemma after_frame_calibration (d d' : BlinkDetector) (n ts : Q) (k : nat) :
  after_frame d d' n ts ->
  calibration_sound k d -> calibration_sound (S k) d'.
Proof.
  intros (dk & Hk & _ & ->) Hs.
  apply calibration_tail. apply (same_core_valid d dk Hk). exact Hs.
Qed.

Lemma after_frame_recent (d d' : BlinkDetector) (n ts : Q) :
  after_frame d d' n ts ->
  0 <= debounceTime (config d) ->
  history_valid d /\ recent d -> history_valid d' /\ recent d'.
Proof.
  intros (dk & Hk & _ & ->) Hgap H.
  destruct (same_core_valid d dk Hk) as (Hv & _ & Hc).
  apply recent_tail; [rewrite Hc; exact Hgap|apply Hv; exact H].
Qed.

(** Runs of a detector whose every frame is skipped or is a frame in the
    sense of [after_frame]. *)
Lemma runs_unit {F} (step : BlinkDetector -> F -> BlinkDetector)
    (cfg : BlinkConfig) :
  (forall d f, step d f = d
               \/ exists n ts, in_unit n /\ after_frame d (step d f) n ts) ->
  1 <= smoothingWindowSize cfg ->
  forall fs d, config d = cfg -> unit_range d ->
    config (fold_left step fs d) = cfg /\ unit_range (fold_left step fs d).
Proof.
  intros Hstep Hsize. induction fs as [|f fs IH]; intros d Hc Hu; simpl;
    [split; assumption|].
  destruct (Hstep d f) as [E|(n & ts & Hn & Ha)].
  - rewrite E. apply IH; assumption.
  - apply IH.
    + rewrite (after_frame_config _ _ _ _ Ha). exact Hc.
    + eapply after_frame_unit; eauto. rewrite Hc. exact Hsize.
Qed.

Lemma runs_calibration {F} (step : BlinkDetector -> F -> BlinkDetector) :
  (forall d f, step d f = d \/ exists n ts, after_frame d (step d f) n ts) ->
  forall fs d k, calibration_sound k d ->
    calibration_sound (k + length fs) (fold_left step fs d).
Proof.
  intros Hstep. apply (fold_invariant step calibration_sound).
  intros k d f Hs. destruct (Hstep d f) as [E|(n & ts & Ha)].
  - rewrite E. destruct Hs as (H1 & H2 & H3 & H4).
    repeat split; try tauto; try lia.
  - eapply after_frame_calibration; eauto.
Qed.

Lemma runs_recent {F} (step : BlinkDetector -> F -> BlinkDetector)
    (cfg : BlinkConfig) :
  (forall d f, step d f = d \/ exists n ts, after_frame d (step d f) n ts) ->
  0 <= debounceTime cfg ->
  forall fs d, config d = cfg -> history_valid d /\ recent d ->
    config (fold_left step fs d) = cfg
    /\ history_valid (fold_left step fs d) /\ recent (fold_left step fs d).
Proof.
  intros Hstep Hgap. induction fs as [|f fs IH]; intros d Hc H; simpl;
    [split; assumption|].
  destruct (Hstep d f) as [E|(n & ts & Ha)].
  - rewrite E. apply IH; assumption.
  - apply IH.
    + rewrite (after_frame_config _ _ _ _ Ha). exact Hc.
    + eapply after_frame_recent; eauto. rewrite Hc. exact Hgap.
Qed.

Lemma camera_frames_step (EyeContour : Type) (calculateEAR : EyeContour -> Q)
    (d : BlinkDetector) (f : option (Camera.EyeLandmarks EyeContour) * Q) :
  snd (Camera.processFrame EyeContour calculateEAR d (fst f) (snd f)) = d
  \/ exists n ts,
       (exists l r, n = Js.Math_min 1 ((calculateEAR l + calculateEAR r) / 2 / 0.35))
       /\ after_frame d
            (snd (Camera.processFrame EyeContour calculateEAR d (fst f) (snd f)))
            n ts.
Proof.
  destruct (fst f) as [lm|]; [right|left; reflexivity].
  eexists. exists (snd f). split; [|apply camera_step].
  eexists. eexists. reflexivity.
Qed.

Lemma engine_frames_step (EyeContour : Type) (calculateEAR : EyeContour -> Q)
    (d : BlinkDetector) (f : option (Engine.EyeLandmarks EyeContour) * Q) :
  snd (Engine.processFrame EyeContour calculateEAR d (fst f) (snd f)) = d
  \/ exists n ts,
       (exists l r, n = Js.Math_min 1 ((calculateEAR l + calculateEAR r) / 2 / 0.35))
       /\ after_frame d
            (snd (Engine.processFrame EyeContour calculateEAR d (fst f) (snd f)))
            n ts.
Proof.
  destruct (fst f) as [lm|]; [right|left; reflexivity].
  eexists. exists (snd f). split; [|apply engine_step].
  eexists. eexists. reflexivity.
Qed.

Lemma new_unit_range (cfg : BlinkConfig) :
  1 <= smoothingWindowSize cfg -> unit_range (new cfg).
Proof.
  intro H. unfold unit_range, in_unit. simpl.
  split; [constructor|]. split; [change (Js.len []) with 0; lra|].
  split; [split; vm_compute; discriminate|constructor].
Qed.

Lemma new_calibration_sound (cfg : BlinkConfig) : calibration_sound 0 (new cfg).
Proof.
  unfold calibration_sound. simpl.
  split; [lia|]. split; [constructor|]. split; [discriminate|reflexivity].
Qed.

(** In a spaced history the events are at least [gap] apart one after the
    other, so some event is [gap * (n - 1)] later than the first. *)
Lemma spaced_span (gap : Q) (h : list BlinkResult) :
  forall e, spaced gap (e :: h) ->
    exists e', In e' (e :: h)
               /\ timestamp e + gap * Js.len h <= timestamp e'.
Proof.
  induction h as [|e2 h IH]; intros e Hs.
  - exists e. split; [left; reflexivity|].
    change (Js.len []) with 0. lra.
  - destruct Hs as [Hall Hrest].
    destruct (IH e2 Hrest) as (e' & Hin & Hle).
    exists e'. split; [right; exact Hin|].
    inversion Hall as [|? ? Hgap _]; subst.
    assert (El : Js.len (e2 :: h) == Js.len h + 1).
    { unfold Js.len. simpl length. rewrite Nat2Z.inj_succ. unfold Z.succ.
      rewrite inject_Z_plus. reflexivity. }
    rewrite El. lra.
Qed.

Lemma history_span (d : BlinkDetector) :
  0 <= debounceTime (config d) ->
  history_valid d -> recent d ->
  (Js.len (blinkHistory d) - 1) * debounceTime (config d) < 60000.
Proof.
  intros Hgap (_ & Hlast & Hsp) Hr. unfold recent in Hr.
  destruct (blinkHistory d) as [|e h] eqn:Hh.
  - change (Js.len []) with 0. lra.
  - destruct (spaced_span _ h e Hsp) as (e' & Hin & Hle).
    rewrite Forall_forall in Hlast. specialize (Hlast e' Hin).
    inversion Hr as [|? ? He _]; subst.
    assert (El : Js.len (e :: h) == Js.len h + 1).
    { unfold Js.len. simpl length. rewrite Nat2Z.inj_succ. unfold Z.succ.
      rewrite inject_Z_plus. reflexivity. }
    rewrite El. lra.
Qed.

Lemma new_recent (cfg : BlinkConfig) : history_valid (new cfg) /\ recent (new cfg).
Proof. split; [apply new_valid|constructor]. Qed.

Lemma span_count (g : Q) (n : nat) :
  120 <= g -> (inject_Z (Z.of_nat n) - 1) * g < 60000 -> (n <= 500)%nat.
Proof.
  intros Hg H.
  destruct (le_lt_dec n 500) as [|Hbig]; [assumption|exfalso].
  assert (Hn : 501 <= inject_Z (Z.of_nat n)).
  { change 501 with (inject_Z 501). rewrite <- Zle_Qle. lia. }
  assert (H500 : 500 * 120 <= (inject_Z (Z.of_nat n) - 1) * g).
  { apply Qle_trans with ((inject_Z (Z.of_nat n) - 1) * 120).
    - apply Qmult_le_compat_r; lra.
    - rewrite (Qmult_comm _ 120), (Qmult_comm _ g).
      apply Qmult_le_compat_r; lra. }
  lra.
Qed.

End BlinkRunFacts.

Module BlinkRunProps.

Import Blink BlinkInv BlinkRun BlinkFacts NumFacts BlinkRunFacts.

(** X7.  With a window of three samples (the default) the smoothed openness
    follows a change of the raw openness only at the second frame in a row
    that shows it: when the two newest samples of the window are both [a],
    the frame that brings a different sample [o] still returns [a], and a
    second frame with [o] returns [o].  A one-frame outlier never reaches
    the state machine. *)
Theorem smoothOpenness_median_of_three (d : BlinkDetector) (a o : Q)
    (older : list Q) :
  smoothingWindowSize (config d) == 3 ->
  smoothingWindow d = older ++ [a; a] ->
  (length older <= 1)%nat ->
  fst (smoothOpenness d o) = a
  /\ smoothingWindow (snd (smoothOpenness d o)) = [a; a; o]
  /\ fst (smoothOpenness (snd (smoothOpenness d o)) o) = o.
Proof.
  intros Hsize Hw Hlen.
  assert (Haa : (a <=? a) = true) by (apply leb_true, Qle_refl).
  assert (Hoo : (o <=? o) = true) by (apply leb_true, Qle_refl).
  assert (H3 : forall p q r : Q,
             (Js.len [p; q; r] >? smoothingWindowSize (config d)) = false).
  { intros. apply gtb_false. rewrite Hsize. vm_compute. discriminate. }
  assert (H4 : forall p q r t : Q,
             (Js.len [p; q; r; t] >? smoothingWindowSize (config d)) = true).
  { intros. apply gtb_true. rewrite Hsize. vm_compute. reflexivity. }
  assert (Hfirst : smoothOpenness d o = (a, set_smoothingWindow d [a; a; o])).
  { unfold smoothOpenness. rewrite Hw.
    destruct older as [|p [|q older]]; [| |simpl in Hlen; lia]; simpl app.
    - rewrite H3. unfold Js.median. simpl.
      destruct (a <=? o) eqn:E; simpl; rewrite ?Haa, ?E; reflexivity.
    - rewrite H4. unfold Js.shift. simpl tl. unfold Js.median. simpl.
      destruct (a <=? o) eqn:E; simpl; rewrite ?Haa, ?E; reflexivity. }
  rewrite Hfirst. cbn [fst snd]. split; [reflexivity|]. split; [reflexivity|].
  unfold smoothOpenness. cbn [smoothingWindow set_smoothingWindow config].
  simpl app. rewrite H4. unfold Js.shift. simpl tl. unfold Js.median. simpl.
  rewrite Hoo. destruct (a <=? o) eqn:E; simpl; rewrite ?Hoo, ?E; reflexivity.
Qed.

Lemma smoothOpenness_median_of_three_witness :
  fst (smoothOpenness Examples.settled 0.1) = 0.9
  /\ smoothingWindow (snd (smoothOpenness Examples.settled 0.1))
     = [0.9; 0.9; 0.1]
  /\ fst (smoothOpenness (snd (smoothOpenness Examples.settled 0.1)) 0.1)
     = 0.1.
Proof.
  apply (smoothOpenness_median_of_three Examples.settled 0.9 0.1 []).
  - reflexivity.
  - reflexivity.
  - simpl. lia.
Defined.

(** X8.  For an EAR function that is never negative and a window size of
    at least 1, after any sequence of frames fed to a fresh detector of
    either class every sample of the smoothing window, the running minimum
    openness and the [minOpenness] of every recorded blink lie between 0
    and 1, and the window holds no more than [smoothingWindowSize]
    samples. *)
Theorem processFrame_unit_range (EyeContour : Type)
    (calculateEAR : EyeContour -> Q) (cfg : BlinkConfig)
    (camera : list (option (Camera.EyeLandmarks EyeContour) * Q))
    (engine : list (option (Engine.EyeLandmarks EyeContour) * Q)) :
  (forall c, 0 <= calculateEAR c) ->
  1 <= smoothingWindowSize cfg ->
  unit_range (cameraFrames EyeContour calculateEAR (new cfg) camera)
  /\ unit_range (engineFrames EyeContour calculateEAR (new cfg) engine).
Proof.
  intros Hear Hsize. split.
  - apply (runs_unit
             (fun d f => snd (Camera.processFrame EyeContour calculateEAR d
                                (fst f) (snd f))) cfg);
      [|assumption|reflexivity|apply new_unit_range; assumption].
    intros d f.
    destruct (camera_frames_step EyeContour calculateEAR d f)
      as [E|(n & ts & (l & r & ->) & Ha)]; [left; exact E|right].
    exists (Js.Math_min 1 ((calculateEAR l + calculateEAR r) / 2 / 0.35)), ts.
    split; [apply normalized_in_unit; apply Hear|exact Ha].
  - apply (runs_unit
             (fun d f => snd (Engine.processFrame EyeContour calculateEAR d
                                (fst f) (snd f))) cfg);
      [|assumption|reflexivity|apply new_unit_range; assumption].
    intros d f.
    destruct (engine_frames_step EyeContour calculateEAR d f)
      as [E|(n & ts & (l & r & ->) & Ha)]; [left; exact E|right].
    exists (Js.Math_min 1 ((calculateEAR l + calculateEAR r) / 2 / 0.35)), ts.
    split; [apply normalized_in_unit; apply Hear|exact Ha].
Qed.

Lemma processFrame_unit_range_witness :
  unit_range
    (cameraFrames (list Quality.Point)
       (LandmarkProvider.calculateEAR Examples.hypot_axis)
       (new DEFAULT_CONFIG) Examples.cameraFrame)
  /\ unit_range
       (engineFrames (list Quality.Point)
          (LandmarkProvider.calculateEAR Examples.hypot_axis)
          (new DEFAULT_CONFIG) Examples.engineFrame).
Proof.
  apply (processFrame_unit_range (list Quality.Point)
           (LandmarkProvider.calculateEAR Examples.hypot_axis)
           DEFAULT_CONFIG Examples.cameraFrame Examples.engineFrame).
  - intro c. apply LandmarkProps.calculateEAR_sign.
    apply LandmarkProps.hypot_axis_like.
  - vm_compute. discriminate.
Defined.

(** X9.  After any [n] frames fed to a fresh detector of either class at
    most [n] calibration samples were collected, all above 0.5; a detector
    that reports itself calibrated holds at least 30 of them and a baseline
    above 0.5, and one that does not still has the initial baseline
    0.35. *)
Theorem processFrame_calibration (EyeContour : Type)
    (calculateEAR : EyeContour -> Q) (cfg : BlinkConfig)
    (camera : list (option (Camera.EyeLandmarks EyeContour) * Q))
    (engine : list (option (Engine.EyeLandmarks EyeContour) * Q)) :
  calibration_sound (length camera)
    (cameraFrames EyeContour calculateEAR (new cfg) camera)
  /\ calibration_sound (length engine)
       (engineFrames EyeContour calculateEAR (new cfg) engine).
Proof.
  split.
  - apply (runs_calibration
             (fun d f => snd (Camera.processFrame EyeContour calculateEAR d
                                (fst f) (snd f)))
             ltac:(intros d f;
                   destruct (camera_frames_step EyeContour calculateEAR d f)
                     as [E|(n & ts & _ & Ha)]; [left; exact E|right; eauto])
             camera (new cfg) 0%nat (new_calibration_sound cfg)).
  - apply (runs_calibration
             (fun d f => snd (Engine.processFrame EyeContour calculateEAR d
                                (fst f) (snd f)))
             ltac:(intros d f;
                   destruct (engine_frames_step EyeContour calculateEAR d f)
                     as [E|(n & ts & _ & Ha)]; [left; exact E|right; eauto])
             engine (new cfg) 0%nat (new_calibration_sound cfg)).
Qed.

(** X10.  With a debounce time that is not negative, after any sequence of
    frames fed to a fresh detector of either class every event of
    [blinkHistory] is less than 60 s older than the last accepted blink, so
    [(blinkHistory.length - 1) * debounceTime < 60000]; with a debounce time
    of at least 120 ms (the default) the history never holds more than 500
    events. *)
Theorem blinkHistory_bounded (EyeContour : Type)
    (calculateEAR : EyeContour -> Q) (cfg : BlinkConfig)
    (camera : list (option (Camera.EyeLandmarks EyeContour) * Q))
    (engine : list (option (Engine.EyeLandmarks EyeContour) * Q)) :
  0 <= debounceTime cfg ->
  let c := cameraFrames EyeContour calculateEAR (new cfg) camera in
  let e := engineFrames EyeContour calculateEAR (new cfg) engine in
  recent c /\ recent e
  /\ (Js.len (blinkHistory c) - 1) * debounceTime cfg < 60000
  /\ (Js.len (blinkHistory e) - 1) * debounceTime cfg < 60000
  /\ (120 <= debounceTime cfg ->
      (length (blinkHistory c) <= 500)%nat
      /\ (length (blinkHistory e) <= 500)%nat).
Proof.
  intros Hgap c e.
  assert (Hc : config c = cfg /\ history_valid c /\ recent c).
  { subst c. unfold cameraFrames.
    apply (runs_recent _ cfg); [|assumption|reflexivity|apply new_recent].
    intros d f.
    destruct (camera_frames_step EyeContour calculateEAR d f)
      as [E|(n & ts & _ & Ha)]; [left; exact E|right; eauto]. }
  assert (He : config e = cfg /\ history_valid e /\ recent e).
  { subst e. unfold engineFrames.
    apply (runs_recent _ cfg); [|assumption|reflexivity|apply new_recent].
    intros d f.
    destruct (engine_frames_step EyeContour calculateEAR d f)
      as [E|(n & ts & _ & Ha)]; [left; exact E|right; eauto]. }
  clearbody c e.
  destruct Hc as (Hcc & Hcv & Hcr). destruct He as (Hec & Hev & Her).
  assert (Sc := history_span c ltac:(rewrite Hcc; exact Hgap) Hcv Hcr).
  assert (Se := history_span e ltac:(rewrite Hec; exact Hgap) Hev Her).
  rewrite Hcc in Sc. rewrite Hec in Se.
  repeat (split; [assumption|]).
  intro H120. split; eapply span_count; eauto.
Qed.

Lemma blinkHistory_bounded_witness :
  (length
     (blinkHistory
        (engineFrames (list Quality.Point)
           (LandmarkProvider.calculateEAR Examples.hypot_axis)
           (new DEFAULT_CONFIG) Examples.engineFrame)) <= 500)%nat.
Proof.
  assert (H0 : 0 <= debounceTime DEFAULT_CONFIG)
    by (vm_compute; discriminate).
  destruct (blinkHistory_bounded (list Quality.Point)
              (LandmarkProvider.calculateEAR Examples.hypot_axis)
              DEFAULT_CONFIG Examples.cameraFrame Examples.engineFrame H0)
    as (_ & _ & _ & _ & H).
  apply H. vm_compute. discriminate.
Defined.

End BlinkRunProps.

(** ** Blink metrics *)

Module MetricsProps.

Import Blink BlinkInv BlinkFacts NumFacts.

Lemma ratio_rounded (inc count : Q) :
  0 <= inc -> inc <= count -> 0 < count ->
  0 <= Js.Math_round (inc / count * 100) / 100
  /\ Js.Math_round (inc / count * 100) / 100 <= 1.
Proof.
  intros H0 Hle Hpos.
  assert (Hr0 : 0 <= inc / count) by (apply Qle_shift_div_l; lra).
  assert (Hr1 : inc / count <= 1) by (apply Qle_shift_div_r; lra).
  pose proof (Math_round_mono 0 (inc / count * 100) ltac:(lra)) as Hlo.
  pose proof (Math_round_mono (inc / count * 100) 100 ltac:(lra)) as Hhi.
  change (Js.Math_round 0) with 0 in Hlo.
  assert (E100 : Js.Math_round 100 = 100) by (apply (Math_round_Z 100)).
  rewrite E100 in Hhi.
  split; [apply Qle_shift_div_l; lra|apply Qle_shift_div_r; lra].
Qed.

Lemma rate_rounded (count minutes : Q) :
  0 <= count ->
  0 <= Js.Math_round ((if minutes >? 0 then count / minutes else 0) * 10) / 10.
Proof.
  intro H0.
  assert (Hr : 0 <= (if minutes >? 0 then count / minutes else 0)).
  { destruct (minutes >? 0) eqn:E; reflect_cmp; [|lra].
    apply Qle_shift_div_l; lra. }
  pose proof (Math_round_mono 0 _ ltac:(instantiate (1 := (if minutes >? 0 then count / minutes else 0) * 10); lra)) as Hlo.
  change (Js.Math_round 0) with 0 in Hlo.
  apply Qle_shift_div_l; lra.
Qed.

Lemma incomplete_le (h : list BlinkResult) :
  0 <= Js.len (filter (fun b => negb (isComplete b)) h)
  /\ Js.len (filter (fun b => negb (isComplete b)) h) <= Js.len h.
Proof.
  split; [apply len_nonneg|apply len_le, filter_length_le].
Qed.

(** X11.  For every detector state and every duration and frame rate,
    [calculateMetrics] of either class returns a blink count equal to the
    length of the history, an incomplete count between 0 and the blink
    count, an incomplete ratio between 0 and 1, and a blink rate that is
    not negative. *)
Theorem calculateMetrics_ranges (d : BlinkDetector) (durationSeconds avgFps : Q)
    (optFps : option Q) :
  let c := Camera.calculateMetrics d durationSeconds optFps in
  let e := Engine.calculateMetrics d durationSeconds avgFps in
  (blinkCount c = Js.len (blinkHistory d)
   /\ 0 <= incompleteBlinkCount c /\ incompleteBlinkCount c <= blinkCount c
   /\ 0 <= incompleteBlinkRatio c /\ incompleteBlinkRatio c <= 1
   /\ 0 <= blinkRate c)
  /\ (blinkCount e = Js.len (blinkHistory d)
      /\ 0 <= incompleteBlinkCount e /\ incompleteBlinkCount e <= blinkCount e
      /\ 0 <= incompleteBlinkRatio e /\ incompleteBlinkRatio e <= 1
      /\ 0 <= blinkRate e).
Proof.
  cbv zeta. unfold Camera.calculateMetrics, Engine.calculateMetrics.
  destruct (blinkHistory d) as [|b h] eqn:Hh.
  - simpl. change (Js.len []) with 0.
    repeat split; try reflexivity; try apply Qle_refl; vm_compute; discriminate.
  - cbn [length Nat.eqb]. cbv zeta.
    cbn [blinkCount incompleteBlinkCount incompleteBlinkRatio blinkRate].
    destruct (incomplete_le (b :: h)) as [Hi0 Hi1].
    assert (Hpos : 0 < Js.len (b :: h)).
    { pose proof (len_pos (b :: h) ltac:(discriminate)). lra. }
    assert (Hgt : (Js.len (b :: h) >? 0) = true) by (apply gtb_true; exact Hpos).
    rewrite Hgt.
    destruct (ratio_rounded _ _ Hi0 Hi1 Hpos) as [Hr0 Hr1].
    pose proof (rate_rounded (Js.len (b :: h)) (durationSeconds / 60)
                  ltac:(lra)) as Hrate.
    repeat split; assumption.
Qed.

(** The clamped window of [getMetrics]. *)
Lemma duration_clamped (v : Q) :
  1 <= Js.Math_min 60 (Js.Math_max 1000 v / 1000)
  /\ Js.Math_min 60 (Js.Math_max 1000 v / 1000) <= 60.
Proof.
  unfold Js.Math_min, Js.Math_max.
  destruct (1000 <=? v) eqn:Ev; reflect_cmp.
  - assert (H1 : 1 <= v / 1000) by (apply Qle_shift_div_l; lra).
    destruct (60 <=? v / 1000) eqn:E; reflect_cmp; split; lra.
  - assert (H1 : 1 <= 1000 / 1000) by (vm_compute; discriminate).
    destruct (60 <=? 1000 / 1000) eqn:E; reflect_cmp; split; lra.
Qed.

(** X12.  [getMetrics] of the engine's detector measures over a window
    clamped to between 1 and 60 seconds, so the blink rate it reports lies
    between the number of blinks in the history and 60 times that number;
    its confidence is that of 30 fps: 0 for an empty history, else 1 when
    calibrated and 0.5 when not. *)
Theorem getMetrics_realtime (d : BlinkDetector) (now : Q) :
  let m := Engine.getMetrics d now in
  blinkCount m <= blinkRate m
  /\ blinkRate m <= 60 * blinkCount m
  /\ confidence m
     == (if Nat.eqb (length (blinkHistory d)) 0 then 0
         else if isCalibrated d then 1 else 0.5).
Proof.
  cbv zeta. unfold Engine.getMetrics. cbv zeta.
  destruct (duration_clamped (now - monitoringStartTime d)) as [Hlo Hhi].
  set (dur := Js.Math_min 60
                (Js.Math_max 1000 (now - monitoringStartTime d) / 1000)) in *.
  clearbody dur.
  unfold Engine.calculateMetrics.
  destruct (blinkHistory d) as [|b h] eqn:Hh.
  - simpl. repeat split; try reflexivity; vm_compute; discriminate.
  - cbn [length Nat.eqb]. cbv zeta.
    cbn [blinkCount blinkRate confidence].
    set (count := Js.len (b :: h)).
    assert (Hc : 1 <= count) by (apply len_pos; discriminate).
    assert (Hm : 0 < dur / 60) by (apply Qlt_shift_div_l; lra).
    assert (Hgt : (dur / 60 >? 0) = true) by (apply gtb_true; exact Hm).
    rewrite Hgt.
    assert (Hraw1 : count * 10 <= count / (dur / 60) * 10).
    { assert (count <= count / (dur / 60)); [|lra].
      apply Qle_shift_div_l; [exact Hm|].
      assert (E : count * (dur / 60) == count * dur / 60) by (field).
      rewrite E. apply Qle_shift_div_r; [reflexivity|].
      assert (count * dur <= count * 60); [|lra].
      rewrite !(Qmult_comm count). apply Qmult_le_compat_r; lra. }
    assert (Hraw2 : count / (dur / 60) * 10 <= count * 600).
    { assert (E : count / (dur / 60) * 10 == count * 600 / dur)
        by (field; lra).
      rewrite E. apply Qle_shift_div_r; [lra|].
      assert (count * 600 * 1 <= count * 600 * dur); [|lra].
      rewrite !(Qmult_comm (count * 600)). apply Qmult_le_compat_r; lra. }
    assert (E10 : count * 10 = inject_Z (Z.of_nat (length (b :: h)) * 10))
      by (apply (len_Z (b :: h) 10)).
    assert (E600 : count * 600 = inject_Z (Z.of_nat (length (b :: h)) * 600))
      by (apply (len_Z (b :: h) 600)).
    rewrite E10 in Hraw1. rewrite E600 in Hraw2.
    apply round_ge_int in Hraw1. apply round_le_int in Hraw2.
    rewrite <- E10 in Hraw1. rewrite <- E600 in Hraw2.
    split; [apply Qle_shift_div_l; [reflexivity|lra]|].
    split; [apply Qle_shift_div_r; [reflexivity|lra]|].
    destruct (isCalibrated d); vm_compute; reflexivity.
Qed.

(** X13.  Before [reset] has set a positive monitoring start time,
    [getMetrics] of [BlinkDetector.ts] takes 10 seconds as the elapsed time
    whatever the clock shows, so it reports a blink rate of 6 times the
    number of blinks in the history; the count is the length of the
    history and the second component is the current EAR. *)
Theorem getMetrics_before_reset (d : BlinkDetector) (now : Q) :
  monitoringStartTime d <= 0 ->
  blinkRate (fst (Camera.getMetrics d now)) == 6 * Js.len (blinkHistory d)
  /\ blinkCount (fst (Camera.getMetrics d now)) = Js.len (blinkHistory d)
  /\ snd (Camera.getMetrics d now) = currentEAR d.
Proof.
  intro H0. unfold Camera.getMetrics. cbv zeta. cbn [fst snd].
  assert (E : (monitoringStartTime d >? 0) = false) by (apply gtb_false; exact H0).
  rewrite E. unfold Camera.calculateMetrics.
  destruct (blinkHistory d) as [|b h] eqn:Hh.
  - simpl. repeat split; reflexivity.
  - cbn [length Nat.eqb]. cbv zeta. cbn [blinkRate blinkCount].
    split; [|split; reflexivity].
    assert (Hgt : (10 / 60 >? 0) = true) by reflexivity.
    rewrite Hgt.
    assert (E60 : Js.len (b :: h) / (10 / 60) * 10
                  == inject_Z (Z.of_nat (length (b :: h)) * 60)).
    { rewrite <- (len_Z (b :: h) 60). field. }
    rewrite (Math_round_Z_eq _ _ E60), <- (len_Z (b :: h) 60). field.
Qed.

Lemma getMetrics_before_reset_witness :
  blinkRate (fst (Camera.getMetrics Examples.blinked 5000))
  == 6 * Js.len (blinkHistory Examples.blinked)
  /\ blinkCount (fst (Camera.getMetrics Examples.blinked 5000))
     = Js.len (blinkHistory Examples.blinked)
  /\ snd (Camera.getMetrics Examples.blinked 5000)
     = currentEAR Examples.blinked.
Proof.
  apply (getMetrics_before_reset Examples.blinked 5000).
  vm_compute. discriminate.
Defined.

(** X14.  [getBlinkData] computes its metrics over 60 seconds, so the
    blink rate it returns equals its total blink count, which is the length
    of the history; the incomplete count lies between 0 and the total. *)
Theorem getBlinkData_counts (d : BlinkDetector) :
  let data := Camera.getBlinkData d in
  Camera.totalBlinks data = Js.len (blinkHistory d)
  /\ Camera.blinkRate data == Camera.totalBlinks data
  /\ 0 <= Camera.incompleteBlinks data
  /\ Camera.incompleteBlinks data <= Camera.totalBlinks data.
Proof.
  cbv zeta. unfold Camera.getBlinkData. cbv zeta.
  cbn [Camera.totalBlinks Camera.blinkRate Camera.incompleteBlinks].
  destruct (incomplete_le (blinkHistory d)) as [Hi0 Hi1].
  split; [reflexivity|]. split; [|split; assumption].
  unfold Camera.calculateMetrics.
  destruct (blinkHistory d) as [|b h] eqn:Hh.
  - simpl. reflexivity.
  - cbn [length Nat.eqb]. cbv zeta. cbn [blinkRate].
    assert (Hgt : (60 / 60 >? 0) = true) by reflexivity.
    rewrite Hgt.
    assert (E10 : Js.len (b :: h) / (60 / 60) * 10
                  == inject_Z (Z.of_nat (length (b :: h)) * 10)).
    { rewrite <- (len_Z (b :: h) 10). field. }
    rewrite (Math_round_Z_eq _ _ E10), <- (len_Z (b :: h) 10). field.
Qed.

End MetricsProps.

(** ** Quality monitor: frame rate, brightness and the single checks *)

Module MonitorFacts.

Import Quality QualityInv QualityRun NumFacts.


(** The history after one frame: as before, or one more rate [1000 / delta],
    the oldest one dropped when there are more than 30. *)
Lemma calculateFPS_history (m : QualityMonitor) (ts : Q) :
  lastFrameTime (snd (calculateFPS m ts)) = ts
  /\ config (snd (calculateFPS m ts)) = config m
  /\ fst (calculateFPS m ts) = getAverageFPS (snd (calculateFPS m ts))
  /\ (fpsHistory (snd (calculateFPS m ts)) = fpsHistory m
      \/ (0 < lastFrameTime m /\ 0 < ts - lastFrameTime m
          /\ (fpsHistory (snd (calculateFPS m ts))
              = fpsHistory m ++ [1000 / (ts - lastFrameTime m)]
              /\ (length (fpsHistory m) < 30)%nat
              \/ fpsHistory (snd (calculateFPS m ts))
                 = tl (fpsHistory m ++ [1000 / (ts - lastFrameTime m)])
                 /\ (30 <= length (fpsHistory m))%nat))).
Proof.
  unfold calculateFPS. cbv zeta. cbn [fst snd lastFrameTime config fpsHistory].
  split; [reflexivity|]. split; [reflexivity|]. split; [reflexivity|].
  destruct (lastFrameTime m >? 0) eqn:E1; [|left; reflexivity].
  destruct (ts - lastFrameTime m >? 0) eqn:E2; [|left; reflexivity].
  reflect_cmp. right. split; [assumption|]. split; [assumption|].
  destruct (Nat.ltb_spec 30 (length (fpsHistory m ++ [1000 / (ts - lastFrameTime m)])))
    as [H|H]; rewrite length_app in H; simpl in H.
  - right. split; [reflexivity|lia].
  - left. split; [reflexivity|lia].
Qed.

Lemma getAverageFPS_sign (m : QualityMonitor) :
  fps_sound m ->
  0 <= getAverageFPS m
  /\ (fpsHistory m = [] -> getAverageFPS m = 0)
  /\ (fpsHistory m <> [] -> 0 < getAverageFPS m).
Proof.
  intros [_ Hpos]. unfold getAverageFPS.
  destruct (fpsHistory m) as [|v h] eqn:E.
  - simpl. split; [apply Qle_refl|]. split; [reflexivity|congruence].
  - cbn [length Nat.eqb].
    destruct (fold_pos (v :: h) Hpos 0) as [_ Hs].
    specialize (Hs ltac:(discriminate)). fold (Js.sum (v :: h)) in Hs.
    pose proof (len_pos (v :: h) ltac:(discriminate)) as Hl.
    assert (H0 : 0 < Js.sum (v :: h) / Js.len (v :: h))
      by (apply Qlt_shift_div_l; lra).
    split; [lra|]. split; [discriminate|intros _; exact H0].
Qed.

Lemma calculateFPS_sound (m : QualityMonitor) (ts : Q) :
  fps_sound m -> fps_sound (snd (calculateFPS m ts)).
Proof.
  intros [Hlen Hpos].
  destruct (calculateFPS_history m ts) as (_ & _ & _ & [E|(H1 & H2 & [[E Hl]|[E Hl]])]);
    unfold fps_sound; rewrite E.
  - split; assumption.
  - split; [rewrite length_app; simpl; lia|].
    apply Forall_app. split; [assumption|].
    constructor; [|constructor]. apply Qlt_shift_div_l; lra.
  - split.
    + destruct (fpsHistory m) as [|v h]; [simpl in Hl; lia|].
      simpl. rewrite length_app. simpl in *. lia.
    + apply Forall_tl, Forall_app. split; [assumption|].
      constructor; [|constructor]. apply Qlt_shift_div_l; lra.
Qed.

Lemma In_raised (f g : QualityFlag) (b : bool) :
  In f (raised b g) <-> b = true /\ g = f.
Proof.
  unfold raised. destruct b; simpl; intuition discriminate.
Qed.

Lemma luminance_range (p : Pixel) :
  (0 <= red p /\ red p <= 255)
  /\ (0 <= green p /\ green p <= 255)
  /\ (0 <= blue p /\ blue p <= 255) ->
  0 <= 0.299 * red p + 0.587 * green p + 0.114 * blue p
  /\ 0.299 * red p + 0.587 * green p + 0.114 * blue p <= 255.
Proof. intros ([? ?] & [? ?] & [? ?]). split; lra. Qed.

Section WithBrowser.

Variable HTMLVideoElement : Type.
Variable centerCrop : HTMLVideoElement -> option (list Pixel).
Variable calculatePoseAngles : FaceLandmarkerResult -> nat -> option PoseAngles.
Variable extractEyeLandmarks : FaceLandmarkerResult -> nat -> option EyeLandmarks.
Variable Math_sqrt : Q -> Q.

(** The flags of a frame with a face, check by check. *)
Lemma assessQuality_flags (m : QualityMonitor) (now : Q)
    (v : HTMLVideoElement) (r : FaceLandmarkerResult) (ts : Q) :
  noFace (Some r) = false ->
  flags (fst (assessQuality HTMLVideoElement centerCrop calculatePoseAngles
                extractEyeLandmarks Math_sqrt m now v (Some r) ts))
  = raised (warming m now) MODEL_WARMING_UP
    ++ raised (lowFps m ts) LOW_FPS
    ++ raised (multiFace r) MULTI_FACE_DETECTED
    ++ raised (lowLight HTMLVideoElement centerCrop m v) LOW_LIGHT
    ++ raised (unstable calculatePoseAngles m r) POSE_UNSTABLE
    ++ raised (occluded extractEyeLandmarks Math_sqrt r) EYE_OCCLUDED
    ++ raised (glare HTMLVideoElement centerCrop extractEyeLandmarks v r)
         GLASSES_GLARE_SUSPECTED.
Proof.
  unfold noFace. intro Hf.
  unfold assessQuality, warming, lowFps, multiFace, lowLight, unstable,
    occluded, glare.
  destruct (calculateFPS m ts) as [fps m'] eqn:Efps.
  assert (Hc : config m' = config m).
  { unfold calculateFPS in Efps. cbv zeta in Efps.
    injection Efps as _ Hm. subst m'. reflexivity. }
  cbv zeta. rewrite Hf, Hc. cbn [fst].
  generalize (now - startTime m <? warmupDuration (config m)).
  generalize ((fps <? lowFpsThreshold (config m)) && (fps >? 0)).
  generalize (Nat.ltb 1 (length (faceLandmarks r))).
  generalize (estimateBrightness HTMLVideoElement centerCrop v
                <? lowLightThreshold (config m)).
  generalize (detectGlassesGlare HTMLVideoElement centerCrop
                extractEyeLandmarks v r).
  generalize (match extractEyeLandmarks r 0%nat with
              | Some eyeLandmarks =>
                  detectEyeOcclusion Math_sqrt eyeLandmarks >? 0.3
              | None => false
              end).
  generalize (match calculatePoseAngles r 0%nat with
              | Some a =>
                  (Qabs (yaw a) >? poseYawThreshold (config m))
                  || (Qabs (pitch a) >? posePitchThreshold (config m))
                  || (Qabs (roll a) >? poseRollThreshold (config m))
              | None => false
              end).
  intros b1 b2 b3 b4 b5 b6 b7.
  destruct b1, b2, b3, b4, b5, b6, b7; reflexivity.
Qed.

(** The details of a frame with a face. *)
Lemma assessQuality_details (m : QualityMonitor) (now : Q)
    (v : HTMLVideoElement) (r : FaceLandmarkerResult) (ts : Q) :
  noFace (Some r) = false ->
  details (fst (assessQuality HTMLVideoElement centerCrop calculatePoseAngles
                  extractEyeLandmarks Math_sqrt m now v (Some r) ts))
  = {| fps := Some (fst (calculateFPS m ts));
       faceCount := if multiFace r then Some (Js.len (faceLandmarks r))
                    else None;
       brightness := Some (estimateBrightness HTMLVideoElement centerCrop v);
       poseAngles := calculatePoseAngles r 0%nat |}.
Proof.
  unfold noFace. intro Hf. unfold assessQuality, multiFace.
  destruct (calculateFPS m ts) as [fps m']. cbv zeta. rewrite Hf.
  reflexivity.
Qed.


End WithBrowser.

End MonitorFacts.

Module MonitorProps.

Import Quality QualityInv QualityRun NumFacts MonitorFacts.

(** X15.  After any run of frame timestamps on a fresh monitor the
    frame-rate history holds at most 30 rates, all of them positive, and
    so it does after one more frame; the average [calculateFPS] returns
    is never negative: it is 0, or it is positive and the history is not
    empty. *)
Theorem fpsHistory_sound (cfg : QualityMonitorConfig) (now : Q)
    (timestamps : list Q) (ts : Q) :
  let m := frames (new cfg now) timestamps in
  fps_sound m
  /\ fps_sound (snd (calculateFPS m ts))
  /\ 0 <= fst (calculateFPS m ts)
  /\ (fst (calculateFPS m ts) = 0
      \/ 0 < fst (calculateFPS m ts)
         /\ fpsHistory (snd (calculateFPS m ts)) <> []).
Proof.
  cbv zeta.
  assert (Hm : fps_sound (frames (new cfg now) timestamps)).
  { unfold frames.
    assert (H0 : fps_sound (new cfg now)) by (split; [simpl; lia|constructor]).
    generalize (new cfg now) H0.
    induction timestamps as [|t rest IH]; intros m Hs; simpl; [exact Hs|].
    apply IH, calculateFPS_sound, Hs. }
  set (m := frames (new cfg now) timestamps) in *. clearbody m.
  pose proof (calculateFPS_sound m ts Hm) as Hs.
  destruct (calculateFPS_history m ts) as (_ & _ & Hf & _).
  destruct (getAverageFPS_sign _ Hs) as (H0 & Hnil & Hpos).
  rewrite Hf.
  split; [assumption|]. split; [assumption|]. split; [assumption|].
  destruct (fpsHistory (snd (calculateFPS m ts))) as [|x h] eqn:E.
  - left. apply Hnil. reflexivity.
  - right. split; [apply Hpos|]; discriminate.
Qed.



(** X17.  On a frame with a face [assessQuality] raises EYE_OCCLUDED
    exactly when eye landmarks are extracted and the mean spread of the two
    eye contours is below 0.015; [detectEyeOcclusion] returns 0.8 for a
    mean spread below 0.01, 0.4 from 0.01 to below 0.015, and 0 from
    0.015. *)
Theorem eyeOccluded_threshold
    (HTMLVideoElement : Type)
    (centerCrop : HTMLVideoElement -> option (list Pixel))
    (calculatePoseAngles : FaceLandmarkerResult -> nat -> option PoseAngles)
    (extractEyeLandmarks : FaceLandmarkerResult -> nat -> option EyeLandmarks)
    (Math_sqrt : Q -> Q)
    (m : QualityMonitor) (now : Q) (v : HTMLVideoElement)
    (r : FaceLandmarkerResult) (ts : Q) :
  noFace (Some r) = false ->
  let q := fst (assessQuality HTMLVideoElement centerCrop calculatePoseAngles
                  extractEyeLandmarks Math_sqrt m now v (Some r) ts) in
  (In EYE_OCCLUDED (flags q)
   <-> exists e, extractEyeLandmarks r 0%nat = Some e
                 /\ avgSpread Math_sqrt e < 0.015)
  /\ (forall e,
        (avgSpread Math_sqrt e < 0.01 -> detectEyeOcclusion Math_sqrt e = 0.8)
        /\ (0.01 <= avgSpread Math_sqrt e -> avgSpread Math_sqrt e < 0.015 ->
            detectEyeOcclusion Math_sqrt e = 0.4)
        /\ (0.015 <= avgSpread Math_sqrt e -> detectEyeOcclusion Math_sqrt e = 0)).
Proof.
  intros Hf q.
  assert (Htier : forall e,
             (avgSpread Math_sqrt e < 0.01 -> detectEyeOcclusion Math_sqrt e = 0.8)
             /\ (0.01 <= avgSpread Math_sqrt e -> avgSpread Math_sqrt e < 0.015 ->
                 detectEyeOcclusion Math_sqrt e = 0.4)
             /\ (0.015 <= avgSpread Math_sqrt e ->
                 detectEyeOcclusion Math_sqrt e = 0)).
  { intro e. unfold detectEyeOcclusion. cbv zeta. fold (avgSpread Math_sqrt e).
    destruct (avgSpread Math_sqrt e <? 0.01) eqn:E1;
      destruct (avgSpread Math_sqrt e <? 0.015) eqn:E2; reflect_cmp;
      repeat split; intros; try reflexivity; exfalso; lra. }
  split; [|exact Htier].
  subst q.
  rewrite (assessQuality_flags HTMLVideoElement centerCrop calculatePoseAngles
             extractEyeLandmarks Math_sqrt m now v r ts Hf),
    !in_app_iff, !In_raised.
  unfold occluded.
  destruct (extractEyeLandmarks r 0%nat) as [e|].
  - destruct (Htier e) as (H8 & H4 & H0).
    split.
    + intros [H|[H|[H|[H|[H|[H|H]]]]]]; destruct H as [Hb Hd];
        try discriminate.
      exists e. split; [reflexivity|].
      destruct (Qlt_le_dec (avgSpread Math_sqrt e) 0.015) as [|Hge];
        [assumption|].
      rewrite (H0 Hge) in Hb. vm_compute in Hb. discriminate.
    + intros (e' & He & Hlt). injection He as <-.
      right. right. right. right. right. left. split; [|reflexivity].
      destruct (Qlt_le_dec (avgSpread Math_sqrt e) 0.01) as [Hs|Hs].
      * rewrite (H8 Hs). reflexivity.
      * rewrite (H4 Hs Hlt). reflexivity.
  - split.
    + intros [H|[H|[H|[H|[H|[H|H]]]]]]; destruct H as [Hb Hd]; discriminate.
    + intros (e' & He & _). discriminate.
Qed.

Lemma eyeOccluded_threshold_witness :
  detectEyeOcclusion Examples.sqrt_squares
    {| leftEye := Examples.openEye; rightEye := Examples.openEye |} = 0.
Proof.
  destruct (eyeOccluded_threshold unit (fun _ => Some Examples.greyCrop)
              Examples.poseOf
              (fun _ _ => Some {| leftEye := Examples.openEye;
                                  rightEye := Examples.openEye |})
              Examples.sqrt_squares Examples.watching 5000 tt
              Examples.oneFace 1033) as (_ & H).
  - reflexivity.
  - apply H. vm_compute. discriminate.
Defined.

(** X18.  On a frame with a face and a low-light threshold of at most 200,
    LOW_LIGHT is raised exactly when the brightness is below the
    threshold, GLASSES_GLARE_SUSPECTED exactly when the brightness is above
    200 and eye landmarks are extracted, and never both.  When the canvas
    gives no pixels the brightness is reported as 128, no glare is raised,
    and with a threshold of at most 128 no low light either. *)
Theorem lowLight_excludes_glare
    (HTMLVideoElement : Type)
    (centerCrop : HTMLVideoElement -> option (list Pixel))
    (calculatePoseAngles : FaceLandmarkerResult -> nat -> option PoseAngles)
    (extractEyeLandmarks : FaceLandmarkerResult -> nat -> option EyeLandmarks)
    (Math_sqrt : Q -> Q)
    (m : QualityMonitor) (now : Q) (v : HTMLVideoElement)
    (r : FaceLandmarkerResult) (ts : Q) :
  noFace (Some r) = false ->
  lowLightThreshold (config m) <= 200 ->
  let q := fst (assessQuality HTMLVideoElement centerCrop calculatePoseAngles
                  extractEyeLandmarks Math_sqrt m now v (Some r) ts) in
  (In LOW_LIGHT (flags q)
   <-> estimateBrightness HTMLVideoElement centerCrop v
       < lowLightThreshold (config m))
  /\ (In GLASSES_GLARE_SUSPECTED (flags q)
      <-> 200 < estimateBrightness HTMLVideoElement centerCrop v
          /\ extractEyeLandmarks r 0%nat <> None)
  /\ (In LOW_LIGHT (flags q) -> In GLASSES_GLARE_SUSPECTED (flags q) -> False)
  /\ (centerCrop v = None ->
      brightness (details q) = Some 128
      /\ (In GLASSES_GLARE_SUSPECTED (flags q) -> False)
      /\ (lowLightThreshold (config m) <= 128 ->
          In LOW_LIGHT (flags q) -> False)).
Proof.
  intros Hf Hthr q.
  assert (HL : In LOW_LIGHT (flags q)
               <-> estimateBrightness HTMLVideoElement centerCrop v
                   < lowLightThreshold (config m)).
  { subst q.
    rewrite (assessQuality_flags HTMLVideoElement centerCrop calculatePoseAngles
               extractEyeLandmarks Math_sqrt m now v r ts Hf),
      !in_app_iff, !In_raised.
    unfold lowLight. rewrite ltb_true. intuition discriminate. }
  assert (HG : In GLASSES_GLARE_SUSPECTED (flags q)
               <-> 200 < estimateBrightness HTMLVideoElement centerCrop v
                   /\ extractEyeLandmarks r 0%nat <> None).
  { subst q.
    rewrite (assessQuality_flags HTMLVideoElement centerCrop calculatePoseAngles
               extractEyeLandmarks Math_sqrt m now v r ts Hf),
      !in_app_iff, !In_raised.
    unfold glare, detectGlassesGlare.
    destruct (extractEyeLandmarks r 0%nat) as [e|].
    - destruct (estimateBrightness HTMLVideoElement centerCrop v >? 200) eqn:E;
        reflect_cmp.
      + split; [intros _; split; [assumption|discriminate]|].
        intros _. repeat right. split; reflexivity.
      + split; [|intros [H _]; exfalso; lra].
        intros [H|[H|[H|[H|[H|[H|H]]]]]]; destruct H; discriminate.
    - split; [|intros [_ H]; congruence].
      intros [H|[H|[H|[H|[H|[H|H]]]]]]; destruct H; discriminate. }
  split; [exact HL|]. split; [exact HG|]. split.
  - intros H1 H2. apply HL in H1. apply HG in H2. destruct H2. lra.
  - intro Hcrop.
    assert (Eb : estimateBrightness HTMLVideoElement centerCrop v = 128)
      by (unfold estimateBrightness; rewrite Hcrop; reflexivity).
    split.
    + subst q.
      rewrite (assessQuality_details HTMLVideoElement centerCrop
                 calculatePoseAngles extractEyeLandmarks Math_sqrt
                 m now v r ts Hf).
      cbn [brightness]. rewrite Eb. reflexivity.
    + split.
      * intro H. apply HG in H. destruct H as [H _]. rewrite Eb in H.
        vm_compute in H. discriminate.
      * intros H128 H. apply HL in H. rewrite Eb in H. lra.
Qed.

Lemma lowLight_excludes_glare_witness :
  brightness
    (details
       (fst (assessQuality unit (fun _ => None) Examples.poseOf
               (fun _ _ => None) Examples.sqrt_squares Examples.watching
               5000 tt (Some Examples.oneFace) 1033))) = Some 128.
Proof.
  destruct (lowLight_excludes_glare unit (fun _ => None) Examples.poseOf
              (fun _ _ => None) Examples.sqrt_squares Examples.watching
              5000 tt Examples.oneFace 1033)
    as (_ & _ & _ & H).
  - reflexivity.
  - vm_compute. discriminate.
  - apply H. reflexivity.
Defined.

(** X19.  With the pose angles that [calculatePoseAngles] of
    [LandmarkProvider] returns, whose pitch and roll are always 0, and
    pitch and roll thresholds that are not negative, POSE_UNSTABLE on a
    frame with a face is decided by the yaw alone: it is raised exactly
    when the absolute yaw exceeds [poseYawThreshold]. *)
Theorem poseUnstable_yaw_only
    (HTMLVideoElement : Type)
    (centerCrop : HTMLVideoElement -> option (list Pixel))
    (calculatePoseAngles : FaceLandmarkerResult -> nat -> option PoseAngles)
    (extractEyeLandmarks : FaceLandmarkerResult -> nat -> option EyeLandmarks)
    (Math_sqrt : Q -> Q)
    (m : QualityMonitor) (now : Q) (v : HTMLVideoElement)
    (r : FaceLandmarkerResult) (ts : Q) :
  noFace (Some r) = false ->
  LandmarkProvider.calculatePoseAngles r 0
  = LandmarkProvider.Returns (calculatePoseAngles r 0%nat) ->
  0 <= posePitchThreshold (config m) ->
  0 <= poseRollThreshold (config m) ->
  let q := fst (assessQuality HTMLVideoElement centerCrop calculatePoseAngles
                  extractEyeLandmarks Math_sqrt m now v (Some r) ts) in
  exists a,
    poseAngles (details q) = Some a
    /\ pitch a = 0 /\ roll a = 0
    /\ (In POSE_UNSTABLE (flags q)
        <-> poseYawThreshold (config m) < Qabs (yaw a)).
Proof.
  intros Hf Hlp Hpitch Hroll q.
  assert (Ha : exists a, calculatePoseAngles r 0%nat = Some a
                         /\ pitch a = 0 /\ roll a = 0).
  { unfold noFace in Hf. unfold LandmarkProvider.calculatePoseAngles in Hlp.
    rewrite Hf in Hlp.
    destruct (nth_error (faceLandmarks r) 0) as [lms|]; [|discriminate].
    destruct (nth_error lms 1); [|discriminate].
    destruct (nth_error lms 234); [|discriminate].
    destruct (nth_error lms 454); [|discriminate].
    injection Hlp as Hlp. rewrite <- Hlp.
    eexists. split; [reflexivity|]. split; reflexivity. }
  destruct Ha as (a & Ea & Hp & Hr).
  exists a. subst q.
  rewrite (assessQuality_details HTMLVideoElement centerCrop
             calculatePoseAngles extractEyeLandmarks Math_sqrt
             m now v r ts Hf).
  cbn [poseAngles]. split; [exact Ea|]. split; [exact Hp|]. split; [exact Hr|].
  rewrite (assessQuality_flags HTMLVideoElement centerCrop calculatePoseAngles
             extractEyeLandmarks Math_sqrt m now v r ts Hf),
    !in_app_iff, !In_raised.
  unfold unstable. rewrite Ea, Hp, Hr.
  assert (E1 : (Qabs 0 >? posePitchThreshold (config m)) = false)
    by (apply gtb_false; exact Hpitch).
  assert (E2 : (Qabs 0 >? poseRollThreshold (config m)) = false)
    by (apply gtb_false; exact Hroll).
  rewrite E1, E2, !orb_false_r, gtb_true.
  intuition discriminate.
Qed.

Lemma poseUnstable_yaw_only_witness :
  exists a,
    poseAngles
      (details
         (fst (assessQuality unit (fun _ => None) Examples.poseOf
                 (fun _ _ => None) Examples.sqrt_squares Examples.watching
                 5000 tt (Some Examples.oneFace) 1033))) = Some a
    /\ pitch a = 0 /\ roll a = 0.
Proof.
  destruct (poseUnstable_yaw_only unit (fun _ => None) Examples.poseOf
              (fun _ _ => None) Examples.sqrt_squares Examples.watching
              5000 tt Examples.oneFace 1033)
    as (a & Ha & Hp & Hr & _).
  - reflexivity.
  - reflexivity.
  - vm_compute. discriminate.
  - vm_compute. discriminate.
  - exists a. repeat split; assumption.
Defined.

(** X20.  When the canvas read-back is the complete 100 x 100 crop with
    every colour channel between 0 and 255, [estimateBrightness] returns a
    value between 0 and 255. *)
Theorem estimateBrightness_range (HTMLVideoElement : Type)
    (centerCrop : HTMLVideoElement -> option (list Pixel))
    (v : HTMLVideoElement) (data : list Pixel) :
  centerCrop v = Some data ->
  crop_ok data ->
  0 <= estimateBrightness HTMLVideoElement centerCrop v
  /\ estimateBrightness HTMLVideoElement centerCrop v <= 255.
Proof.
  intros Hc [Hlen Hall]. unfold estimateBrightness. rewrite Hc. cbv zeta.
  assert (Hlum : Forall (fun p => 0 <= 0.299 * red p + 0.587 * green p
                                        + 0.114 * blue p
                                  /\ 0.299 * red p + 0.587 * green p
                                     + 0.114 * blue p <= 255) data).
  { eapply Forall_impl; [|exact Hall]. intros p Hp. apply luminance_range, Hp. }
  destruct (fold_sum_bounds
              (fun p => 0.299 * red p + 0.587 * green p + 0.114 * blue p)
              0 255 data Hlum 0) as [H1 H2].
  rewrite Hlen in H1, H2.
  split; [apply Qle_shift_div_l; [reflexivity|lra]|].
  apply Qle_shift_div_r; [reflexivity|lra].
Qed.

Lemma estimateBrightness_range_witness :
  0 <= estimateBrightness unit (fun _ => Some Examples.greyCrop) tt
  /\ estimateBrightness unit (fun _ => Some Examples.greyCrop) tt <= 255.
Proof.
  apply (estimateBrightness_range unit
           (fun _ => Some Examples.greyCrop) tt Examples.greyCrop).
  - reflexivity.
  - split; [vm_compute; reflexivity|].
    apply Forall_forall. intros p Hp. apply repeat_spec in Hp. subst p.
    vm_compute. intuition discriminate.
Defined.

End MonitorProps.

(** ** Distance estimator: calibration sessions and reachable states *)

Module SessionFacts.

Import Distance DistanceInv DistanceReach CalibrationFacts EstimateFacts NumFacts.


Lemma median_positive (xs : list Q) :
  xs <> [] -> Forall (fun v => 0 < v) xs -> 0 < Js.median xs.
Proof.
  intros Hne H. rewrite Forall_forall in H. apply H.
  apply (SortFacts.median_middle xs Hne).
Qed.

(** The state a session leaves, from the accepted samples alone. *)
Lemma recalibrate_state (d : DistanceEstimator) (start : Q)
    (ticks : list (Q * Q * bool)) :
  in_window start ticks ->
  calibrationSamples (recalibrate d start ticks) = accepted ticks
  /\ lastSmoothedCm (recalibrate d start ticks) = None
  /\ isCalibrating (recalibrate d start ticks) = false
  /\ localStorage (recalibrate d start ticks)
     = calibrationK (recalibrate d start ticks).
Proof.
  intro Hw. unfold recalibrate.
  destruct (session_samples start ticks
              (startCalibration (resetCalibration d) start))
    as (Hs & Hk & Hl & _); [reflexivity|reflexivity|assumption|].
  cbv zeta in Hs, Hk, Hl. simpl in Hs, Hk, Hl.
  set (d1 := fold_left
               (fun d t => processCalibrationFrame d (fst (fst t))
                             (snd (fst t)) (snd t))
               ticks (startCalibration (resetCalibration d) start)) in *.
  assert (Hsm : lastSmoothedCm d1 = None).
  { subst d1.
    assert (G : forall l d0, lastSmoothedCm d0 = None ->
                lastSmoothedCm
                  (fold_left
                     (fun d t => processCalibrationFrame d (fst (fst t))
                                   (snd (fst t)) (snd t)) l d0) = None).
    { induction l as [|t l IH]; intros d0 H0; simpl; [exact H0|].
      apply IH. unfold processCalibrationFrame, finalizeCalibration.
      destruct (negb (isCalibrating d0)); [exact H0|].
      destruct (_ >? _).
      - cbn [calibrationSamples]. destruct (Nat.ltb _ 10); exact H0.
      - destruct (_ && _); exact H0. }
    apply G. reflexivity. }
  clearbody d1.
  unfold finalizeCalibration. cbn [calibrationSamples].
  destruct (Nat.ltb (length (calibrationSamples d1)) 10); simpl;
    rewrite ?Hs, ?Hsm, ?Hk, ?Hl; repeat split.
Qed.


(** Once a session is over, ticks change nothing. *)
Lemma ticks_after_session (ticks : list (Q * Q * bool)) (d : DistanceEstimator) :
  isCalibrating d = false ->
  fold_left
    (fun d t => processCalibrationFrame d (fst (fst t)) (snd (fst t)) (snd t))
    ticks d = d.
Proof.
  intro H. induction ticks as [|t ticks IH]; simpl; [reflexivity|].
  unfold processCalibrationFrame at 2. rewrite H. simpl. exact IH.
Qed.

Lemma finalizeCalibration_idempotent (d : DistanceEstimator) :
  finalizeCalibration (finalizeCalibration d) = finalizeCalibration d.
Proof.
  unfold finalizeCalibration. cbn [calibrationSamples].
  destruct (Nat.ltb (length (calibrationSamples d)) 10) eqn:E;
    cbn [calibrationSamples calibrationK lastSmoothedCm isCalibrating
         calibrationStartTime localStorage];
    rewrite E; reflexivity.
Qed.

(** What [estimate] changes: the smoothing state, and only on a usable
    frame; what it returns is rounded to one decimal. *)
Lemma estimate_effects (Math_hypot : Q -> Q -> Q) (d : DistanceEstimator)
    (w : Q) (landmarks : option (list Point)) :
  let r := fst (estimate Math_hypot d w landmarks) in
  let d' := snd (estimate Math_hypot d w landmarks) in
  (calibrationK d' = calibrationK d
   /\ localStorage d' = localStorage d
   /\ calibrationSamples d' = calibrationSamples d
   /\ isCalibrating d' = isCalibrating d
   /\ calibrationStartTime d' = calibrationStartTime d)
  /\ (if usable landmarks
      then exists s,
             lastSmoothedCm d' = Some s
             /\ s - 0.05 < estCm r /\ estCm r <= s + 0.05
             /\ exists z, estCm r * 10 == inject_Z z
      else d' = d /\ estCm r = 0 /\ confidence r = 0 /\ bucket r = UNKNOWN
           /\ flags (debug r) = [NO_LANDMARKS]).
Proof.
  cbv zeta. destruct (usable landmarks) eqn:Hu.
  - destruct landmarks as [lms|]; [|discriminate].
    destruct (estimate_usable Math_hypot d w lms Hu)
      as (_ & Hs & Hk & He & _).
    cbv zeta in Hs, Hk, He.
    split.
    + split; [exact Hk|].
      unfold usable in Hu. unfold estimate.
      destruct (Nat.ltb (length lms) 264); [discriminate|].
      repeat split.
    + eexists. split; [exact Hs|]. rewrite He.
      set (s := ema (lastSmoothedCm d) (rawOf Math_hypot d w lms)).
      destruct (Math_round_near (s * 10)) as [H1 H2].
      split; [|split].
      * apply Qlt_shift_div_l; [reflexivity|lra].
      * apply Qle_shift_div_r; [reflexivity|lra].
      * exists (Qfloor (s * 10 + (1 # 2))). unfold Js.Math_round. field.
  - rewrite (estimate_unusable Math_hypot d w landmarks Hu). simpl.
    repeat split.
Qed.

Lemma positive_finalize (d : DistanceEstimator) :
  positive d -> positive (finalizeCalibration d).
Proof.
  intros [Hk Hs]. unfold positive, finalizeCalibration.
  cbn [calibrationSamples].
  destruct (Nat.ltb_spec (length (calibrationSamples d)) 10) as [|Hn];
    cbn [calibrationK calibrationSamples]; split; try assumption.
  assert (Hne : calibrationSamples d <> [])
    by (destruct (calibrationSamples d); [simpl in Hn; lia|discriminate]).
  pose proof (median_positive _ Hne Hs). unfold DEFAULT_TARGET_CM. lra.
Qed.

Lemma reachable_positive (Math_hypot : Q -> Q -> Q) (d : DistanceEstimator) :
  reachable Math_hypot d -> positive d.
Proof.
  induction 1 as [stored|d _ [Hk Hs]|d _ [Hk Hs]|d now _ [Hk Hs]
                  |d now iodPx isStable _ IH|d _ IH|d w lms _ [Hk Hs]].
  - unfold new, loadCalibration, positive. cbn [localStorage].
    destruct stored as [val|]; [|split; [exact I|constructor]].
    destruct (val >? 0) eqn:E; cbn; [|split; [exact I|constructor]].
    split; [apply gtb_true; exact E|constructor].
  - unfold loadCalibration, positive.
    destruct (localStorage d) as [val|]; [|split; assumption].
    destruct (val >? 0) eqn:E; cbn; [|split; assumption].
    split; [apply gtb_true; exact E|assumption].
  - split; [exact I|exact Hs].
  - split; [exact Hk|constructor].
  - unfold processCalibrationFrame.
    destruct (negb (isCalibrating d)); [exact IH|].
    destruct (_ >? _); [apply positive_finalize; exact IH|].
    destruct (iodPx >? 0) eqn:E; [|exact IH].
    destruct isStable; [|exact IH]. cbn [andb].
    destruct IH as [Hk Hs]. split; [exact Hk|]. cbn [calibrationSamples].
    apply Forall_app. split; [exact Hs|].
    constructor; [apply gtb_true; exact E|constructor].
  - apply positive_finalize; exact IH.
  - destruct (estimate_effects Math_hypot d w lms) as ((Ek & _ & Es & _) & _).
    cbv zeta in Ek, Es. unfold positive. rewrite Ek, Es. split; assumption.
Qed.

End SessionFacts.

Module SessionProps.

Import Distance DistanceInv DistanceReach CalibrationFacts EstimateFacts.
Import NumFacts SessionFacts.



(** X22.  A calibration session that accepts fewer than 10 samples leaves
    the estimator uncalibrated even when it was calibrated before: the
    constant and the stored value are null, [isCalibrated] is false, an
    estimator constructed on that storage is uncalibrated,
    [getCalibrationDetails] returns null, and [runDistanceBurst] of an
    engine that holds this estimator returns the UNKNOWN result without
    performing anything. *)
Theorem failed_recalibration_clears (d : DistanceEstimator) (start now : Q)
    (ticks : list (Q * Q * bool)) :
  in_window start ticks ->
  (length (accepted ticks) < 10)%nat ->
  let d' := recalibrate d start ticks in
  calibrationK d' = None
  /\ localStorage d' = None
  /\ isCalibrated d' = false
  /\ isCalibrated (new (localStorage d')) = false
  /\ getCalibrationDetails d' now = None
  /\ forall e durationMs,
       Engine.distanceEstimator e = d' ->
       Engine.runDistanceBurst e durationMs = Ret (Engine.unknownBurst 0).
Proof.
  intros Hw Hn d'.
  pose proof (recalibrate_k d start ticks Hw) as Hk.
  destruct (recalibrate_state d start ticks Hw) as (_ & _ & _ & Hst).
  destruct (Nat.ltb_spec (length (accepted ticks)) 10) as [_|]; [|lia].
  fold d' in Hk, Hst.
  split; [exact Hk|]. split; [rewrite Hst; exact Hk|].
  split; [unfold isCalibrated; rewrite Hk; reflexivity|].
  split; [rewrite Hst, Hk; reflexivity|].
  split; [unfold getCalibrationDetails; rewrite Hk; reflexivity|].
  intros e dur He. unfold Engine.runDistanceBurst. rewrite He.
  unfold isCalibrated. rewrite Hk. reflexivity.
Qed.

Lemma failed_recalibration_clears_witness :
  isCalibrated (new (Some 9225)) = true
  /\ isCalibrated (recalibrate (new (Some 9225)) 0 Examples.fewTicks) = false.
Proof.
  split; [reflexivity|].
  apply (failed_recalibration_clears (new (Some 9225)) 0 0 Examples.fewTicks).
  - unfold in_window. repeat constructor; vm_compute; discriminate.
  - vm_compute. repeat constructor.
Defined.



(** X24.  Once a tick arrives more than 10 s after the start of a session
    the session is finalized by that tick, and neither further ticks nor
    the [finalizeCalibration] that ends [runCalibration] change anything:
    the estimator is the one the ticks within the window produce. *)
Theorem late_ticks_ignored (d : DistanceEstimator) (start : Q)
    (early : list (Q * Q * bool)) (late : Q * Q * bool)
    (rest : list (Q * Q * bool)) :
  in_window start early ->
  CALIBRATION_DURATION_MS < fst (fst late) - start ->
  recalibrate d start (early ++ late :: rest) = recalibrate d start early
  /\ finalizeCalibration (recalibrate d start early)
     = recalibrate d start early.
Proof.
  intros Hw Hlate. split; [|apply finalizeCalibration_idempotent].
  unfold recalibrate. rewrite fold_left_app. simpl fold_left.
  destruct (session_samples start early
              (startCalibration (resetCalibration d) start))
    as (_ & _ & _ & Hc); [reflexivity|reflexivity|assumption|].
  cbv zeta in Hc.
  set (d1 := fold_left
               (fun d t => processCalibrationFrame d (fst (fst t))
                             (snd (fst t)) (snd t))
               early (startCalibration (resetCalibration d) start)) in *.
  assert (Hst : calibrationStartTime d1 = start).
  { subst d1.
    assert (G : forall l d0,
                calibrationStartTime
                  (fold_left
                     (fun d t => processCalibrationFrame d (fst (fst t))
                                   (snd (fst t)) (snd t)) l d0)
                = calibrationStartTime d0).
    { induction l as [|t l IH]; intro d0; simpl; [reflexivity|].
      rewrite IH. unfold processCalibrationFrame, finalizeCalibration.
      destruct (negb (isCalibrating d0)); [reflexivity|].
      destruct (_ >? _).
      - cbn [calibrationSamples]. destruct (Nat.ltb _ 10); reflexivity.
      - destruct (_ && _); reflexivity. }
    rewrite G. reflexivity. }
  clearbody d1.
  assert (E : processCalibrationFrame d1 (fst (fst late)) (snd (fst late))
                (snd late) = finalizeCalibration d1).
  { unfold processCalibrationFrame. rewrite Hc, Hst. cbn [negb].
    assert (Eg : (fst (fst late) - start >? CALIBRATION_DURATION_MS) = true)
      by (apply gtb_true; exact Hlate).
    rewrite Eg. reflexivity. }
  rewrite E, ticks_after_session.
  - apply finalizeCalibration_idempotent.
  - unfold finalizeCalibration. cbn [calibrationSamples].
    destruct (Nat.ltb _ 10); reflexivity.
Qed.

Lemma late_ticks_ignored_witness :
  recalibrate (new None) 0
    (Examples.ticks ++ Examples.lateTick :: [Examples.lateTick])
  = recalibrate (new None) 0 Examples.ticks
  /\ finalizeCalibration (recalibrate (new None) 0 Examples.ticks)
     = recalibrate (new None) 0 Examples.ticks.
Proof.
  apply (late_ticks_ignored (new None) 0 Examples.ticks Examples.lateTick
           [Examples.lateTick]).
  - unfold in_window. repeat constructor; vm_compute; discriminate.
  - vm_compute. reflexivity.
Defined.

(** X25.  In every state the estimator can reach through its public
    methods from a constructor call, the calibration constant, when it is
    present, is positive.  So [isCalibrated] (constant not null) agrees
    with the truthiness test of [estimate] and [getCalibrationDetails]:
    details are null exactly when uncalibrated, the constant in force
    (8500 by default) is positive, and a usable frame is flagged
    NOT_CALIBRATED exactly when [isCalibrated] is false. *)
Theorem reachable_calibration (Math_hypot : Q -> Q -> Q)
    (d : DistanceEstimator) (now w : Q) (lms : list Point) :
  reachable Math_hypot d ->
  positive d
  /\ isCalibrated d = truthyK d
  /\ (getCalibrationDetails d now = None <-> isCalibrated d = false)
  /\ 0 < calibrationK_or d 8500
  /\ (usable (Some lms) = true ->
      (In NOT_CALIBRATED
          (flags (debug (fst (estimate Math_hypot d w (Some lms)))))
       <-> isCalibrated d = false)).
Proof.
  intro Hr. pose proof (reachable_positive Math_hypot d Hr) as Hp.
  split; [exact Hp|]. destruct Hp as [Hk _].
  assert (Ht : isCalibrated d = truthyK d).
  { unfold isCalibrated, truthyK. destruct (calibrationK d) as [K|]; [|reflexivity].
    assert (E : Qeq_bool K 0 = false) by (apply Qeq_bool_false; lra).
    rewrite E. reflexivity. }
  split; [exact Ht|]. split; [|split].
  - unfold getCalibrationDetails, isCalibrated.
    destruct (calibrationK d) as [K|]; [|tauto].
    assert (E : Qeq_bool K 0 = false) by (apply Qeq_bool_false; lra).
    rewrite E. split; discriminate.
  - unfold calibrationK_or. destruct (calibrationK d) as [K|]; [|reflexivity].
    assert (E : Qeq_bool K 0 = false) by (apply Qeq_bool_false; lra).
    rewrite E. exact Hk.
  - intro Hu. rewrite Ht. unfold usable in Hu. unfold estimate.
    destruct (Nat.ltb (length lms) 264); [discriminate|].
    cbv zeta. cbn [fst debug flags].
    destruct (truthyK d); cbn [negb];
      match goal with
      | |- context [if ?c then _ else _] => destruct c
      end; simpl; intuition discriminate.
Qed.

Lemma reachable_calibration_witness :
  isCalibrated (new (Some 9225)) = truthyK (new (Some 9225))
  /\ 0 < calibrationK_or (new (Some 9225)) 8500.
Proof.
  destruct (reachable_calibration Examples.hypot_row (new (Some 9225)) 0 1000
              (Examples.face 0 (205 # 1000)))
    as (_ & H1 & _ & H2 & _).
  - apply reach_new.
  - split; assumption.
Defined.

End SessionProps.

(** ** The older distance estimator *)

Module LegacyFacts.

Import LegacyDistance LegacyInv NumFacts.

(** The history after [smoothValue]: the value appended, the oldest one
    dropped when that makes six. *)
Lemma smoothValue_history (d : DistanceEstimator) (val : Q) :
  (length (cmHistory d) <= 5)%nat ->
  let h := cmHistory (snd (smoothValue d val)) in
  h <> []
  /\ (length h <= 5)%nat
  /\ fst (smoothValue d val) = Js.sum h / Js.len h
  /\ (exists older, h = older ++ [val])
  /\ (forall P : Q -> Prop, Forall P (cmHistory d) -> P val -> Forall P h)
  /\ calibration (snd (smoothValue d val)) = calibration d
  /\ calibrationSamples (snd (smoothValue d val)) = calibrationSamples d.
Proof.
  intro Hlen. unfold smoothValue. cbv zeta.
  cbn [fst snd cmHistory calibration calibrationSamples].
  destruct (Nat.ltb_spec 5 (length (cmHistory d ++ [val]))) as [H|H];
    rewrite length_app in H; simpl in H.
  - destruct (cmHistory d) as [|a r] eqn:E; [simpl in H; lia|].
    simpl app. unfold Js.shift. simpl tl.
    split; [destruct r; discriminate|].
    split; [rewrite length_app; simpl in *; lia|].
    split; [reflexivity|]. split; [exists r; reflexivity|].
    split; [|split; reflexivity].
    intros P HP Hv. inversion HP; subst. apply Forall_app. split; [assumption|].
    constructor; [assumption|constructor].
  - split; [destruct (cmHistory d); discriminate|].
    split; [rewrite length_app; simpl; lia|].
    split; [reflexivity|]. split; [exists (cmHistory d); reflexivity|].
    split; [|split; reflexivity].
    intros P HP Hv. apply Forall_app. split; [assumption|].
    constructor; [assumption|constructor].
Qed.

(** What [estimateDistance] does on a frame with all 478 landmarks whose
    eye corners are apart. *)
Lemma estimateDistance_measured (Math_sqrt : Q -> Q) (d : DistanceEstimator)
    (lms : list NormalizedLandmark) :
  (478 <= length lms)%nat ->
  ~ iodNormOf Math_sqrt lms == 0 ->
  let raw := (if isNormalized (calibration d) then k (calibration d) else 5.0)
             / iodNormOf Math_sqrt lms in
  estimateDistance Math_sqrt d (Some lms)
  = ({| estimatedDistanceCm := fst (smoothValue d raw);
        bucket := classifyBucket (fst (smoothValue d raw));
        confidence := 0.8 |},
     snd (smoothValue d raw)).
Proof.
  intros Hlen Hne. cbv zeta. unfold estimateDistance.
  destruct (Nat.ltb_spec (length lms) 478) as [|_]; [lia|].
  assert (H33 : nth_error lms 33 = Some (nth 33 lms {| x := 0; y := 0; z := 0 |}))
    by (apply nth_error_nth'; lia).
  assert (H263 : nth_error lms 263 = Some (nth 263 lms {| x := 0; y := 0; z := 0 |}))
    by (apply nth_error_nth'; lia).
  rewrite H33, H263. cbv zeta.
  fold (iodNormOf Math_sqrt lms).
  assert (E : Qeq_bool (iodNormOf Math_sqrt lms) 0 = false)
    by (apply Qeq_bool_false; exact Hne).
  rewrite E.
  destruct (smoothValue d _) as [s d'] eqn:Es. reflexivity.
Qed.

End LegacyFacts.

Module LegacyProps.

Import LegacyDistance LegacyInv NumFacts LegacyFacts.



(** X27.  After [estimateDistance] on a frame with all 478 landmarks and
    eye corners apart, of a calibrated estimator, [getLastMeasurement]
    reports the raw distance [k / iodNorm] of that frame, classified on its
    own and with confidence 1, whereas the estimate returned for the frame
    is the mean of the history, with the bucket of that mean and confidence
    0.8. *)
Theorem getLastMeasurement_raw (Math_sqrt : Q -> Q) (d : DistanceEstimator)
    (lms : list NormalizedLandmark) :
  (478 <= length lms)%nat ->
  ~ iodNormOf Math_sqrt lms == 0 ->
  isNormalized (calibration d) = true ->
  (length (cmHistory d) <= 5)%nat ->
  let raw := k (calibration d) / iodNormOf Math_sqrt lms in
  let e := fst (estimateDistance Math_sqrt d (Some lms)) in
  let d' := snd (estimateDistance Math_sqrt d (Some lms)) in
  getLastMeasurement d'
  = Some {| estimatedDistanceCm := raw; bucket := classifyBucket raw;
            confidence := 1 |}
  /\ estimatedDistanceCm e = Js.sum (cmHistory d') / Js.len (cmHistory d')
  /\ bucket e = classifyBucket (estimatedDistanceCm e)
  /\ confidence e = 0.8
  /\ (length (cmHistory d') <= 5)%nat.
Proof.
  intros Hlen Hne Hnorm Hh. cbv zeta.
  pose proof (estimateDistance_measured Math_sqrt d lms Hlen Hne) as E.
  cbv zeta in E. rewrite Hnorm in E. rewrite E. cbn [fst snd].
  destruct (smoothValue_history d (k (calibration d) / iodNormOf Math_sqrt lms) Hh)
    as (_ & Hl & Hs & (older & Ho) & _).
  cbv zeta in Hl, Hs, Ho.
  split; [|repeat split; assumption].
  unfold getLastMeasurement. rewrite Ho, rev_app_distr. reflexivity.
Qed.

Lemma getLastMeasurement_raw_witness :
  let raw := k (calibration new)
             / iodNormOf Examples.sqrt_squares (Examples.legacyFace 0 (1 # 10)) in
  let e := fst (estimateDistance Examples.sqrt_squares new
                  (Some (Examples.legacyFace 0 (1 # 10)))) in
  let d' := snd (estimateDistance Examples.sqrt_squares new
                   (Some (Examples.legacyFace 0 (1 # 10)))) in
  getLastMeasurement d'
  = Some {| estimatedDistanceCm := raw; bucket := classifyBucket raw;
            confidence := 1 |}
  /\ estimatedDistanceCm e = Js.sum (cmHistory d') / Js.len (cmHistory d')
  /\ bucket e = classifyBucket (estimatedDistanceCm e)
  /\ confidence e = 0.8
  /\ (length (cmHistory d') <= 5)%nat.
Proof.
  apply (getLastMeasurement_raw Examples.sqrt_squares new
           (Examples.legacyFace 0 (1 # 10))).
  - apply Nat.leb_le. vm_compute. reflexivity.
  - intro H. vm_compute in H. discriminate.
  - reflexivity.
  - simpl. lia.
Defined.

(** X28.  [getGuidance] ignores the confidence and warns for the buckets
    NEAR and FAR only: OK and UNKNOWN both give status OK with the message
    Good Distance.  So the guidance on [classifyBucket cm] is Good Distance
    exactly for [40 <= cm <= 75], and a frame without landmarks, or with
    fewer than 478 of them, whose estimate is UNKNOWN with confidence 0,
    is given Good Distance as well. *)
Theorem getGuidance_buckets (Math_sqrt : Q -> Q) (d : DistanceEstimator)
    (confidence' cm : Q) (short : list NormalizedLandmark) :
  let guide b := getGuidance (bucketName b) confidence' in
  guide NEAR = tooClose
  /\ guide FAR = tooFar
  /\ guide OK = goodDistance
  /\ guide UNKNOWN = goodDistance
  /\ (guide (classifyBucket cm) = goodDistance <-> 40 <= cm /\ cm <= 75)
  /\ guide (bucket (fst (estimateDistance Math_sqrt d None))) = goodDistance
  /\ ((length short < 478)%nat ->
      guide (bucket (fst (estimateDistance Math_sqrt d (Some short))))
      = goodDistance).
Proof.
  cbv zeta.
  split; [reflexivity|]. split; [reflexivity|]. split; [reflexivity|].
  split; [reflexivity|]. split; [|split; [reflexivity|]].
  - unfold classifyBucket.
    destruct (cm <? 40) eqn:E1; [|destruct (cm >? 75) eqn:E2]; reflect_cmp; cbn.
    + split; [discriminate|intros [H1 H2]; exfalso; lra].
    + split; [discriminate|intros [H1 H2]; exfalso; lra].
    + split; [intros _; split; assumption|reflexivity].
  - intro Hs. unfold estimateDistance.
    destruct (Nat.ltb_spec (length short) 478) as [_|]; [reflexivity|lia].
Qed.



End LegacyProps.

(** ** The burst check on a steady reading *)

Module SteadyBurstFacts.

Import Engine EngineInv BurstRun NumFacts.

(** The sampling loop in an environment where the frame loop keeps showing
    the same result: [n] turns, then the exit. *)
Lemma burst_loop_turns (end_ : Q) :
  forall (n : nat) (acc : list Q) (env : Env),
    end_ - clock env <= 100 * inject_Z (Z.of_nat n) ->
    (forall k, n = S k -> 100 * inject_Z (Z.of_nat k) < end_ - clock env) ->
    interp_state handle (ITree.iter (burstLoopBody end_) acc) env
    ≈ Ret (afterTurns n env, collected n acc (lastDistanceResult env)).
Proof.
  induction n as [|n IH]; intros acc env Hup Hlow.
  - simpl. apply BurstProps.burst_loop_exit. apply ltb_false.
    change (inject_Z (Z.of_nat 0)) with 0 in Hup. lra.
  - assert (Hlt : (clock env <? end_) = true).
    { apply ltb_true. specialize (Hlow n eq_refl).
      assert (0 <= inject_Z (Z.of_nat n))
        by (change 0 with (inject_Z 0); rewrite <- Zle_Qle; lia).
      lra. }
    rewrite (BurstProps.burst_loop_turn end_ acc env Hlt).
    fold (turn env). simpl afterTurns. simpl collected.
    apply (IH (collect acc (lastDistanceResult env)) (turn env)).
    + rewrite inject_S in Hup. simpl. lra.
    + intros k ->. specialize (Hlow (S k) eq_refl).
      rewrite inject_S in Hlow. simpl. lra.
Qed.

Lemma turns_bounds (ms : Q) :
  ms <= 100 * inject_Z (Z.of_nat (turns ms))
  /\ (forall k, turns ms = S k -> 100 * inject_Z (Z.of_nat k) < ms).
Proof.
  unfold turns.
  pose proof (Qle_ceiling (ms / 100)) as Hc.
  pose proof (Qceiling_lt (ms / 100)) as Hl.
  set (c := Qceiling (ms / 100)) in *.
  assert (E : ms == ms / 100 * 100) by field.
  destruct (Z_lt_le_dec 0 c) as [Hpos|Hneg].
  - rewrite Z2Nat.id by lia. split.
    + lra.
    + intros k Hk.
      assert (Ek : Z.of_nat k = (c - 1)%Z) by lia.
      rewrite Ek.
      unfold Z.sub in *. rewrite inject_Z_plus in *.
      change (inject_Z (-1)) with (-1) in *. lra.
  - assert (En : Z.to_nat c = 0%nat) by lia.
    rewrite En. split.
    + change (inject_Z (Z.of_nat 0)) with 0.
      assert (inject_Z c <= 0) by (change 0 with (inject_Z 0); rewrite <- Zle_Qle; lia).
      lra.
    + intros k Hk. discriminate.
Qed.

Lemma sortAsc_repeat (v : Q) (n : nat) : Js.sortAsc (repeat v n) = repeat v n.
Proof.
  induction n as [|n IH]; simpl; [reflexivity|].
  rewrite IH. destruct n; simpl; [reflexivity|].
  assert (E : (v <=? v) = true) by (apply leb_true, Qle_refl).
  rewrite E. reflexivity.
Qed.

Lemma collected_steady (n : nat) (last : option Distance.DistanceResult) :
  forall acc,
    collected n acc last
    = acc ++ match last with
             | Some r => if Distance.estCm r >? 0
                         then repeat (Distance.estCm r) n else []
             | None => []
             end.
Proof.
  induction n as [|n IH]; intro acc; simpl.
  - destruct last as [r|]; [destruct (_ >? _)|]; rewrite app_nil_r; reflexivity.
  - rewrite IH. unfold collect.
    destruct last as [r|]; [destruct (_ >? _)|]; try reflexivity.
    rewrite <- app_assoc. reflexivity.
Qed.

Lemma afterTurns_effects (n : nat) :
  forall env,
    timers (afterTurns n env) = (timers env + n)%nat
    /\ reads (afterTurns n env) = (reads env + n)%nat
    /\ previews (afterTurns n env) = previews env
    /\ lastDistanceResult (afterTurns n env) = lastDistanceResult env
    /\ clock (afterTurns n env) == clock env + 100 * inject_Z (Z.of_nat n).
Proof.
  induction n as [|n IH]; intro env.
  - simpl. repeat split; try lia. ring.
  - simpl afterTurns. destruct (IH (turn env)) as (H1 & H2 & H3 & H4 & H5).
    rewrite H1, H2, H3, H4, H5, inject_S. simpl.
    repeat split; try lia. ring.
Qed.

Lemma interp_if_ret {S R} (h : burstE ~> Monads.stateT S (itree void1))
    (b : bool) (x y : R) (s : S) :
  interp_state h (if b then Ret x else Ret y) s
  ≈ Ret (s, if b then x else y).
Proof. destruct b; rewrite interp_state_ret; reflexivity. Qed.

End SteadyBurstFacts.

Module SteadyBurstProps.

Import Engine EngineInv BurstRun NumFacts SteadyBurstFacts.

(** X30.  [runDistanceBurst] on a calibrated estimator, while the frame
    loop keeps showing the same last result and every turn of the sampling
    loop takes its 100 ms: the burst lasts [durationMs || 1500], the loop
    takes one turn per started 100 ms of it and then ends, and the preview
    is started only when the engine was not running.  The result carries
    that duration and the number of samples; it is the UNKNOWN result when
    no sample was collected (no last result, or one at 0 cm), and otherwise
    the steady distance with its bucket (NEAR below 30, FAR above 60, else
    OK) and confidence 0.9. *)
Theorem runDistanceBurst_steady (e : CameraEngine) (durationMs : option Q)
    (env : Env) :
  Distance.isCalibrated (distanceEstimator e) = true ->
  let ms := burstMs durationMs in
  let n := turns ms in
  let samples := collected n [] (lastDistanceResult env) in
  exists r,
    interp_state handle (runDistanceBurst e durationMs) env
    ≈ Ret (afterTurns n (started e env), r)
    /\ duration r = ms
    /\ sampleCount r = Js.len samples
    /\ (samples = [] -> r = unknownBurst ms)
    /\ (forall v rest, samples = v :: rest ->
        estimatedCm r = Some v
        /\ bucket r = (if v <? 30 then Distance.NEAR
                       else if v >? 60 then Distance.FAR else Distance.OK)
        /\ confidence r = 0.9).
Proof.
  intros Hcal ms n samples.
  unfold runDistanceBurst. rewrite Hcal. cbn [negb].
  fold (burstMs durationMs). fold ms.
  destruct (turns_bounds ms) as [Hup Hlow]. fold n in Hup, Hlow.
  assert (Hloop : forall env1,
             clock env1 = clock env ->
             interp_state handle
               (ITree.iter (burstLoopBody (clock env + ms)) []) env1
             ≈ Ret (afterTurns n env1,
                    collected n [] (lastDistanceResult env1))).
  { intros env1 Hc. apply burst_loop_turns; rewrite Hc; [lra|].
    intros k Hk. specialize (Hlow k Hk). lra. }
  eexists. split.
  - destruct (hasVideoElement e), (isRunning e) eqn:Hrun; unfold started;
      rewrite ?Hrun; cbn [negb].
    + rewrite !interp_state_bind, interp_state_ret, bind_ret_l.
      cbn -[Nat.div Js.sortAsc collected afterTurns ITree.iter].
      rewrite !interp_state_bind, interp_state_ret, bind_ret_l.
      cbn -[Nat.div Js.sortAsc collected afterTurns ITree.iter].
      rewrite !interp_state_bind, interp_state_trigger.
      cbn -[Nat.div Js.sortAsc collected afterTurns ITree.iter].
      rewrite bind_ret_l.
      cbn -[Nat.div Js.sortAsc collected afterTurns ITree.iter].
      rewrite !interp_state_bind, Hloop, bind_ret_l by reflexivity.
      cbn -[Nat.div Js.sortAsc collected afterTurns ITree.iter].
      rewrite !interp_state_bind, interp_state_ret, bind_ret_l.
      cbn -[Nat.div Js.sortAsc collected afterTurns ITree.iter].
      apply interp_if_ret.
    + rewrite !interp_state_bind, interp_state_ret, bind_ret_l.
      cbn -[Nat.div Js.sortAsc collected afterTurns ITree.iter].
      rewrite !interp_state_bind, interp_state_trigger.
      cbn -[Nat.div Js.sortAsc collected afterTurns ITree.iter].
      rewrite bind_ret_l.
      cbn -[Nat.div Js.sortAsc collected afterTurns ITree.iter].
      rewrite !interp_state_bind, interp_state_trigger.
      cbn -[Nat.div Js.sortAsc collected afterTurns ITree.iter].
      rewrite bind_ret_l.
      cbn -[Nat.div Js.sortAsc collected afterTurns ITree.iter].
      rewrite !interp_state_bind, Hloop, bind_ret_l by reflexivity.
      cbn -[Nat.div Js.sortAsc collected afterTurns ITree.iter].
      rewrite !interp_state_bind, interp_state_trigger.
      cbn -[Nat.div Js.sortAsc collected afterTurns ITree.iter].
      rewrite bind_ret_l.
      cbn -[Nat.div Js.sortAsc collected afterTurns ITree.iter].
      apply interp_if_ret.
    + rewrite !interp_state_bind, interp_state_trigger.
      cbn -[Nat.div Js.sortAsc collected afterTurns ITree.iter].
      rewrite bind_ret_l.
      cbn -[Nat.div Js.sortAsc collected afterTurns ITree.iter].
      rewrite !interp_state_bind, interp_state_ret, bind_ret_l.
      cbn -[Nat.div Js.sortAsc collected afterTurns ITree.iter].
      rewrite !interp_state_bind, interp_state_trigger.
      cbn -[Nat.div Js.sortAsc collected afterTurns ITree.iter].
      rewrite bind_ret_l.
      cbn -[Nat.div Js.sortAsc collected afterTurns ITree.iter].
      rewrite !interp_state_bind, Hloop, bind_ret_l by reflexivity.
      cbn -[Nat.div Js.sortAsc collected afterTurns ITree.iter].
      rewrite !interp_state_bind, interp_state_ret, bind_ret_l.
      cbn -[Nat.div Js.sortAsc collected afterTurns ITree.iter].
      apply interp_if_ret.
    + rewrite !interp_state_bind, interp_state_trigger.
      cbn -[Nat.div Js.sortAsc collected afterTurns ITree.iter].
      rewrite bind_ret_l.
      cbn -[Nat.div Js.sortAsc collected afterTurns ITree.iter].
      rewrite !interp_state_bind, interp_state_trigger.
      cbn -[Nat.div Js.sortAsc collected afterTurns ITree.iter].
      rewrite bind_ret_l.
      cbn -[Nat.div Js.sortAsc collected afterTurns ITree.iter].
      rewrite !interp_state_bind, interp_state_trigger.
      cbn -[Nat.div Js.sortAsc collected afterTurns ITree.iter].
      rewrite bind_ret_l.
      cbn -[Nat.div Js.sortAsc collected afterTurns ITree.iter].
      rewrite !interp_state_bind, Hloop, bind_ret_l by reflexivity.
      cbn -[Nat.div Js.sortAsc collected afterTurns ITree.iter].
      rewrite !interp_state_bind, interp_state_trigger.
      cbn -[Nat.div Js.sortAsc collected afterTurns ITree.iter].
      rewrite bind_ret_l.
      cbn -[Nat.div Js.sortAsc collected afterTurns ITree.iter].
      apply interp_if_ret.
  - fold samples.
    assert (Hs : samples
                 = match lastDistanceResult env with
                   | Some r => if Distance.estCm r >? 0
                               then repeat (Distance.estCm r) n else []
                   | None => []
                   end)
      by (subst samples; rewrite collected_steady; reflexivity).
    clearbody samples.
    destruct samples as [|v rest].
    + cbn [length Nat.eqb].
      split; [reflexivity|]. split; [reflexivity|].
      split; [intros _; reflexivity|]. intros v0 rest0 Hv. discriminate.
    + cbn [length Nat.eqb]. cbn [duration sampleCount estimatedCm bucket confidence].
      split; [reflexivity|]. split; [reflexivity|]. split; [discriminate|].
      intros v' rest' Hv. injection Hv as <- <-.
      assert (Hrep : v :: rest = repeat v (length (v :: rest))).
      { destruct (lastDistanceResult env) as [r|]; [|discriminate].
        destruct (_ >? _); [|discriminate].
        assert (El : length (v :: rest) = n)
          by (rewrite Hs; apply repeat_length).
        rewrite El. rewrite Hs at 1.
        assert (Ev : v = Distance.estCm r).
        { destruct n; simpl in Hs; [discriminate|]. injection Hs as Hv _. exact Hv. }
        rewrite Ev. reflexivity. }
      assert (Hmed : nth (length (Js.sortAsc (v :: rest)) / 2)
                       (Js.sortAsc (v :: rest)) 0 = v).
      { rewrite Hrep, sortAsc_repeat, repeat_length.
        assert (Hin : In (nth (length (v :: rest) / 2)
                            (repeat v (length (v :: rest))) 0)
                         (repeat v (length (v :: rest)))).
        { apply nth_In. rewrite repeat_length.
          apply Nat.div_lt; simpl; lia. }
        apply repeat_spec in Hin. exact Hin. }
      rewrite Hmed. repeat split.
Qed.

Lemma runDistanceBurst_steady_witness :
  let ms := burstMs (Some 200) in
  let n := turns ms in
  let samples := collected n [] (lastDistanceResult Examples.quietEnv) in
  exists r,
    interp_state handle
      (runDistanceBurst Examples.calibratedEngine (Some 200))
      Examples.quietEnv
    ≈ Ret (afterTurns n (started Examples.calibratedEngine Examples.quietEnv), r)
    /\ duration r = ms
    /\ sampleCount r = Js.len samples
    /\ (samples = [] -> r = unknownBurst ms)
    /\ (forall v rest, samples = v :: rest ->
        estimatedCm r = Some v
        /\ bucket r = (if v <? 30 then Distance.NEAR
                       else if v >? 60 then Distance.FAR else Distance.OK)
        /\ confidence r = 0.9).
Proof.
  apply (runDistanceBurst_steady Examples.calibratedEngine (Some 200)
           Examples.quietEnv).
  reflexivity.
Defined.

End SteadyBurstProps.
